(** * The bridge metaprotocol of the indexer: [Bridge.Process]

    A shallow embedding of [indexer/src/indexer/metaprotocol/bridge.go]
    together with the tables of the relational schema it reads and writes.
    The sources hold three revisions of this file.  The one embedded here is
    the latest: its [send] carries [tic], [amt], [rch], [rco] and [dst], it
    checks the [bridge_remote_chain] and [bridge_token] tables, and it signs
    seven fields.  (The revision before it reads [dst] and [to], checks
    neither table and signs six fields; the first one stores a placeholder
    for the signature.)

    Go strings are byte strings ([string] of [ascii]); [uint64] is a [Z] with
    its wrap-around written out; [float64] is the IEEE-754 binary64 format of
    [SpecFloat].  The database handle [protocol.db] becomes a [World] that is
    threaded through a small state-and-error monad: the tables, the
    statements the driver refuses, and a journal of the writes and signatures
    made.  What the source takes from the Go standard library, from the chain
    client and from the crypto packages is collected in interfaces (type
    classes); [encoding/base64] is written out.  Concrete instances of the
    interfaces are given further down and are used to run the processor on
    literal inputs. *)

From Stdlib Require Import ZArith String List Ascii Bool Lia.
From Stdlib Require Import Floats.SpecFloat.
Import ListNotations.

Local Open Scope string_scope.
Local Open Scope Z_scope.

(** ** Results *)

Inductive result (E A : Type) : Type :=
| Ok (a : A)
| Err (e : E).

Arguments Ok {E A} a.
Arguments Err {E A} e.

Definition is_err {E A} (r : result E A) : bool :=
  match r with Ok _ => false | Err _ => true end.

(** ** The parts of the Go language and standard library the processor uses *)

Module Go.

(** A Go [string] used as [[]byte]. *)
Definition bytes := string.

(** [float64]: binary64, 53 bits of precision, exponents below 1024. *)
Definition float64 := spec_float.
Definition prec : Z := 53.
Definition emax : Z := 1024.

Definition float64_of_Z (n : Z) : float64 := binary_normalize prec emax n 0 false.

(** The untyped constant [0] of [amount <= 0], converted to [float64]. *)
Definition zero : float64 := S754_zero false.

(** [a <= b] on [float64]; false as soon as one side is NaN. *)
Definition le (a b : float64) : bool := SFleb a b.

(** Magnitude [m * 2^e] with the fraction discarded. *)
Definition magnitude_floor (m : positive) (e : Z) : Z :=
  if 0 <=? e then Z.pos m * 2 ^ e else Z.pos m / 2 ^ (- e).

(** Magnitude [m * 2^e] rounded to the nearest integer, halves upwards. *)
Definition magnitude_round (m : positive) (e : Z) : Z :=
  if 0 <=? e then Z.pos m * 2 ^ e
  else (Z.pos m + 2 ^ (- e - 1)) / 2 ^ (- e).

Definition signed (s : bool) (a : Z) : Z := if s then - a else a.

(** The integer a finite float truncates to; nothing for NaN and the
    infinities. *)
Definition trunc (x : float64) : option Z :=
  match x with
  | S754_zero _ => Some 0
  | S754_finite s m e => Some (signed s (magnitude_floor m e))
  | S754_infinity _ | S754_nan => None
  end.

(** [math.Round]: nearest integer, halves away from zero; zeros, infinities
    and NaN are returned as they are. *)
Definition Round (x : float64) : float64 :=
  match x with
  | S754_finite s m e =>
      binary_normalize prec emax (signed s (magnitude_round m e)) 0 s
  | _ => x
  end.

Definition two64 : Z := 2 ^ 64.

(** [a - b] on [uint64]. *)
Definition sub64 (a b : Z) : Z := (a - b) mod two64.

(** [a < b] on [uint64]. *)
Definition lt64 (a b : Z) : bool := a <? b.

(** The interface to the library: [strings.TrimSpace], [strings.ToUpper],
    [strconv.ParseFloat(s, 64)], and the value of the conversion
    [uint64(x)] where the language leaves it to the implementation (the
    value is not representable).  A failed parse carries the library's
    error text. *)
Class Library := {
  TrimSpace : string -> string;
  ToUpper : string -> string;
  ParseFloat : string -> result string float64;
  uint64_unrepresentable : float64 -> Z;
}.

(** The conversion [uint64(x)] of a non-constant [float64]: the fraction
    is discarded when the result fits. *)
Definition uint64 `{Library} (x : float64) : Z :=
  match trunc x with
  | Some z => if (0 <=? z) && (z <? two64) then z
              else uint64_unrepresentable x mod two64
  | None => uint64_unrepresentable x mod two64
  end.

End Go.

(** ** [encoding/base64], the standard encoding with padding *)

Module b64.

Definition alphabet : string :=
  "ABCDEFGHIJKLMNOPQRSTUVWXYZabcdefghijklmnopqrstuvwxyz0123456789+/".

Definition pad : ascii := "="%char.

Definition byte_val (c : ascii) : Z := Z.of_N (N_of_ascii c).
Definition byte_of (z : Z) : ascii := ascii_of_N (Z.to_N z).

(** The character of a 6-bit value. *)
Definition digit (n : Z) : ascii :=
  match String.get (Z.to_nat n) alphabet with
  | Some c => c
  | None => pad
  end.

Fixpoint index_from (i : Z) (c : ascii) (s : string) : option Z :=
  match s with
  | EmptyString => None
  | String d s' => if Ascii.eqb c d then Some i else index_from (i + 1) c s'
  end.

(** The 6-bit value of a character of the alphabet. *)
Definition index (c : ascii) : option Z := index_from 0 c alphabet.

(** Three source bytes make four characters; a remainder of one or two
    bytes is padded with [=]. *)
Fixpoint EncodeToString (src : string) : string :=
  match src with
  | String a (String b (String c rest)) =>
      let val := byte_val a * 65536 + byte_val b * 256 + byte_val c in
      String (digit (val / 262144))
        (String (digit (val / 4096 mod 64))
           (String (digit (val / 64 mod 64))
              (String (digit (val mod 64)) (EncodeToString rest))))
  | String a (String b EmptyString) =>
      let val := byte_val a * 65536 + byte_val b * 256 in
      String (digit (val / 262144))
        (String (digit (val / 4096 mod 64))
           (String (digit (val / 64 mod 64)) (String pad EmptyString)))
  | String a EmptyString =>
      let val := byte_val a * 65536 in
      String (digit (val / 262144))
        (String (digit (val / 4096 mod 64))
           (String pad (String pad EmptyString)))
  | EmptyString => EmptyString
  end.

Definition corrupt : string := "illegal base64 data".

Definition is_newline (c : ascii) : bool :=
  Ascii.eqb c "010"%char || Ascii.eqb c "013"%char.

Fixpoint strip_newlines (s : string) : string :=
  match s with
  | EmptyString => EmptyString
  | String c s' =>
      if is_newline c then strip_newlines s' else String c (strip_newlines s')
  end.

(** Quanta of four characters; padding is accepted in the last one only. *)
Fixpoint decode_quanta (s : string) : result string string :=
  match s with
  | EmptyString => Ok EmptyString
  | String c0 (String c1 (String c2 (String c3 rest))) =>
      match index c0, index c1 with
      | Some s0, Some s1 =>
          match index c2, index c3 with
          | Some s2, Some s3 =>
              let val := s0 * 262144 + s1 * 4096 + s2 * 64 + s3 in
              match decode_quanta rest with
              | Ok out =>
                  Ok (String (byte_of (val / 65536))
                        (String (byte_of (val / 256 mod 256))
                           (String (byte_of (val mod 256)) out)))
              | Err e => Err e
              end
          | Some s2, None =>
              let val := s0 * 262144 + s1 * 4096 + s2 * 64 in
              match rest with
              | EmptyString =>
                  if Ascii.eqb c3 pad then
                    Ok (String (byte_of (val / 65536))
                          (String (byte_of (val / 256 mod 256)) EmptyString))
                  else Err corrupt
              | _ => Err corrupt
              end
          | None, _ =>
              let val := s0 * 262144 + s1 * 4096 in
              match rest with
              | EmptyString =>
                  if Ascii.eqb c2 pad && Ascii.eqb c3 pad then
                    Ok (String (byte_of (val / 65536)) EmptyString)
                  else Err corrupt
              | _ => Err corrupt
              end
          end
      | _, _ => Err corrupt
      end
  | _ => Err corrupt
  end.

(** [StdEncoding.DecodeString]: carriage returns and line feeds are
    skipped.  The position the library appends to its error text is left
    out. *)
Definition DecodeString (s : string) : result string string :=
  decode_quanta (strip_newlines s).

End b64.

(** ** The models

    One record per table of the schema, with the columns the processor reads
    or writes under the names of the Go structs.  Identifiers, heights and
    timestamps are integers; [Amount] is a [uint64]. *)

Module Transaction.
Record t := {
  ID : Z;
  Height : Z;
  Hash : string;
  DateCreated : Z;
}.
End Transaction.

Module Token.
Record t := {
  ID : Z;
  ChainID : string;
  Ticker : string;
  Decimals : Z;
}.
End Token.

Module TokenHolder.
Record t := {
  ID : Z;
  ChainID : string;
  TokenID : Z;
  Address : string;
  Amount : Z;
  DateUpdated : Z;
}.

Definition with_Amount (h : t) (a : Z) : t :=
  {| ID := ID h; ChainID := ChainID h; TokenID := TokenID h;
     Address := Address h; Amount := a; DateUpdated := DateUpdated h |}.
End TokenHolder.

Module TokenAddressHistory.
Record t := {
  ID : Z;
  ChainID : string;
  Height : Z;
  TransactionID : Z;
  TokenID : Z;
  Sender : string;
  Receiver : string;
  Action : string;
  Amount : Z;
  DateCreated : Z;
}.

Definition with_ID (r : t) (i : Z) : t :=
  {| ID := i; ChainID := ChainID r; Height := Height r;
     TransactionID := TransactionID r; TokenID := TokenID r;
     Sender := Sender r; Receiver := Receiver r; Action := Action r;
     Amount := Amount r; DateCreated := DateCreated r |}.
End TokenAddressHistory.

Module BridgeRemoteChain.
Record t := {
  ID : Z;
  ChainID : string;
  RemoteChainID : string;
  RemoteContract : string;
  IBCChannel : string;
}.
End BridgeRemoteChain.

Module BridgeToken.
Record t := {
  ID : Z;
  RemoteChainID : Z;
  TokenID : Z;
  Enabled : bool;
}.
End BridgeToken.

Module BridgeHistory.
Record t := {
  ID : Z;
  ChainID : string;
  Height : Z;
  TransactionID : Z;
  TokenID : Z;
  Sender : string;
  Action : string;
  Amount : Z;
  RemoteChainID : string;
  RemoteContract : string;
  Receiver : string;
  Signature : string;
  DateCreated : Z;
}.

Definition with_ID (r : t) (i : Z) : t :=
  {| ID := i; ChainID := ChainID r; Height := Height r;
     TransactionID := TransactionID r; TokenID := TokenID r;
     Sender := Sender r; Action := Action r; Amount := Amount r;
     RemoteChainID := RemoteChainID r; RemoteContract := RemoteContract r;
     Receiver := Receiver r; Signature := Signature r;
     DateCreated := DateCreated r |}.
End BridgeHistory.

(** The parsed protocol string: [urn:bridge:<chain>@<version>;<op>$k=v,...].
    [KeyValuePairs] is a Go map; reading a key that is absent gives the
    empty string. *)
Module ProtocolURN.
Record t := {
  ChainID : string;
  Version : string;
  Operation : string;
  KeyValuePairs : list (string * string);
}.

Fixpoint lookup (kv : list (string * string)) (k : string) : string :=
  match kv with
  | [] => ""
  | (k', v) :: kv' => if String.eqb k k' then v else lookup kv' k
  end.

Definition get (u : t) (k : string) : string := lookup (KeyValuePairs u) k.
End ProtocolURN.

(** ** The relational store behind [protocol.db] *)

Module gorm.

Record DB := {
  token : list Token.t;
  bridge_remote_chain : list BridgeRemoteChain.t;
  bridge_token : list BridgeToken.t;
  token_holder : list TokenHolder.t;
  token_address_history : list TokenAddressHistory.t;
  bridge_history : list BridgeHistory.t;
}.

(** The statements the processor issues, one per call site. *)
Inductive Site :=
| FirstToken
| FirstBridgeRemoteChain
| FirstBridgeToken
| FirstTokenHolder
| SaveTokenHolder
| SaveTokenAddressHistory
| SaveBridgeHistory.

Definition ErrRecordNotFound : string := "record not found".

(** [Where(cond).First(&row)]: of the rows that satisfy the condition, the
    one with the smallest primary key. *)
Fixpoint first_row {R : Type} (id : R -> Z) (cond : R -> bool)
  (rows : list R) : option R :=
  match rows with
  | [] => None
  | r :: rows' =>
      let later := first_row id cond rows' in
      if cond r then
        match later with
        | Some r' => if id r' <? id r then Some r' else Some r
        | None => Some r
        end
      else later
  end.

(** The value a [serial4] column takes on insert. *)
Definition next_id {R : Type} (id : R -> Z) (rows : list R) : Z :=
  1 + fold_right (fun r acc => Z.max (id r) acc) 0 rows.

(** [Save(&holder)]: an insert when the primary key is zero; otherwise an
    update of every column of the row with that key, and an insert when
    there is no such row. *)
Definition save_token_holder (h : TokenHolder.t) (rows : list TokenHolder.t)
  : list TokenHolder.t :=
  if TokenHolder.ID h =? 0 then
    rows ++ [ {| TokenHolder.ID := next_id TokenHolder.ID rows;
                 TokenHolder.ChainID := TokenHolder.ChainID h;
                 TokenHolder.TokenID := TokenHolder.TokenID h;
                 TokenHolder.Address := TokenHolder.Address h;
                 TokenHolder.Amount := TokenHolder.Amount h;
                 TokenHolder.DateUpdated := TokenHolder.DateUpdated h |} ]
  else if existsb (fun r => TokenHolder.ID r =? TokenHolder.ID h) rows then
    map (fun r => if TokenHolder.ID r =? TokenHolder.ID h then h else r) rows
  else rows ++ [h].

(** The row as it is stored by [Save] of a history struct built with a zero
    primary key. *)
Definition stored_token_address_history (r : TokenAddressHistory.t)
  (rows : list TokenAddressHistory.t) : TokenAddressHistory.t :=
  TokenAddressHistory.with_ID r (next_id TokenAddressHistory.ID rows).

Definition stored_bridge_history (r : BridgeHistory.t)
  (rows : list BridgeHistory.t) : BridgeHistory.t :=
  BridgeHistory.with_ID r (next_id BridgeHistory.ID rows).

Definition set_token_holder (d : DB) (rows : list TokenHolder.t) : DB :=
  {| token := token d; bridge_remote_chain := bridge_remote_chain d;
     bridge_token := bridge_token d; token_holder := rows;
     token_address_history := token_address_history d;
     bridge_history := bridge_history d |}.

Definition set_token_address_history (d : DB)
  (rows : list TokenAddressHistory.t) : DB :=
  {| token := token d; bridge_remote_chain := bridge_remote_chain d;
     bridge_token := bridge_token d; token_holder := token_holder d;
     token_address_history := rows;
     bridge_history := bridge_history d |}.

Definition set_bridge_history (d : DB) (rows : list BridgeHistory.t) : DB :=
  {| token := token d; bridge_remote_chain := bridge_remote_chain d;
     bridge_token := bridge_token d; token_holder := token_holder d;
     token_address_history := token_address_history d;
     bridge_history := rows |}.

End gorm.

(** ** What a run of the processor does to the outside *)

Inductive Event :=
| SavedTokenHolder (h : TokenHolder.t)
| SavedTokenAddressHistory (r : TokenAddressHistory.t)
| Signed (attestation signature : Go.bytes)
| SavedBridgeHistory (r : BridgeHistory.t).

(** The state a call runs against: the tables, the statements the driver
    refuses (with its error text), and the effects so far, oldest first. *)
Record World := {
  db : gorm.DB;
  fault : gorm.Site -> option string;
  journal : list Event;
}.

(** The errors [Process] returns, one constructor per [return] of the
    source. *)
Inductive error :=
| ErrSender (e : string)
| ErrProtocolString (e : string)
| ErrChainMismatch
| ErrTokenMissing (ticker : string)
| ErrRemoteChainMissing (remoteChainId : string)
| ErrRemoteContract (remoteChainId : string)
| ErrNotEnabled (ticker remoteChainId : string)
| ErrAmountSyntax (e : string)
| ErrAmountNotPositive
| ErrNoHolder
| ErrInsufficient
| ErrBalanceUpdate
| ErrSave (e : string).

(** The text of [err.Error()]. *)
Definition Error (e : error) : string :=
  match e with
  | ErrSender e => e
  | ErrProtocolString e => e
  | ErrChainMismatch =>
      "chain ID in protocol string does not match transaction chain ID"
  | ErrTokenMissing ticker =>
      "token with ticker '" ++ ticker ++ "' doesn't exist"
  | ErrRemoteChainMissing rch => "remote chain '" ++ rch ++ "' doesn't exist"
  | ErrRemoteContract rch => "incorrect remote contract for chain '" ++ rch ++ "'"
  | ErrNotEnabled ticker rch =>
      "token " ++ ticker ++ " not enabled for bridging to " ++ rch
  | ErrAmountSyntax e => "unable to parse amount '" ++ e ++ "'"
  | ErrAmountNotPositive => "amount must be greater than 0"
  | ErrNoHolder => "sender does not have any tokens to sell"
  | ErrInsufficient => "sender does not have enough tokens to sell"
  | ErrBalanceUpdate => "unable to update seller's balance '%!s(<nil>)'"
  | ErrSave e => e
  end.

(** ** The collaborators of the processor *)

(** [crypto/ed25519]: signing is a function of key and message, and a
    signature verifies under the public half of the key that made it. *)
Module ed25519.
Class Scheme := {
  PrivateKey : Type;
  PublicKey : Type;
  Public : PrivateKey -> PublicKey;
  Sign : PrivateKey -> Go.bytes -> Go.bytes;
  Verify : PublicKey -> Go.bytes -> Go.bytes -> bool;
  Verify_Sign :
    forall priv message, Verify (Public priv) message (Sign priv message) = true;
}.
End ed25519.

(** [crypto/x509]: the two DER parsers return a key of any algorithm. *)
Module x509.
Inductive any `{ed25519.Scheme} :=
| Ed25519Private (k : ed25519.PrivateKey)
| Ed25519Public (k : ed25519.PublicKey)
| Other.

Class Parser `{ed25519.Scheme} := {
  ParsePKCS8PrivateKey : Go.bytes -> result string any;
  ParsePKIXPublicKey : Go.bytes -> result string any;
}.
End x509.

(** The chain client's raw transaction with its [GetSenderAddress], and the
    URN of the memo with [ParseProtocolString]. *)
Class Envelope := {
  RawTransaction : Type;
  GetSenderAddress : RawTransaction -> result string string;
  URN : Type;
  ParseProtocolString : URN -> result string ProtocolURN.t;
}.

(** ** State and errors *)

Definition M (A : Type) : Type := World -> result error A * World.

Definition ret {A : Type} (a : A) : M A := fun w => (Ok a, w).

Definition throw {A : Type} (e : error) : M A := fun w => (Err e, w).

Definition bind {A B : Type} (m : M A) (k : A -> M B) : M B :=
  fun w =>
    match m w with
    | (Ok a, w') => k a w'
    | (Err e, w') => (Err e, w')
    end.

Notation "x <- m ;; k" := (bind m (fun x => k))
  (at level 61, m at next level, right associativity).

(** [if err != nil { return wrap(err) }] after a call of a collaborator. *)
Definition try {A : Type} (wrap : string -> error) (r : result string A) : M A :=
  match r with
  | Ok a => ret a
  | Err e => throw (wrap e)
  end.

(** [result := protocol.db.Where(...).First(&row)]; the value is
    [result.Error] or the row. *)
Definition First {R : Type} (site : gorm.Site) (table : gorm.DB -> list R)
  (id : R -> Z) (cond : R -> bool) : M (result string R) :=
  fun w =>
    (Ok match fault w site with
        | Some e => Err e
        | None =>
            match gorm.first_row id cond (table (db w)) with
            | Some r => Ok r
            | None => Err gorm.ErrRecordNotFound
            end
        end, w).

(** [result = protocol.db.Save(&row)]; the value is [result.Error].  A
    statement the driver refuses changes nothing. *)
Definition Save (site : gorm.Site) (write : gorm.DB -> gorm.DB)
  (ev : Event) : M (option string) :=
  fun w =>
    match fault w site with
    | Some e => (Ok (Some e), w)
    | None =>
        (Ok None,
         {| db := write (db w); fault := fault w;
            journal := journal w ++ [ev] |})
    end.

(** [ed25519.Sign(priv, message)]. *)
Definition sign `{ed25519.Scheme} (priv : ed25519.PrivateKey)
  (message : Go.bytes) : M Go.bytes :=
  fun w =>
    let signature := ed25519.Sign priv message in
    (Ok signature,
     {| db := db w; fault := fault w;
        journal := journal w ++ [Signed message signature] |}).

(** ** The conditions of the queries

    One predicate per [Where] of the processor, named by the table. *)

Module Where.

(** ["chain_id = ? AND ticker = ?"] *)
Definition token (chain_id ticker : string) (r : Token.t) : bool :=
  (Token.ChainID r =? chain_id)%string && (Token.Ticker r =? ticker)%string.

(** ["chain_id = ? AND remote_chain_id = ?"] *)
Definition bridge_remote_chain (chain_id remote_chain_id : string)
  (r : BridgeRemoteChain.t) : bool :=
  (BridgeRemoteChain.ChainID r =? chain_id)%string
  && (BridgeRemoteChain.RemoteChainID r =? remote_chain_id)%string.

(** ["remote_chain_id = ? AND token_id = ?"] *)
Definition bridge_token (remote_chain_id token_id : Z) (r : BridgeToken.t)
  : bool :=
  (BridgeToken.RemoteChainID r =? remote_chain_id)
  && (BridgeToken.TokenID r =? token_id).

(** ["chain_id = ? AND token_id = ? AND address = ?"] *)
Definition token_holder (chain_id : string) (token_id : Z) (address : string)
  (r : TokenHolder.t) : bool :=
  (TokenHolder.ChainID r =? chain_id)%string
  && (TokenHolder.TokenID r =? token_id)
  && (TokenHolder.Address r =? address)%string.

End Where.

(** ** The bridge processor *)

Section BridgeProcessor.

Context {library : Go.Library} {scheme : ed25519.Scheme}
  {parser : x509.Parser} {envelope : Envelope}.

Record BridgeConfig := {
  BridgePrivateKey : string;
  BridgePublicKey : string;
}.

Record Bridge := {
  chainID : string;
  privKey : ed25519.PrivateKey;
  pubKey : ed25519.PublicKey;
}.

(** [NewBridgeProcessor], given what [envconfig.Process] made of the
    environment.  [Err] stands for the exits through [log.Fatalf] and for
    the panic of a failed type assertion. *)
Definition NewBridgeProcessor (chainID : string)
  (config : result string BridgeConfig) : result string Bridge :=
  match config with
  | Err e => Err ("Unable to process config: " ++ e)
  | Ok config =>
      match b64.DecodeString (BridgePrivateKey config) with
      | Err e => Err ("Unable to parse private key: " ++ e)
      | Ok privKeyDer =>
          match b64.DecodeString (BridgePublicKey config) with
          | Err e => Err ("Unable to parse public key: " ++ e)
          | Ok pubKeyDer =>
              match x509.ParsePKCS8PrivateKey privKeyDer with
              | Err e => Err ("Unable to parse public key: " ++ e)
              | Ok privKey =>
                  match x509.ParsePKIXPublicKey pubKeyDer with
                  | Err e => Err ("Unable to parse public key: " ++ e)
                  | Ok pubKey =>
                      match privKey, pubKey with
                      | x509.Ed25519Private priv, x509.Ed25519Public pub =>
                          Ok {| chainID := chainID; privKey := priv;
                                pubKey := pub |}
                      | _, _ => Err "interface conversion"
                      end
                  end
              end
          end
      end
  end.

Definition Name (protocol : Bridge) : string := "bridge".

Definition Process (protocol : Bridge) (transactionModel : Transaction.t)
  (protocolURN : URN) (rawTransaction : RawTransaction) : M unit :=
  sender <- try ErrSender (GetSenderAddress rawTransaction) ;;
  parsedURN <- try ErrProtocolString (ParseProtocolString protocolURN) ;;
  if negb (ProtocolURN.ChainID parsedURN =? chainID protocol)%string then
    throw ErrChainMismatch
  else if (ProtocolURN.Operation parsedURN =? "send")%string then
    let ticker := Go.TrimSpace (ProtocolURN.get parsedURN "tic") in
    let ticker := Go.ToUpper ticker in
    (* Check if the ticker exists *)
    result <- First gorm.FirstToken gorm.token Token.ID
                (Where.token (ProtocolURN.ChainID parsedURN) ticker) ;;
    match result with
    | Err _ => throw (ErrTokenMissing ticker)
    | Ok tokenModel =>
    (* Check if we know about the remote chain *)
    let remoteChainId := Go.TrimSpace (ProtocolURN.get parsedURN "rch") in
    result <- First gorm.FirstBridgeRemoteChain gorm.bridge_remote_chain
                BridgeRemoteChain.ID
                (Where.bridge_remote_chain (ProtocolURN.ChainID parsedURN)
                   remoteChainId) ;;
    match result with
    | Err _ => throw (ErrRemoteChainMissing remoteChainId)
    | Ok remoteChainModel =>
    (* Check that the remote contract matches what we expect *)
    let remoteContract := Go.TrimSpace (ProtocolURN.get parsedURN "rco") in
    if negb (BridgeRemoteChain.RemoteContract remoteChainModel =? remoteContract)%string then
      throw (ErrRemoteContract remoteChainId)
    else
    (* Check if this token has been enabled for bridging *)
    result <- First gorm.FirstBridgeToken gorm.bridge_token BridgeToken.ID
                (Where.bridge_token (BridgeRemoteChain.ID remoteChainModel)
                   (Token.ID tokenModel)) ;;
    match result with
    | Err _ => throw (ErrNotEnabled ticker remoteChainId)
    | Ok bridgeTokenModel =>
    if negb (BridgeToken.Enabled bridgeTokenModel) then
      throw (ErrNotEnabled ticker remoteChainId)
    else
    let receiverAddress := Go.TrimSpace (ProtocolURN.get parsedURN "dst") in
    let amountString := Go.TrimSpace (ProtocolURN.get parsedURN "amt") in
    amount <- try ErrAmountSyntax (Go.ParseFloat amountString) ;;
    if Go.le amount Go.zero then throw ErrAmountNotPositive else
    (* Check that the user has enough tokens to send *)
    result <- First gorm.FirstTokenHolder gorm.token_holder TokenHolder.ID
                (Where.token_holder (ProtocolURN.ChainID parsedURN)
                   (Token.ID tokenModel) sender) ;;
    match result with
    | Err _ => throw ErrNoHolder
    | Ok holderModel =>
    if Go.lt64 (TokenHolder.Amount holderModel) (Go.uint64 amount) then
      throw ErrInsufficient
    else
    (* At this point we know that the sender has enough tokens to send
       so update the sender's balance *)
    let holderModel :=
      TokenHolder.with_Amount holderModel
        (Go.sub64 (TokenHolder.Amount holderModel) (Go.uint64 amount)) in
    result <- Save gorm.SaveTokenHolder
                (fun d => gorm.set_token_holder d
                            (gorm.save_token_holder holderModel (gorm.token_holder d)))
                (SavedTokenHolder holderModel) ;;
    match result with
    | Some _ => throw ErrBalanceUpdate
    | None =>
    (* Record the transfer *)
    let historyModel :=
      {| TokenAddressHistory.ID := 0;
         TokenAddressHistory.ChainID := ProtocolURN.ChainID parsedURN;
         TokenAddressHistory.Height := Transaction.Height transactionModel;
         TokenAddressHistory.TransactionID := Transaction.ID transactionModel;
         TokenAddressHistory.TokenID := Token.ID tokenModel;
         TokenAddressHistory.Sender := sender;
         TokenAddressHistory.Receiver := "bridge";
         TokenAddressHistory.Action := "bridge";
         TokenAddressHistory.Amount := Go.uint64 (Go.Round amount);
         TokenAddressHistory.DateCreated := Transaction.DateCreated transactionModel |} in
    result <- Save gorm.SaveTokenAddressHistory
                (fun d => gorm.set_token_address_history d
                            (gorm.token_address_history d
                             ++ [gorm.stored_token_address_history historyModel
                                   (gorm.token_address_history d)]))
                (SavedTokenAddressHistory historyModel) ;;
    match result with
    | Some e => throw (ErrSave e)
    | None =>
    (* Note: A signature is spendable! Create and store it last. *)
    let attestation :=
      ProtocolURN.ChainID parsedURN ++ Transaction.Hash transactionModel
      ++ Token.Ticker tokenModel ++ amountString ++ remoteChainId
      ++ remoteContract ++ receiverAddress in
    signed <- sign (privKey protocol) attestation ;;
    let signature := b64.EncodeToString signed in
    (* Record the bridge operation *)
    let bridgeHistory :=
      {| BridgeHistory.ID := 0;
         BridgeHistory.ChainID := ProtocolURN.ChainID parsedURN;
         BridgeHistory.Height := Transaction.Height transactionModel;
         BridgeHistory.TransactionID := Transaction.ID transactionModel;
         BridgeHistory.TokenID := Token.ID tokenModel;
         BridgeHistory.Sender := sender;
         BridgeHistory.Action := "send";
         BridgeHistory.Amount := Go.uint64 (Go.Round amount);
         BridgeHistory.RemoteChainID := remoteChainId;
         BridgeHistory.RemoteContract := remoteContract;
         BridgeHistory.Receiver := receiverAddress;
         BridgeHistory.Signature := signature;
         BridgeHistory.DateCreated := Transaction.DateCreated transactionModel |} in
    result <- Save gorm.SaveBridgeHistory
                (fun d => gorm.set_bridge_history d
                            (gorm.bridge_history d
                             ++ [gorm.stored_bridge_history bridgeHistory
                                   (gorm.bridge_history d)]))
                (SavedBridgeHistory bridgeHistory) ;;
    match result with
    | Some e => throw (ErrSave e)
    | None => ret tt
    end end end end end end end
  else ret tt.

End BridgeProcessor.

(** ** Concrete collaborators

    Instances of the interfaces above on which the processor can be run.
    The library instance follows Go on ASCII text and on plain decimal
    literals, and refuses the other forms [strconv.ParseFloat] reads
    (exponents, hexadecimal floats, infinities, NaN).  The signature scheme
    is a stand-in with the interface of Ed25519, not the curve arithmetic,
    and so are the DER parsers. *)

Module Concrete.

Definition is_space (c : ascii) : bool :=
  let n := b64.byte_val c in ((9 <=? n) && (n <=? 13)) || (n =? 32).

Fixpoint trim_left (s : string) : string :=
  match s with
  | String c s' => if is_space c then trim_left s' else s
  | EmptyString => EmptyString
  end.

Fixpoint trim_right (s : string) : string :=
  match s with
  | String c s' =>
      match trim_right s' with
      | EmptyString => if is_space c then EmptyString else String c EmptyString
      | t => String c t
      end
  | EmptyString => EmptyString
  end.

Definition TrimSpace (s : string) : string := trim_right (trim_left s).

Definition upper (c : ascii) : ascii :=
  let n := b64.byte_val c in
  if (97 <=? n) && (n <=? 122) then b64.byte_of (n - 32) else c.

Fixpoint ToUpper (s : string) : string :=
  match s with
  | String c s' => String (upper c) (ToUpper s')
  | EmptyString => EmptyString
  end.

(** A run of decimal digits: its value, its length and what follows. *)
Fixpoint digits (s : string) (value count : Z) : Z * Z * string :=
  match s with
  | String c s' =>
      let n := b64.byte_val c in
      if (48 <=? n) && (n <=? 57)
      then digits s' (10 * value + (n - 48)) (count + 1)
      else (value, count, s)
  | EmptyString => (value, count, s)
  end.

Definition ErrSyntax : string := "invalid syntax".

(** Unsigned [ddd], [ddd.ddd], [.ddd] with a mantissa below [2^53] and at
    most 22 fraction digits: mantissa and power of ten are exact floats and
    one correctly rounded division gives the nearest [float64]. *)
Definition parse_unsigned (s : string) : result string Go.float64 :=
  let '(int_value, int_count, rest) := digits s 0 0 in
  let '(mantissa, frac_count, rest) :=
    match rest with
    | String "." rest' =>
        let '(value, count, rest'') := digits rest' int_value 0 in
        (value, count, rest'')
    | _ => (int_value, 0, rest)
    end in
  match rest with
  | EmptyString =>
      if (0 <? int_count + frac_count) && (mantissa <? 2 ^ 53)
         && (frac_count <=? 22)
      then Ok (SFdiv Go.prec Go.emax (Go.float64_of_Z mantissa)
                 (Go.float64_of_Z (10 ^ frac_count)))
      else Err ErrSyntax
  | _ => Err ErrSyntax
  end.

Definition ParseFloat (s : string) : result string Go.float64 :=
  match s with
  | String "-" s' =>
      match parse_unsigned s' with
      | Ok x => Ok (SFopp x)
      | Err e => Err e
      end
  | String "+" s' => parse_unsigned s'
  | _ => parse_unsigned s
  end.

(** For a value [uint64] cannot represent the instance answers [2^63], one
    of the values an implementation may give. *)
#[export] Instance library : Go.Library := {|
  Go.TrimSpace := TrimSpace;
  Go.ToUpper := ToUpper;
  Go.ParseFloat := ParseFloat;
  Go.uint64_unrepresentable := fun _ => 2 ^ 63;
|}.

(** The stand-in scheme: a public key names its private key, a signature
    names the public key and the message. *)
Definition Public (priv : string) : string := "public(" ++ priv ++ ")".
Definition Sign (priv message : string) : string :=
  "signed(" ++ Public priv ++ ")" ++ message.
Definition Verify (pub message signature : string) : bool :=
  (signature =? "signed(" ++ pub ++ ")" ++ message)%string.

#[export] Instance scheme : ed25519.Scheme := {|
  ed25519.PrivateKey := string;
  ed25519.PublicKey := string;
  ed25519.Public := Public;
  ed25519.Sign := Sign;
  ed25519.Verify := Verify;
  ed25519.Verify_Sign := fun priv message =>
    String.eqb_refl ("signed(" ++ Public priv ++ ")" ++ message);
|}.

(** DER stand-ins: a one-letter tag and the key. *)
Definition ErrDER : string := "x509: failed to parse key".

Definition ParsePKCS8PrivateKey (der : Go.bytes) : result string x509.any :=
  match der with
  | String "s" k => Ok (x509.Ed25519Private k)
  | String "r" _ => Ok x509.Other
  | _ => Err ErrDER
  end.

Definition ParsePKIXPublicKey (der : Go.bytes) : result string x509.any :=
  match der with
  | String "p" k => Ok (x509.Ed25519Public k)
  | String "r" _ => Ok x509.Other
  | _ => Err ErrDER
  end.

#[export] Instance parser : x509.Parser := {|
  x509.ParsePKCS8PrivateKey := ParsePKCS8PrivateKey;
  x509.ParsePKIXPublicKey := ParsePKIXPublicKey;
|}.

(** The envelope as the chain client and the URN parser deliver it. *)
#[export] Instance envelope : Envelope := {|
  RawTransaction := result string string;
  GetSenderAddress := fun raw => raw;
  URN := result string ProtocolURN.t;
  ParseProtocolString := fun urn => urn;
|}.

End Concrete.

(** ** A small chain state to run the processor on

    The sixth scenario of the specification: a holder of [TICK] on
    [cosmoshub-4] sends to a contract on [osmosis-1]. *)

Module Scenario.
Import Concrete.

Definition TICK : Token.t :=
  {| Token.ID := 7; Token.ChainID := "cosmoshub-4"; Token.Ticker := "TICK";
     Token.Decimals := 6 |}.

Definition osmosis : BridgeRemoteChain.t :=
  {| BridgeRemoteChain.ID := 3; BridgeRemoteChain.ChainID := "cosmoshub-4";
     BridgeRemoteChain.RemoteChainID := "osmosis-1";
     BridgeRemoteChain.RemoteContract := "osmo1contract";
     BridgeRemoteChain.IBCChannel := "channel-141" |}.

Definition gate : BridgeToken.t :=
  {| BridgeToken.ID := 1; BridgeToken.RemoteChainID := 3;
     BridgeToken.TokenID := 7; BridgeToken.Enabled := true |}.

Definition holder (amount : Z) : TokenHolder.t :=
  {| TokenHolder.ID := 11; TokenHolder.ChainID := "cosmoshub-4";
     TokenHolder.TokenID := 7; TokenHolder.Address := "cosmos1alice";
     TokenHolder.Amount := amount; TokenHolder.DateUpdated := 1700000000 |}.

Definition store (amount : Z) : gorm.DB :=
  {| gorm.token := [TICK]; gorm.bridge_remote_chain := [osmosis];
     gorm.bridge_token := [gate]; gorm.token_holder := [holder amount];
     gorm.token_address_history := []; gorm.bridge_history := [] |}.

Definition healthy : gorm.Site -> option string := fun _ => None.

Definition world (amount : Z) : World :=
  {| db := store amount; fault := healthy; journal := [] |}.

Definition protocol : Bridge :=
  {| chainID := "cosmoshub-4"; privKey := "k1"; pubKey := Public "k1" |}.

Definition transaction : Transaction.t :=
  {| Transaction.ID := 42; Transaction.Height := 100;
     Transaction.Hash := "C0FFEE"; Transaction.DateCreated := 1700000600 |}.

Definition memo (chain operation amt : string) : ProtocolURN.t :=
  {| ProtocolURN.ChainID := chain; ProtocolURN.Version := "v1";
     ProtocolURN.Operation := operation;
     ProtocolURN.KeyValuePairs :=
       [("tic", " tick"); ("amt", amt); ("rch", "osmosis-1");
        ("rco", "osmo1contract"); ("dst", "osmo1bob")] |}.

Definition send (amt : string) : URN := Ok (memo "cosmoshub-4" "send" amt).

Definition alice : RawTransaction := Ok "cosmos1alice".

(** The same memo with an operation the processor has no case for. *)
Definition burn : URN := Ok (memo "cosmoshub-4" "burn" "250").

(** The same memo addressed to another chain. *)
Definition elsewhere : URN := Ok (memo "osmosis-1" "send" "250").

(** A state in which nothing has been deployed. *)
Definition nothing : World :=
  {| db := {| gorm.token := []; gorm.bridge_remote_chain := [];
              gorm.bridge_token := []; gorm.token_holder := [];
              gorm.token_address_history := []; gorm.bridge_history := [] |};
     fault := healthy; journal := [] |}.

(** The same send naming a contract the remote chain's row does not have,
    and one to a chain that is not known. *)
Definition wrong_contract : URN :=
  Ok {| ProtocolURN.ChainID := "cosmoshub-4"; ProtocolURN.Version := "v1";
        ProtocolURN.Operation := "send";
        ProtocolURN.KeyValuePairs :=
          [("tic", "tick"); ("amt", "250"); ("rch", "osmosis-1");
           ("rco", "osmo1other"); ("dst", "osmo1bob")] |}.

Definition unknown_chain : URN :=
  Ok {| ProtocolURN.ChainID := "cosmoshub-4"; ProtocolURN.Version := "v1";
        ProtocolURN.Operation := "send";
        ProtocolURN.KeyValuePairs :=
          [("tic", "tick"); ("amt", "250"); ("rch", "juno-1");
           ("rco", "juno1contract"); ("dst", "juno1bob")] |}.

(** The state with the gate for [TICK] to [osmosis-1] shut. *)
Definition shut : World :=
  {| db :=
       {| gorm.token := [TICK]; gorm.bridge_remote_chain := [osmosis];
          gorm.bridge_token :=
            [ {| BridgeToken.ID := 1; BridgeToken.RemoteChainID := 3;
                 BridgeToken.TokenID := 7; BridgeToken.Enabled := false |} ];
          gorm.token_holder := [holder 1000];
          gorm.token_address_history := []; gorm.bridge_history := [] |};
     fault := healthy; journal := [] |}.

(** A sender without a holder row. *)
Definition bob : RawTransaction := Ok "cosmos1bob".

(** A driver that refuses the insert into [token_address_history]. *)
Definition deadlock : gorm.Site -> option string :=
  fun site =>
    match site with
    | gorm.SaveTokenAddressHistory => Some "deadlock detected"
    | _ => None
    end.

(** An environment whose two keys do not belong together: the private key
    [k1] and the public half of [k2]. *)
Definition unpaired : BridgeConfig :=
  {| BridgePrivateKey := b64.EncodeToString "sk1";
     BridgePublicKey := b64.EncodeToString ("p" ++ Public "k2") |}.

End Scenario.

(** ** The vocabulary of the statements

    The values [Process] binds to its local variables, as functions of the
    parsed URN, and the rows and the state a send leaves behind. *)

Section Vocabulary.

Context {library : Go.Library} {scheme : ed25519.Scheme}
  {parser : x509.Parser} {envelope : Envelope}.

Definition ticker (u : ProtocolURN.t) : string :=
  Go.ToUpper (Go.TrimSpace (ProtocolURN.get u "tic")).

Definition remoteChainId (u : ProtocolURN.t) : string :=
  Go.TrimSpace (ProtocolURN.get u "rch").

Definition remoteContract (u : ProtocolURN.t) : string :=
  Go.TrimSpace (ProtocolURN.get u "rco").

Definition receiverAddress (u : ProtocolURN.t) : string :=
  Go.TrimSpace (ProtocolURN.get u "dst").

Definition amountString (u : ProtocolURN.t) : string :=
  Go.TrimSpace (ProtocolURN.get u "amt").

(** The attested message: seven fields one after the other. *)
Definition attestation (chain_id hash ticker amount rch rco dst : string)
  : Go.bytes :=
  chain_id ++ hash ++ ticker ++ amount ++ rch ++ rco ++ dst.

(** What the reads of a send find when nothing is refused. *)
Record Checked (protocol : Bridge) (u : ProtocolURN.t) (sender : string)
  (w : World) (tokenModel : Token.t) (remoteChainModel : BridgeRemoteChain.t)
  (amount : Go.float64) (holderModel : TokenHolder.t) : Prop := {
  checked_chain : ProtocolURN.ChainID u = chainID protocol;
  checked_token :
    gorm.first_row Token.ID (Where.token (ProtocolURN.ChainID u) (ticker u))
      (gorm.token (db w)) = Some tokenModel;
  checked_remote_chain :
    gorm.first_row BridgeRemoteChain.ID
      (Where.bridge_remote_chain (ProtocolURN.ChainID u) (remoteChainId u))
      (gorm.bridge_remote_chain (db w)) = Some remoteChainModel;
  checked_remote_contract :
    BridgeRemoteChain.RemoteContract remoteChainModel = remoteContract u;
  checked_bridge_token :
    exists bridgeTokenModel,
      gorm.first_row BridgeToken.ID
        (Where.bridge_token (BridgeRemoteChain.ID remoteChainModel)
           (Token.ID tokenModel))
        (gorm.bridge_token (db w)) = Some bridgeTokenModel
      /\ BridgeToken.Enabled bridgeTokenModel = true;
  checked_amount : Go.ParseFloat (amountString u) = Ok amount;
  checked_positive : Go.le amount Go.zero = false;
  checked_holder :
    gorm.first_row TokenHolder.ID
      (Where.token_holder (ProtocolURN.ChainID u) (Token.ID tokenModel) sender)
      (gorm.token_holder (db w)) = Some holderModel;
  checked_balance :
    Go.lt64 (TokenHolder.Amount holderModel) (Go.uint64 amount) = false;
}.

Definition debited (holderModel : TokenHolder.t) (amount : Go.float64)
  : TokenHolder.t :=
  TokenHolder.with_Amount holderModel
    (Go.sub64 (TokenHolder.Amount holderModel) (Go.uint64 amount)).

Definition transfer_record (transactionModel : Transaction.t)
  (u : ProtocolURN.t) (sender : string) (tokenModel : Token.t)
  (amount : Go.float64) : TokenAddressHistory.t :=
  {| TokenAddressHistory.ID := 0;
     TokenAddressHistory.ChainID := ProtocolURN.ChainID u;
     TokenAddressHistory.Height := Transaction.Height transactionModel;
     TokenAddressHistory.TransactionID := Transaction.ID transactionModel;
     TokenAddressHistory.TokenID := Token.ID tokenModel;
     TokenAddressHistory.Sender := sender;
     TokenAddressHistory.Receiver := "bridge";
     TokenAddressHistory.Action := "bridge";
     TokenAddressHistory.Amount := Go.uint64 (Go.Round amount);
     TokenAddressHistory.DateCreated := Transaction.DateCreated transactionModel |}.

Definition send_attestation (transactionModel : Transaction.t)
  (u : ProtocolURN.t) (tokenModel : Token.t) : Go.bytes :=
  attestation (ProtocolURN.ChainID u) (Transaction.Hash transactionModel)
    (Token.Ticker tokenModel) (amountString u) (remoteChainId u)
    (remoteContract u) (receiverAddress u).

Definition bridge_record (protocol : Bridge) (transactionModel : Transaction.t)
  (u : ProtocolURN.t) (sender : string) (tokenModel : Token.t)
  (amount : Go.float64) : BridgeHistory.t :=
  {| BridgeHistory.ID := 0;
     BridgeHistory.ChainID := ProtocolURN.ChainID u;
     BridgeHistory.Height := Transaction.Height transactionModel;
     BridgeHistory.TransactionID := Transaction.ID transactionModel;
     BridgeHistory.TokenID := Token.ID tokenModel;
     BridgeHistory.Sender := sender;
     BridgeHistory.Action := "send";
     BridgeHistory.Amount := Go.uint64 (Go.Round amount);
     BridgeHistory.RemoteChainID := remoteChainId u;
     BridgeHistory.RemoteContract := remoteContract u;
     BridgeHistory.Receiver := receiverAddress u;
     BridgeHistory.Signature :=
       b64.EncodeToString
         (ed25519.Sign (privKey protocol)
            (send_attestation transactionModel u tokenModel));
     BridgeHistory.DateCreated := Transaction.DateCreated transactionModel |}.

(** The effects of a send, in the order of the source, as far as they
    got. *)
Definition effects (protocol : Bridge) (transactionModel : Transaction.t)
  (u : ProtocolURN.t) (sender : string) (tokenModel : Token.t)
  (amount : Go.float64) (holderModel : TokenHolder.t) : list Event :=
  [ SavedTokenHolder (debited holderModel amount);
    SavedTokenAddressHistory
      (transfer_record transactionModel u sender tokenModel amount);
    Signed (send_attestation transactionModel u tokenModel)
      (ed25519.Sign (privKey protocol)
         (send_attestation transactionModel u tokenModel));
    SavedBridgeHistory
      (bridge_record protocol transactionModel u sender tokenModel amount) ].

(** The tables after the first [n] of the three writes. *)
Definition written (n : nat) (protocol : Bridge)
  (transactionModel : Transaction.t) (u : ProtocolURN.t) (sender : string)
  (tokenModel : Token.t) (amount : Go.float64) (holderModel : TokenHolder.t)
  (d : gorm.DB) : gorm.DB :=
  let d1 :=
    gorm.set_token_holder d
      (gorm.save_token_holder (debited holderModel amount) (gorm.token_holder d)) in
  let d2 :=
    gorm.set_token_address_history d1
      (gorm.token_address_history d1
       ++ [gorm.stored_token_address_history
             (transfer_record transactionModel u sender tokenModel amount)
             (gorm.token_address_history d1)]) in
  let d3 :=
    gorm.set_bridge_history d2
      (gorm.bridge_history d2
       ++ [gorm.stored_bridge_history
             (bridge_record protocol transactionModel u sender tokenModel amount)
             (gorm.bridge_history d2)]) in
  match n with
  | O => d
  | 1%nat => d1
  | 2%nat => d2
  | _ => d3
  end.

End Vocabulary.


(** ** The ways a call can end

    [Run protocol tx urn raw w r w'] lists the results [r] and final states
    [w'] a call of [Process] from [w] can have: rejected or ignored with
    nothing done, stopped by the driver after the first or the second write,
    or sent. *)

Section Runs.

Context {library : Go.Library} {scheme : ed25519.Scheme}
  {parser : x509.Parser} {envelope : Envelope}.

Inductive Run (protocol : Bridge) (transactionModel : Transaction.t)
  (protocolURN : URN) (rawTransaction : RawTransaction) (w : World)
  : result error unit -> World -> Prop :=
| Rejected e :
    Run protocol transactionModel protocolURN rawTransaction w (Err e) w
| Ignored u :
    ParseProtocolString protocolURN = Ok u ->
    ProtocolURN.ChainID u = chainID protocol ->
    ProtocolURN.Operation u <> "send" ->
    Run protocol transactionModel protocolURN rawTransaction w (Ok tt) w
| Debited sender u tokenModel remoteChainModel amount holderModel e :
    GetSenderAddress rawTransaction = Ok sender ->
    ParseProtocolString protocolURN = Ok u ->
    ProtocolURN.Operation u = "send" ->
    Checked protocol u sender w tokenModel remoteChainModel amount holderModel ->
    fault w gorm.SaveTokenHolder = None ->
    fault w gorm.SaveTokenAddressHistory = Some e ->
    Run protocol transactionModel protocolURN rawTransaction w (Err (ErrSave e))
      {| db := written 1 protocol transactionModel u sender tokenModel amount
                 holderModel (db w);
         fault := fault w;
         journal :=
           journal w
           ++ firstn 1 (effects protocol transactionModel u sender tokenModel
                          amount holderModel) |}
| Attested sender u tokenModel remoteChainModel amount holderModel e :
    GetSenderAddress rawTransaction = Ok sender ->
    ParseProtocolString protocolURN = Ok u ->
    ProtocolURN.Operation u = "send" ->
    Checked protocol u sender w tokenModel remoteChainModel amount holderModel ->
    fault w gorm.SaveTokenHolder = None ->
    fault w gorm.SaveTokenAddressHistory = None ->
    fault w gorm.SaveBridgeHistory = Some e ->
    Run protocol transactionModel protocolURN rawTransaction w (Err (ErrSave e))
      {| db := written 2 protocol transactionModel u sender tokenModel amount
                 holderModel (db w);
         fault := fault w;
         journal :=
           journal w
           ++ firstn 3 (effects protocol transactionModel u sender tokenModel
                          amount holderModel) |}
| Sent sender u tokenModel remoteChainModel amount holderModel :
    GetSenderAddress rawTransaction = Ok sender ->
    ParseProtocolString protocolURN = Ok u ->
    ProtocolURN.Operation u = "send" ->
    Checked protocol u sender w tokenModel remoteChainModel amount holderModel ->
    fault w gorm.SaveTokenHolder = None ->
    fault w gorm.SaveTokenAddressHistory = None ->
    fault w gorm.SaveBridgeHistory = None ->
    Run protocol transactionModel protocolURN rawTransaction w (Ok tt)
      {| db := written 3 protocol transactionModel u sender tokenModel amount
                 holderModel (db w);
         fault := fault w;
         journal :=
           journal w
           ++ effects protocol transactionModel u sender tokenModel amount
                holderModel |}.

End Runs.

(** ** Calls that fail

    What a caller would see of a call made inside one database transaction
    that is rolled back when the call fails: an error leaves the tables as
    they were. *)
Definition rolled_back_on_error {A : Type} (m : M A) (w : World) : Prop :=
  forall e w', m w = (Err e, w') -> db w' = db w.

(** ** The two earlier revisions of the processor

    Before remote chains were known the [bridge_history] row named a bridge
    contract, and the send carried [tic], [amt], [dst] (the contract) and
    [to] (the receiver).  [Legacy] holds the tables and the monad of these
    revisions; [Keyed] is the revision that signs, [Placeholder] the one
    before it. *)

Declare Scope legacy_scope.

Module Legacy.

Module BridgeHistory.
Record t := {
  ID : Z;
  ChainID : string;
  Height : Z;
  TransactionID : Z;
  TokenID : Z;
  Sender : string;
  Action : string;
  Amount : Z;
  Receiver : string;
  BridgeContract : string;
  Signature : string;
  DateCreated : Z;
}.

Definition with_ID (r : t) (i : Z) : t :=
  {| ID := i; ChainID := ChainID r; Height := Height r;
     TransactionID := TransactionID r; TokenID := TokenID r;
     Sender := Sender r; Action := Action r; Amount := Amount r;
     Receiver := Receiver r; BridgeContract := BridgeContract r;
     Signature := Signature r; DateCreated := DateCreated r |}.
End BridgeHistory.

Record DB := {
  token : list Token.t;
  token_holder : list TokenHolder.t;
  token_address_history : list TokenAddressHistory.t;
  bridge_history : list BridgeHistory.t;
}.

Definition set_token_holder (d : DB) (rows : list TokenHolder.t) : DB :=
  {| token := token d; token_holder := rows;
     token_address_history := token_address_history d;
     bridge_history := bridge_history d |}.

Definition set_token_address_history (d : DB)
  (rows : list TokenAddressHistory.t) : DB :=
  {| token := token d; token_holder := token_holder d;
     token_address_history := rows; bridge_history := bridge_history d |}.

Definition set_bridge_history (d : DB) (rows : list BridgeHistory.t) : DB :=
  {| token := token d; token_holder := token_holder d;
     token_address_history := token_address_history d;
     bridge_history := rows |}.

Definition stored_bridge_history (r : BridgeHistory.t)
  (rows : list BridgeHistory.t) : BridgeHistory.t :=
  BridgeHistory.with_ID r (gorm.next_id BridgeHistory.ID rows).

Inductive Event :=
| SavedTokenHolder (h : TokenHolder.t)
| SavedTokenAddressHistory (r : TokenAddressHistory.t)
| Signed (attestation signature : Go.bytes)
| SavedBridgeHistory (r : BridgeHistory.t).

Record World := {
  db : DB;
  fault : gorm.Site -> option string;
  journal : list Event;
}.

Definition M (A : Type) : Type := World -> result error A * World.

Definition ret {A : Type} (a : A) : M A := fun w => (Ok a, w).

Definition throw {A : Type} (e : error) : M A := fun w => (Err e, w).

Definition bind {A B : Type} (m : M A) (k : A -> M B) : M B :=
  fun w =>
    match m w with
    | (Ok a, w') => k a w'
    | (Err e, w') => (Err e, w')
    end.

Definition try {A : Type} (wrap : string -> error) (r : result string A) : M A :=
  match r with
  | Ok a => ret a
  | Err e => throw (wrap e)
  end.

Definition First {R : Type} (site : gorm.Site) (table : DB -> list R)
  (id : R -> Z) (cond : R -> bool) : M (result string R) :=
  fun w =>
    (Ok match fault w site with
        | Some e => Err e
        | None =>
            match gorm.first_row id cond (table (db w)) with
            | Some r => Ok r
            | None => Err gorm.ErrRecordNotFound
            end
        end, w).

Definition Save (site : gorm.Site) (write : DB -> DB) (ev : Event)
  : M (option string) :=
  fun w =>
    match fault w site with
    | Some e => (Ok (Some e), w)
    | None =>
        (Ok None,
         {| db := write (db w); fault := fault w;
            journal := journal w ++ [ev] |})
    end.

Definition sign `{ed25519.Scheme} (priv : ed25519.PrivateKey)
  (message : Go.bytes) : M Go.bytes :=
  fun w =>
    let signature := ed25519.Sign priv message in
    (Ok signature,
     {| db := db w; fault := fault w;
        journal := journal w ++ [Signed message signature] |}).

End Legacy.

Notation "x <- m ;; k" := (Legacy.bind m (fun x => k))
  (at level 61, m at next level, right associativity) : legacy_scope.

(** *** The revision that signs six fields

    [NewBridgeProcessor], [Name] and the [Bridge] struct of this revision
    are those of the latest one; [Process] differs. *)

Module Keyed.

Local Open Scope legacy_scope.

Section BridgeProcessor.

Context {library : Go.Library} {scheme : ed25519.Scheme}
  {parser : x509.Parser} {envelope : Envelope}.

Definition Process (protocol : Bridge) (transactionModel : Transaction.t)
  (protocolURN : URN) (rawTransaction : RawTransaction) : Legacy.M unit :=
  sender <- Legacy.try ErrSender (GetSenderAddress rawTransaction) ;;
  parsedURN <- Legacy.try ErrProtocolString (ParseProtocolString protocolURN) ;;
  if negb (ProtocolURN.ChainID parsedURN =? chainID protocol)%string then
    Legacy.throw ErrChainMismatch
  else if (ProtocolURN.Operation parsedURN =? "send")%string then
    let ticker := Go.TrimSpace (ProtocolURN.get parsedURN "tic") in
    let ticker := Go.ToUpper ticker in
    (* Check if the ticker exists *)
    result <- Legacy.First gorm.FirstToken Legacy.token Token.ID
                (Where.token (ProtocolURN.ChainID parsedURN) ticker) ;;
    match result with
    | Err _ => Legacy.throw (ErrTokenMissing ticker)
    | Ok tokenModel =>
    let bridgeContract := Go.TrimSpace (ProtocolURN.get parsedURN "dst") in
    (* TODO: Check if bridge destination is valid *)
    (* TODO: Check if bridge for this token initialized *)
    let receiverAddress := Go.TrimSpace (ProtocolURN.get parsedURN "to") in
    (* TODO: Check if receiver address is valid *)
    let destinationAddress := "bridge" in
    let amountString := Go.TrimSpace (ProtocolURN.get parsedURN "amt") in
    amount <- Legacy.try ErrAmountSyntax (Go.ParseFloat amountString) ;;
    if Go.le amount Go.zero then Legacy.throw ErrAmountNotPositive else
    (* Check that the user has enough tokens to send *)
    result <- Legacy.First gorm.FirstTokenHolder Legacy.token_holder
                TokenHolder.ID
                (Where.token_holder (ProtocolURN.ChainID parsedURN)
                   (Token.ID tokenModel) sender) ;;
    match result with
    | Err _ => Legacy.throw ErrNoHolder
    | Ok holderModel =>
    if Go.lt64 (TokenHolder.Amount holderModel) (Go.uint64 amount) then
      Legacy.throw ErrInsufficient
    else
    (* At this point we know that the sender has enough tokens to send
       so update the sender's balance *)
    let holderModel :=
      TokenHolder.with_Amount holderModel
        (Go.sub64 (TokenHolder.Amount holderModel) (Go.uint64 amount)) in
    result <- Legacy.Save gorm.SaveTokenHolder
                (fun d => Legacy.set_token_holder d
                            (gorm.save_token_holder holderModel
                               (Legacy.token_holder d)))
                (Legacy.SavedTokenHolder holderModel) ;;
    match result with
    | Some _ => Legacy.throw ErrBalanceUpdate
    | None =>
    (* Record the transfer *)
    let historyModel :=
      {| TokenAddressHistory.ID := 0;
         TokenAddressHistory.ChainID := ProtocolURN.ChainID parsedURN;
         TokenAddressHistory.Height := Transaction.Height transactionModel;
         TokenAddressHistory.TransactionID := Transaction.ID transactionModel;
         TokenAddressHistory.TokenID := Token.ID tokenModel;
         TokenAddressHistory.Sender := sender;
         TokenAddressHistory.Receiver := destinationAddress;
         TokenAddressHistory.Action := "bridge";
         TokenAddressHistory.Amount := Go.uint64 (Go.Round amount);
         TokenAddressHistory.DateCreated := Transaction.DateCreated transactionModel |} in
    result <- Legacy.Save gorm.SaveTokenAddressHistory
                (fun d => Legacy.set_token_address_history d
                            (Legacy.token_address_history d
                             ++ [gorm.stored_token_address_history historyModel
                                   (Legacy.token_address_history d)]))
                (Legacy.SavedTokenAddressHistory historyModel) ;;
    match result with
    | Some e => Legacy.throw (ErrSave e)
    | None =>
    (* Note: A signature is spendable! Create and store it last. *)
    let attestation :=
      ProtocolURN.ChainID parsedURN ++ Transaction.Hash transactionModel
      ++ Token.Ticker tokenModel ++ amountString ++ bridgeContract
      ++ receiverAddress in
    signed <- Legacy.sign (privKey protocol) attestation ;;
    let signature := b64.EncodeToString signed in
    let bridgeHistory :=
      {| Legacy.BridgeHistory.ID := 0;
         Legacy.BridgeHistory.ChainID := ProtocolURN.ChainID parsedURN;
         Legacy.BridgeHistory.Height := Transaction.Height transactionModel;
         Legacy.BridgeHistory.TransactionID := Transaction.ID transactionModel;
         Legacy.BridgeHistory.TokenID := Token.ID tokenModel;
         Legacy.BridgeHistory.Sender := sender;
         Legacy.BridgeHistory.Action := "send";
         Legacy.BridgeHistory.Amount := Go.uint64 (Go.Round amount);
         Legacy.BridgeHistory.Receiver := receiverAddress;
         Legacy.BridgeHistory.BridgeContract := bridgeContract;
         Legacy.BridgeHistory.Signature := signature;
         Legacy.BridgeHistory.DateCreated := Transaction.DateCreated transactionModel |} in
    result <- Legacy.Save gorm.SaveBridgeHistory
                (fun d => Legacy.set_bridge_history d
                            (Legacy.bridge_history d
                             ++ [Legacy.stored_bridge_history bridgeHistory
                                   (Legacy.bridge_history d)]))
                (Legacy.SavedBridgeHistory bridgeHistory) ;;
    match result with
    | Some e => Legacy.throw (ErrSave e)
    | None => Legacy.ret tt
    end end end end end
  else Legacy.ret tt.

End BridgeProcessor.

End Keyed.

(** *** The revision before: S3 settings in the struct, no key, and a
    placeholder where the signature will be *)

Module Placeholder.

Local Open Scope legacy_scope.

(** The settings [NewBridgeProcessor] reads; the struct is declared with the
    inscription processor. *)
Record InscriptionConfig := {
  S3Endpoint : string;
  S3Region : string;
  S3Bucket : string;
  S3ID : string;
  S3Secret : string;
  S3Token : string;
}.

Record Bridge := {
  chainID : string;
  s3Endpoint : string;
  s3Region : string;
  s3Bucket : string;
  s3ID : string;
  s3Secret : string;
  s3Token : string;
}.

Definition NewBridgeProcessor (chainID : string)
  (config : result string InscriptionConfig) : result string Bridge :=
  match config with
  | Err e => Err ("Unable to process config: " ++ e)
  | Ok config =>
      Ok {| chainID := chainID;
            s3Endpoint := S3Endpoint config;
            s3Region := S3Region config;
            s3Bucket := S3Bucket config;
            s3ID := S3ID config;
            s3Secret := S3Secret config;
            s3Token := S3Token config |}
  end.

Definition Name (protocol : Bridge) : string := "bridge".

Section BridgeProcessor.

Context {library : Go.Library} {envelope : Envelope}.

Definition Process (protocol : Bridge) (transactionModel : Transaction.t)
  (protocolURN : URN) (rawTransaction : RawTransaction) : Legacy.M unit :=
  sender <- Legacy.try ErrSender (GetSenderAddress rawTransaction) ;;
  parsedURN <- Legacy.try ErrProtocolString (ParseProtocolString protocolURN) ;;
  if negb (ProtocolURN.ChainID parsedURN =? chainID protocol)%string then
    Legacy.throw ErrChainMismatch
  else if (ProtocolURN.Operation parsedURN =? "send")%string then
    let ticker := Go.TrimSpace (ProtocolURN.get parsedURN "tic") in
    let ticker := Go.ToUpper ticker in
    (* Check if the ticker exists *)
    result <- Legacy.First gorm.FirstToken Legacy.token Token.ID
                (Where.token (ProtocolURN.ChainID parsedURN) ticker) ;;
    match result with
    | Err _ => Legacy.throw (ErrTokenMissing ticker)
    | Ok tokenModel =>
    let bridgeContract := Go.TrimSpace (ProtocolURN.get parsedURN "dst") in
    let receiverAddress := Go.TrimSpace (ProtocolURN.get parsedURN "to") in
    let destinationAddress := "bridge" in
    let amountString := Go.TrimSpace (ProtocolURN.get parsedURN "amt") in
    amount <- Legacy.try ErrAmountSyntax (Go.ParseFloat amountString) ;;
    if Go.le amount Go.zero then Legacy.throw ErrAmountNotPositive else
    (* Check that the user has enough tokens to send *)
    result <- Legacy.First gorm.FirstTokenHolder Legacy.token_holder
                TokenHolder.ID
                (Where.token_holder (ProtocolURN.ChainID parsedURN)
                   (Token.ID tokenModel) sender) ;;
    match result with
    | Err _ => Legacy.throw ErrNoHolder
    | Ok holderModel =>
    if Go.lt64 (TokenHolder.Amount holderModel) (Go.uint64 amount) then
      Legacy.throw ErrInsufficient
    else
    (* At this point we know that the sender has enough tokens to sell
       so update the sender's balance *)
    let holderModel :=
      TokenHolder.with_Amount holderModel
        (Go.sub64 (TokenHolder.Amount holderModel) (Go.uint64 amount)) in
    result <- Legacy.Save gorm.SaveTokenHolder
                (fun d => Legacy.set_token_holder d
                            (gorm.save_token_holder holderModel
                               (Legacy.token_holder d)))
                (Legacy.SavedTokenHolder holderModel) ;;
    match result with
    | Some _ => Legacy.throw ErrBalanceUpdate
    | None =>
    (* Record the transfer *)
    let historyModel :=
      {| TokenAddressHistory.ID := 0;
         TokenAddressHistory.ChainID := ProtocolURN.ChainID parsedURN;
         TokenAddressHistory.Height := Transaction.Height transactionModel;
         TokenAddressHistory.TransactionID := Transaction.ID transactionModel;
         TokenAddressHistory.TokenID := Token.ID tokenModel;
         TokenAddressHistory.Sender := sender;
         TokenAddressHistory.Receiver := destinationAddress;
         TokenAddressHistory.Action := "transfer";
         TokenAddressHistory.Amount := Go.uint64 (Go.Round amount);
         TokenAddressHistory.DateCreated := Transaction.DateCreated transactionModel |} in
    result <- Legacy.Save gorm.SaveTokenAddressHistory
                (fun d => Legacy.set_token_address_history d
                            (Legacy.token_address_history d
                             ++ [gorm.stored_token_address_history historyModel
                                   (Legacy.token_address_history d)]))
                (Legacy.SavedTokenAddressHistory historyModel) ;;
    match result with
    | Some e => Legacy.throw (ErrSave e)
    | None =>
    (* TODO: create signature last, after other state is updated.
       A signature is spendable! *)
    let signature := "temporary signature placeholder" in
    let bridgeHistory :=
      {| Legacy.BridgeHistory.ID := 0;
         Legacy.BridgeHistory.ChainID := ProtocolURN.ChainID parsedURN;
         Legacy.BridgeHistory.Height := Transaction.Height transactionModel;
         Legacy.BridgeHistory.TransactionID := Transaction.ID transactionModel;
         Legacy.BridgeHistory.TokenID := Token.ID tokenModel;
         Legacy.BridgeHistory.Sender := sender;
         Legacy.BridgeHistory.Action := "send";
         Legacy.BridgeHistory.Amount := Go.uint64 (Go.Round amount);
         Legacy.BridgeHistory.Receiver := receiverAddress;
         Legacy.BridgeHistory.BridgeContract := bridgeContract;
         Legacy.BridgeHistory.Signature := signature;
         Legacy.BridgeHistory.DateCreated := Transaction.DateCreated transactionModel |} in
    result <- Legacy.Save gorm.SaveBridgeHistory
                (fun d => Legacy.set_bridge_history d
                            (Legacy.bridge_history d
                             ++ [Legacy.stored_bridge_history bridgeHistory
                                   (Legacy.bridge_history d)]))
                (Legacy.SavedBridgeHistory bridgeHistory) ;;
    match result with
    | Some e => Legacy.throw (ErrSave e)
    | None => Legacy.ret tt
    end end end end end
  else Legacy.ret tt.

End BridgeProcessor.

End Placeholder.

(** *** The vocabulary of the statements about the earlier revisions *)

Section LegacyVocabulary.

Context {library : Go.Library} {scheme : ed25519.Scheme}
  {parser : x509.Parser} {envelope : Envelope}.

(** [bridgeContract] and [receiverAddress] of the earlier revisions. *)
Definition bridgeContract (u : ProtocolURN.t) : string :=
  Go.TrimSpace (ProtocolURN.get u "dst").

Definition receiverTo (u : ProtocolURN.t) : string :=
  Go.TrimSpace (ProtocolURN.get u "to").

(** What the reads of a send of the earlier revisions find. *)
Record LegacyChecked (chain : string) (u : ProtocolURN.t) (sender : string)
  (w : Legacy.World) (tokenModel : Token.t) (amount : Go.float64)
  (holderModel : TokenHolder.t) : Prop := {
  legacy_chain : ProtocolURN.ChainID u = chain;
  legacy_token :
    gorm.first_row Token.ID (Where.token (ProtocolURN.ChainID u) (ticker u))
      (Legacy.token (Legacy.db w)) = Some tokenModel;
  legacy_amount : Go.ParseFloat (amountString u) = Ok amount;
  legacy_positive : Go.le amount Go.zero = false;
  legacy_holder :
    gorm.first_row TokenHolder.ID
      (Where.token_holder (ProtocolURN.ChainID u) (Token.ID tokenModel) sender)
      (Legacy.token_holder (Legacy.db w)) = Some holderModel;
  legacy_balance :
    Go.lt64 (TokenHolder.Amount holderModel) (Go.uint64 amount) = false;
}.

Definition six_fields (transactionModel : Transaction.t) (u : ProtocolURN.t)
  (tokenModel : Token.t) : Go.bytes :=
  ProtocolURN.ChainID u ++ Transaction.Hash transactionModel
  ++ Token.Ticker tokenModel ++ amountString u ++ bridgeContract u
  ++ receiverTo u.

Definition legacy_bridge_record (signature : string)
  (transactionModel : Transaction.t) (u : ProtocolURN.t) (sender : string)
  (tokenModel : Token.t) (amount : Go.float64) : Legacy.BridgeHistory.t :=
  {| Legacy.BridgeHistory.ID := 0;
     Legacy.BridgeHistory.ChainID := ProtocolURN.ChainID u;
     Legacy.BridgeHistory.Height := Transaction.Height transactionModel;
     Legacy.BridgeHistory.TransactionID := Transaction.ID transactionModel;
     Legacy.BridgeHistory.TokenID := Token.ID tokenModel;
     Legacy.BridgeHistory.Sender := sender;
     Legacy.BridgeHistory.Action := "send";
     Legacy.BridgeHistory.Amount := Go.uint64 (Go.Round amount);
     Legacy.BridgeHistory.Receiver := receiverTo u;
     Legacy.BridgeHistory.BridgeContract := bridgeContract u;
     Legacy.BridgeHistory.Signature := signature;
     Legacy.BridgeHistory.DateCreated := Transaction.DateCreated transactionModel |}.

Definition legacy_transfer_record (action : string)
  (transactionModel : Transaction.t) (u : ProtocolURN.t) (sender : string)
  (tokenModel : Token.t) (amount : Go.float64) : TokenAddressHistory.t :=
  {| TokenAddressHistory.ID := 0;
     TokenAddressHistory.ChainID := ProtocolURN.ChainID u;
     TokenAddressHistory.Height := Transaction.Height transactionModel;
     TokenAddressHistory.TransactionID := Transaction.ID transactionModel;
     TokenAddressHistory.TokenID := Token.ID tokenModel;
     TokenAddressHistory.Sender := sender;
     TokenAddressHistory.Receiver := "bridge";
     TokenAddressHistory.Action := action;
     TokenAddressHistory.Amount := Go.uint64 (Go.Round amount);
     TokenAddressHistory.DateCreated := Transaction.DateCreated transactionModel |}.

(** The tables after the three writes of a send. *)
Definition legacy_written (holderModel : TokenHolder.t)
  (historyModel : TokenAddressHistory.t) (bridgeHistory : Legacy.BridgeHistory.t)
  (d : Legacy.DB) : Legacy.DB :=
  {| Legacy.token := Legacy.token d;
     Legacy.token_holder :=
       gorm.save_token_holder holderModel (Legacy.token_holder d);
     Legacy.token_address_history :=
       Legacy.token_address_history d
       ++ [gorm.stored_token_address_history historyModel
             (Legacy.token_address_history d)];
     Legacy.bridge_history :=
       Legacy.bridge_history d
       ++ [Legacy.stored_bridge_history bridgeHistory (Legacy.bridge_history d)] |}.

End LegacyVocabulary.

(** ** More states and memos to run the processors on *)

Module Cases.
Import Concrete Scenario.

(** The state of the scenario with a driver that refuses the second write. *)
Definition refusing : World :=
  {| db := store 1000; fault := deadlock; journal := [] |}.

(** A second token whose ticker continues the first one's, a gate for it and
    a holder of 50. *)
Definition TICK2 : Token.t :=
  {| Token.ID := 8; Token.ChainID := "cosmoshub-4"; Token.Ticker := "TICK2";
     Token.Decimals := 6 |}.

Definition gate2 : BridgeToken.t :=
  {| BridgeToken.ID := 2; BridgeToken.RemoteChainID := 3;
     BridgeToken.TokenID := 8; BridgeToken.Enabled := true |}.

Definition holder2 : TokenHolder.t :=
  {| TokenHolder.ID := 12; TokenHolder.ChainID := "cosmoshub-4";
     TokenHolder.TokenID := 8; TokenHolder.Address := "cosmos1alice";
     TokenHolder.Amount := 50; TokenHolder.DateUpdated := 1700000000 |}.

Definition two_tokens : World :=
  {| db := {| gorm.token := [TICK; TICK2];
              gorm.bridge_remote_chain := [osmosis];
              gorm.bridge_token := [gate; gate2];
              gorm.token_holder := [holder 1000; holder2];
              gorm.token_address_history := []; gorm.bridge_history := [] |};
     fault := healthy; journal := [] |}.

(** 50 of [TICK2], where [send "250"] is 250 of [TICK]. *)
Definition fifty_tick2 : ProtocolURN.t :=
  {| ProtocolURN.ChainID := "cosmoshub-4"; ProtocolURN.Version := "v1";
     ProtocolURN.Operation := "send";
     ProtocolURN.KeyValuePairs :=
       [("tic", "tick2"); ("amt", "50"); ("rch", "osmosis-1");
        ("rco", "osmo1contract"); ("dst", "osmo1bob")] |}.

(** The send of 250 with another version, the ticker in mixed case, blanks
    around the values, the keys in another order and a key the processor
    does not know. *)
Definition decorated : ProtocolURN.t :=
  {| ProtocolURN.ChainID := "cosmoshub-4"; ProtocolURN.Version := "v9";
     ProtocolURN.Operation := "send";
     ProtocolURN.KeyValuePairs :=
       [("note", "hello"); ("dst", "osmo1bob "); ("rco", " osmo1contract");
        ("rch", "osmosis-1"); ("amt", " 250 "); ("tic", " TiCk")] |}.

(** The tables of the scenario as the earlier revisions know them, and a
    memo with [dst] for the contract and [to] for the receiver. *)
Definition old_world (amount : Z) : Legacy.World :=
  {| Legacy.db :=
       {| Legacy.token := [TICK]; Legacy.token_holder := [holder amount];
          Legacy.token_address_history := []; Legacy.bridge_history := [] |};
     Legacy.fault := healthy; Legacy.journal := [] |}.

Definition old_memo : ProtocolURN.t :=
  {| ProtocolURN.ChainID := "cosmoshub-4"; ProtocolURN.Version := "v1";
     ProtocolURN.Operation := "send";
     ProtocolURN.KeyValuePairs :=
       [("tic", "tick"); ("amt", "250"); ("to", "osmo1bob");
        ("dst", "osmo1contract")] |}.

Definition old_send : URN := Ok old_memo.

Definition decorated_send : URN := Ok decorated.

Definition tick2_send : URN := Ok fifty_tick2.

Definition old_protocol : Placeholder.Bridge :=
  {| Placeholder.chainID := "cosmoshub-4";
     Placeholder.s3Endpoint := "s3.example"; Placeholder.s3Region := "eu";
     Placeholder.s3Bucket := "bucket"; Placeholder.s3ID := "id";
     Placeholder.s3Secret := "secret"; Placeholder.s3Token := "" |}.

(** The states the calls below end in. *)
Definition sent250 : World :=
  snd (Process protocol transaction (send "250") alice (world 1000)).

Definition refused : World :=
  snd (Process protocol transaction (send "250") alice refusing).

Definition sent_half : World :=
  snd (Process protocol transaction (send "0.5") alice (world 0)).

Definition sent_tick : World :=
  snd (Process protocol transaction (send "250") alice two_tokens).

Definition sent_tick2 : World :=
  snd (Process protocol transaction tick2_send alice two_tokens).

Definition old_sent : Legacy.World :=
  snd (Keyed.Process protocol transaction old_send alice (old_world 1000)).

Definition oldest_sent : Legacy.World :=
  snd (Placeholder.Process old_protocol transaction old_send alice
         (old_world 1000)).

(** A stand-in scheme whose signatures have the 64 bytes of
    [ed25519.SignatureSize]: the first 64 bytes of the stand-in signature
    above, filled up with zero bytes. *)
Fixpoint fixed_width (n : nat) (s : string) : string :=
  match n with
  | O => EmptyString
  | S n' =>
      match s with
      | String c s' => String c (fixed_width n' s')
      | EmptyString => String zero (fixed_width n' EmptyString)
      end
  end.

Definition SignatureSize : nat := 64.

Definition sized : ed25519.Scheme := {|
  ed25519.PrivateKey := string;
  ed25519.PublicKey := string;
  ed25519.Public := Public;
  ed25519.Sign := fun priv message => fixed_width SignatureSize (Sign priv message);
  ed25519.Verify := fun pub message signature =>
    (signature
     =? fixed_width SignatureSize ("signed(" ++ pub ++ ")" ++ message))%string;
  ed25519.Verify_Sign := fun priv message =>
    String.eqb_refl
      (fixed_width SignatureSize ("signed(" ++ Public priv ++ ")" ++ message));
|}.

(** The processor of the scenario on that scheme, and its send of 250. *)
Definition sized_protocol : @Bridge sized :=
  @Build_Bridge sized "cosmoshub-4" "k1" (Public "k1").

Definition sized_sent : World :=
  snd (@Process library sized envelope sized_protocol transaction (send "250")
         alice (world 1000)).

End Cases.

(** [legacy_tidy] is [tidy] for the states of the earlier revisions. *)
Ltac legacy_tidy :=
  cbn [Legacy.fault Legacy.db Legacy.journal] in *;
  repeat match goal with
    | H : negb _ = false |- _ => apply negb_false_iff in H
    | H : (_ =? _)%string = true |- _ => apply String.eqb_eq in H
    | H : (_ =? _)%string = false |- _ => apply String.eqb_neq in H
    end;
  rewrite <- ?app_assoc; cbn [app].


(** ** Tactics

    [step] opens the innermost case distinction of a hypothesis about a run;
    [tidy] turns boolean tests into equations and flattens the journal. *)

Ltac innermost t :=
  lazymatch t with
  | context [match ?x with _ => _ end] => innermost x
  | _ => t
  end.

Ltac step H :=
  match type of H with
  | context [match ?x with _ => _ end] =>
      let y := innermost x in destruct y eqn:?
  end;
  cbv beta iota zeta in H.

Ltac tidy :=
  cbn [fault db journal] in *;
  repeat match goal with
    | H : negb _ = false |- _ => apply negb_false_iff in H
    | H : (_ =? _)%string = true |- _ => apply String.eqb_eq in H
    | H : (_ =? _)%string = false |- _ => apply String.eqb_neq in H
    end;
  rewrite <- ?app_assoc; cbn [app].

(** * Properties *)

(** ** Base64 *)

Lemma byte_val_range c : 0 <= b64.byte_val c < 256.
Proof.
  unfold b64.byte_val. pose proof (N_ascii_bounded c). lia.
Qed.

Lemma byte_of_val c : b64.byte_of (b64.byte_val c) = c.
Proof.
  unfold b64.byte_of, b64.byte_val. rewrite N2Z.id. apply ascii_N_embedding.
Qed.

Lemma sextet_cases n : 0 <= n < 64 -> In (Z.to_nat n) (seq 0 64).
Proof. intros. apply in_seq. lia. Qed.

Lemma index_digit n : 0 <= n < 64 -> b64.index (b64.digit n) = Some n.
Proof.
  intros Hn.
  assert (Hall : forallb (fun k => match b64.index (b64.digit (Z.of_nat k)) with
                                   | Some m => m =? Z.of_nat k
                                   | None => false
                                   end) (seq 0 64) = true) by (vm_compute; reflexivity).
  rewrite forallb_forall in Hall.
  specialize (Hall _ (sextet_cases n Hn)).
  rewrite Z2Nat.id in Hall by lia.
  destruct (b64.index (b64.digit n)); [|discriminate].
  apply Z.eqb_eq in Hall. now subst.
Qed.

Lemma digit_plain n : 0 <= n < 64 -> b64.is_newline (b64.digit n) = false.
Proof.
  intros Hn.
  assert (Hall : forallb (fun k => negb (b64.is_newline (b64.digit (Z.of_nat k)))) (seq 0 64) = true)
    by (vm_compute; reflexivity).
  rewrite forallb_forall in Hall.
  specialize (Hall _ (sextet_cases n Hn)).
  rewrite Z2Nat.id in Hall by lia.
  now apply negb_true_iff in Hall.
Qed.

Lemma index_pad : b64.index b64.pad = None.
Proof. reflexivity. Qed.

Ltac bytes_in_range :=
  repeat match goal with
    | c : ascii |- _ =>
        lazymatch goal with
        | _ : 0 <= b64.byte_val c < 256 |- _ => fail
        | _ => pose proof (byte_val_range c)
        end
    end.

Lemma quantum3 a b c :
  0 <= a < 256 -> 0 <= b < 256 -> 0 <= c < 256 ->
  let val := a * 65536 + b * 256 + c in
  let val' := val / 262144 * 262144 + val / 4096 mod 64 * 4096 + val / 64 mod 64 * 64 + val mod 64 in
  0 <= val / 262144 < 64 /\ 0 <= val / 4096 mod 64 < 64 /\ 0 <= val / 64 mod 64 < 64 /\ 0 <= val mod 64 < 64 /\
  val' / 65536 = a /\ val' / 256 mod 256 = b /\ val' mod 256 = c.
Proof.
  intros Ha Hb Hc val val'. subst val val'.
  Z.div_mod_to_equations. lia.
Qed.

Lemma quantum2 a b :
  0 <= a < 256 -> 0 <= b < 256 ->
  let val := a * 65536 + b * 256 in
  let val' := val / 262144 * 262144 + val / 4096 mod 64 * 4096 + val / 64 mod 64 * 64 in
  0 <= val / 262144 < 64 /\ 0 <= val / 4096 mod 64 < 64 /\ 0 <= val / 64 mod 64 < 64 /\
  val' / 65536 = a /\ val' / 256 mod 256 = b.
Proof.
  intros Ha Hb val val'. subst val val'.
  Z.div_mod_to_equations. lia.
Qed.

Lemma quantum1 a :
  0 <= a < 256 ->
  let val := a * 65536 in
  let val' := val / 262144 * 262144 + val / 4096 mod 64 * 4096 in
  0 <= val / 262144 < 64 /\ 0 <= val / 4096 mod 64 < 64 /\ val' / 65536 = a.
Proof.
  intros Ha val val'. subst val val'.
  Z.div_mod_to_equations. lia.
Qed.

Lemma decode_quanta_EncodeToString n : forall s,
  (String.length s <= n)%nat -> b64.decode_quanta (b64.EncodeToString s) = Ok s.
Proof.
  induction n as [|n IH]; intros [|a [|b [|c rest]]] Hlen;
    cbn [String.length] in Hlen; try lia; try reflexivity.
  - destruct (quantum1 _ (byte_val_range a)) as (H0 & H1 & Ha).
    cbv zeta in *. cbn [b64.EncodeToString b64.decode_quanta].
    rewrite !index_digit, index_pad by assumption.
    rewrite Ascii.eqb_refl. cbn [andb]. now rewrite Ha, byte_of_val.
  - destruct (quantum2 _ _ (byte_val_range a) (byte_val_range b))
      as (H0 & H1 & H2 & Ha & Hb).
    cbv zeta in *. cbn [b64.EncodeToString b64.decode_quanta].
    rewrite !index_digit, index_pad by assumption.
    rewrite Ascii.eqb_refl. now rewrite Ha, Hb, !byte_of_val.
  - destruct (quantum3 _ _ _ (byte_val_range a) (byte_val_range b) (byte_val_range c))
      as (H0 & H1 & H2 & H3 & Ha & Hb & Hc).
    cbv zeta in *. cbn [b64.EncodeToString b64.decode_quanta].
    rewrite !index_digit by assumption.
    rewrite IH by lia. now rewrite Ha, Hb, Hc, !byte_of_val.
Qed.

Lemma strip_newlines_EncodeToString n : forall s,
  (String.length s <= n)%nat ->
  b64.strip_newlines (b64.EncodeToString s) = b64.EncodeToString s.
Proof.
  assert (Hpad : b64.is_newline b64.pad = false) by reflexivity.
  induction n as [|n IH]; intros [|a [|b [|c rest]]] Hlen;
    cbn [String.length] in Hlen; try lia; try reflexivity.
  - destruct (quantum1 _ (byte_val_range a)) as (H0 & H1 & _).
    cbv zeta in *. cbn [b64.EncodeToString b64.strip_newlines].
    now rewrite !digit_plain, Hpad by assumption.
  - destruct (quantum2 _ _ (byte_val_range a) (byte_val_range b))
      as (H0 & H1 & H2 & _).
    cbv zeta in *. cbn [b64.EncodeToString b64.strip_newlines].
    now rewrite !digit_plain, Hpad by assumption.
  - destruct (quantum3 _ _ _ (byte_val_range a) (byte_val_range b) (byte_val_range c))
      as (H0 & H1 & H2 & H3 & _).
    cbv zeta in *. cbn [b64.EncodeToString b64.strip_newlines].
    rewrite !digit_plain by assumption. now rewrite IH by lia.
Qed.

Lemma DecodeString_EncodeToString s : b64.DecodeString (b64.EncodeToString s) = Ok s.
Proof.
  unfold b64.DecodeString.
  rewrite (strip_newlines_EncodeToString (String.length s)) by lia.
  apply (decode_quanta_EncodeToString (String.length s)). lia.
Qed.

(** ** Queries *)

Lemma first_row_Some {R : Type} (id : R -> Z) (cond : R -> bool) rows r :
  gorm.first_row id cond rows = Some r -> In r rows /\ cond r = true.
Proof.
  revert r. induction rows as [|x rows IH]; intros r; cbn [gorm.first_row].
  - discriminate.
  - destruct (cond x) eqn:Hx.
    + destruct (gorm.first_row id cond rows) as [y|] eqn:Hy.
      * destruct (id y <? id x); intros [= <-].
        -- destruct (IH y eq_refl). split; [now right | assumption].
        -- split; [now left | assumption].
      * intros [= <-]. split; [now left | assumption].
    + intros Hr. destruct (IH r Hr). split; [now right | assumption].
Qed.

Lemma first_row_None {R : Type} (id : R -> Z) (cond : R -> bool) rows :
  gorm.first_row id cond rows = None <-> (forall r, In r rows -> cond r = false).
Proof.
  induction rows as [|x rows IH]; cbn [gorm.first_row].
  - split; [intros _ r [] | reflexivity].
  - destruct (cond x) eqn:Hx.
    + split.
      * destruct (gorm.first_row id cond rows) as [y|];
          [destruct (id y <? id x)|]; discriminate.
      * intros H. specialize (H x (or_introl eq_refl)). congruence.
    + rewrite IH. split.
      * intros H r [<-|Hr]; auto.
      * intros H r Hr. apply H. now right.
Qed.

Lemma first_row_least {R : Type} (id : R -> Z) (cond : R -> bool) rows r :
  gorm.first_row id cond rows = Some r ->
  forall r', In r' rows -> cond r' = true -> id r <= id r'.
Proof.
  revert r. induction rows as [|x rows IH]; intros r; cbn [gorm.first_row].
  - discriminate.
  - destruct (cond x) eqn:Hx.
    + destruct (gorm.first_row id cond rows) as [y|] eqn:Hy.
      * destruct (id y <? id x) eqn:Hlt; intros [= <-] r' [<-|Hr'] Hc.
        -- apply Z.ltb_lt in Hlt. lia.
        -- now apply (IH y eq_refl).
        -- lia.
        -- apply Z.ltb_ge in Hlt. specialize (IH y eq_refl r' Hr' Hc). lia.
      * intros [= <-] r' [<-|Hr'] Hc; [lia|].
        rewrite first_row_None in Hy. rewrite (Hy r' Hr') in Hc. discriminate.
    + intros Hr r' [<-|Hr'] Hc; [congruence|]. now apply (IH r Hr).
Qed.

(** ** Floats and unsigned integers *)

Lemma le_zero (x : Go.float64) :
  Go.le x Go.zero = true <->
  (exists s, x = S754_zero s) \/ (exists m e, x = S754_finite true m e)
  \/ x = S754_infinity true.
Proof.
  destruct x as [s|[|]| |[|] m e]; cbn; split; intros H;
    try discriminate; try reflexivity; eauto.
  all: destruct H as [[s' H]|[(m' & e' & H)|H]]; discriminate.
Qed.

(** The values [amount <= 0] does not stop: the finite ones above zero, the
    positive infinity, and NaN, for which every comparison is false. *)
Lemma not_le_zero (x : Go.float64) :
  Go.le x Go.zero = false <->
  x = S754_nan \/ x = S754_infinity false
  \/ exists m e, x = S754_finite false m e.
Proof.
  destruct x as [s|[|]| |[|] m e]; cbn; split; intros H;
    try discriminate; try reflexivity; eauto.
  all: destruct H as [H|[H|(m' & e' & H)]]; discriminate.
Qed.

Lemma sub64_no_wrap a b :
  0 <= a < Go.two64 -> Go.lt64 a b = false -> 0 <= b ->
  Go.sub64 a b = a - b /\ 0 <= Go.sub64 a b <= a.
Proof.
  unfold Go.sub64, Go.lt64. intros Ha Hlt Hb. apply Z.ltb_ge in Hlt.
  rewrite Z.mod_small by lia. lia.
Qed.

Lemma uint64_range `{Go.Library} x : 0 <= Go.uint64 x < Go.two64.
Proof.
  assert (0 < Go.two64) by reflexivity.
  unfold Go.uint64. destruct (Go.trunc x) as [z|].
  - destruct ((0 <=? z) && (z <? Go.two64)) eqn:Hz.
    + apply andb_true_iff in Hz. destruct Hz as [H1 H2].
      apply Z.leb_le in H1. apply Z.ltb_lt in H2. lia.
    + now apply Z.mod_pos_bound.
  - now apply Z.mod_pos_bound.
Qed.

(** ** Every call ends in one of the listed ways *)

Section Properties.

Context {library : Go.Library} {scheme : ed25519.Scheme}
  {parser : x509.Parser} {envelope : Envelope}.

Lemma Process_Run protocol transactionModel protocolURN rawTransaction w r w' :
  Process protocol transactionModel protocolURN rawTransaction w = (r, w') ->
  Run protocol transactionModel protocolURN rawTransaction w r w'.
Proof.
  intro H.
  unfold Process, bind, try, First, Save, sign, ret, throw in H.
  cbv beta iota zeta in H.
  repeat (step H; try (injection H as <- <-; apply Rejected)).
  all: try (injection H as <- <-).
  all: tidy.
  - eapply Debited; eauto. constructor; eauto.
  - eapply Attested; eauto. constructor; eauto.
  - eapply Sent; eauto. constructor; eauto.
  - eapply Ignored; eauto.
Qed.

(** A send that returns without error went through all four effects. *)
Lemma Process_sent protocol transactionModel protocolURN rawTransaction u w w' :
  ParseProtocolString protocolURN = Ok u ->
  ProtocolURN.Operation u = "send" ->
  Process protocol transactionModel protocolURN rawTransaction w = (Ok tt, w') ->
  exists sender tokenModel remoteChainModel amount holderModel,
    GetSenderAddress rawTransaction = Ok sender
    /\ Checked protocol u sender w tokenModel remoteChainModel amount holderModel
    /\ db w' = written 3 protocol transactionModel u sender tokenModel amount
                 holderModel (db w)
    /\ journal w' = (journal w ++ effects protocol transactionModel u sender
                                    tokenModel amount holderModel)%list.
Proof.
  intros Hu Hop H. apply Process_Run in H.
  inversion H as [ | u' Hu' _ Hop' | | | sender u' t c a h Hs Hu' _ Hc ]; subst.
  - congruence.
  - assert (u' = u) by congruence. subst u'.
    exists sender, t, c, a, h.
    split; [assumption|]. split; [assumption|]. split; reflexivity.
Qed.

(** A send for which the checks cannot all pass is refused with nothing
    done. *)
Lemma Process_rejects protocol transactionModel protocolURN rawTransaction u w :
  ParseProtocolString protocolURN = Ok u ->
  ProtocolURN.Operation u = "send" ->
  (forall sender tokenModel remoteChainModel amount holderModel,
      ~ Checked protocol u sender w tokenModel remoteChainModel amount holderModel) ->
  exists e,
    Process protocol transactionModel protocolURN rawTransaction w = (Err e, w).
Proof.
  intros Hu Hop Hno.
  destruct (Process protocol transactionModel protocolURN rawTransaction w)
    as [r w'] eqn:H.
  apply Process_Run in H.
  inversion H as [ e | u' Hu' _ Hop' | s u' t c a h e _ Hu' _ Hc
                 | s u' t c a h e _ Hu' _ Hc | s u' t c a h _ Hu' _ Hc ]; subst.
  - now exists e.
  - congruence.
  - assert (u' = u) by congruence. subst u'. now destruct (Hno _ _ _ _ _ Hc).
  - assert (u' = u) by congruence. subst u'. now destruct (Hno _ _ _ _ _ Hc).
  - assert (u' = u) by congruence. subst u'. now destruct (Hno _ _ _ _ _ Hc).
Qed.

Lemma token_found chain_id name rows tokenModel :
  gorm.first_row Token.ID (Where.token chain_id name) rows = Some tokenModel ->
  Token.ChainID tokenModel = chain_id /\ Token.Ticker tokenModel = name.
Proof.
  intros H. apply first_row_Some in H. destruct H as [_ H].
  unfold Where.token in H. apply andb_true_iff in H.
  now rewrite !String.eqb_eq in H.
Qed.

(** ** The attestation *)

Lemma Process_sent_signature
  protocol transactionModel protocolURN rawTransaction u w w' :
  ParseProtocolString protocolURN = Ok u ->
  ProtocolURN.Operation u = "send" ->
  Process protocol transactionModel protocolURN rawTransaction w = (Ok tt, w') ->
  exists row,
    gorm.bridge_history (db w') = (gorm.bridge_history (db w) ++ [row])%list
    /\ BridgeHistory.Signature row =
         b64.EncodeToString
           (ed25519.Sign (privKey protocol)
              (attestation (chainID protocol) (Transaction.Hash transactionModel)
                 (ticker u) (amountString u) (remoteChainId u)
                 (remoteContract u) (receiverAddress u))).
Proof.
  intros Hu Hop H.
  destruct (Process_sent _ _ _ _ _ _ _ Hu Hop H)
    as (sender & t & c & a & h & _ & Hc & Hdb & _).
  destruct (token_found _ _ _ _ (checked_token _ _ _ _ _ _ _ _ Hc)) as [_ Ht].
  rewrite Hdb. cbn [written gorm.bridge_history gorm.set_bridge_history
                      gorm.set_token_address_history gorm.set_token_holder].
  eexists. split; [reflexivity|].
  cbn [gorm.stored_bridge_history BridgeHistory.with_ID BridgeHistory.Signature
         bridge_record].
  unfold send_attestation.
  now rewrite Ht, (checked_chain _ _ _ _ _ _ _ _ Hc).
Qed.

(** C1. On every successful send the signature stored in the row appended
    to [bridge_history] is the base64 encoding of the Ed25519 signature, made
    with the configured private key, over chain_id, tx.hash, ticker, the
    amount literal, rch, rco and dst, concatenated in this order with no
    separators. *)
Theorem send_signature_attests_concatenation
  protocol transactionModel protocolURN rawTransaction u w w' :
  ParseProtocolString protocolURN = Ok u ->
  ProtocolURN.Operation u = "send" ->
  Process protocol transactionModel protocolURN rawTransaction w = (Ok tt, w') ->
  exists row,
    gorm.bridge_history (db w') = (gorm.bridge_history (db w) ++ [row])%list
    /\ BridgeHistory.Signature row =
         b64.EncodeToString
           (ed25519.Sign (privKey protocol)
              (chainID protocol ++ Transaction.Hash transactionModel
               ++ ticker u ++ amountString u ++ remoteChainId u
               ++ remoteContract u ++ receiverAddress u)).
Proof.
  intros Hu Hop H.
  destruct (Process_sent _ _ _ _ _ _ _ Hu Hop H)
    as (sender & t & c & a & h & _ & Hc & Hdb & _).
  destruct Hc as [Hchain Ht _ _ _ _ _ _ _].
  apply token_found in Ht. destruct Ht as [_ Ht].
  exists (gorm.stored_bridge_history
            (bridge_record protocol transactionModel u sender t a)
            (gorm.bridge_history (db w))).
  split.
  - rewrite Hdb. reflexivity.
  - cbn [gorm.stored_bridge_history BridgeHistory.with_ID
           BridgeHistory.Signature bridge_record].
    unfold send_attestation, attestation.
    rewrite Ht, Hchain. reflexivity.
Qed.

(** ** The order of the effects *)

Lemma holder_found chain_id token_id address rows holderModel :
  gorm.first_row TokenHolder.ID
    (Where.token_holder chain_id token_id address) rows = Some holderModel ->
  In holderModel rows
  /\ TokenHolder.ChainID holderModel = chain_id
  /\ TokenHolder.TokenID holderModel = token_id
  /\ TokenHolder.Address holderModel = address.
Proof.
  intros H. apply first_row_Some in H. destruct H as [Hin H].
  unfold Where.token_holder in H.
  apply andb_true_iff in H. destruct H as [H Haddress].
  apply andb_true_iff in H. destruct H as [Hchain Htoken].
  apply String.eqb_eq in Hchain, Haddress. apply Z.eqb_eq in Htoken.
  now repeat split.
Qed.

(** Whatever the primary key of the struct, [Save] leaves a row with the
    struct's columns in the table. *)
Lemma saved_holder_is_stored h rows :
  exists stored,
    In stored (gorm.save_token_holder h rows)
    /\ TokenHolder.ChainID stored = TokenHolder.ChainID h
    /\ TokenHolder.TokenID stored = TokenHolder.TokenID h
    /\ TokenHolder.Address stored = TokenHolder.Address h
    /\ TokenHolder.Amount stored = TokenHolder.Amount h.
Proof.
  unfold gorm.save_token_holder.
  destruct (TokenHolder.ID h =? 0).
  - eexists. split; [apply in_or_app; right; left; reflexivity|].
    now repeat split.
  - destruct (existsb (fun r => TokenHolder.ID r =? TokenHolder.ID h) rows)
      eqn:Hex.
    + apply existsb_exists in Hex. destruct Hex as (r & Hr & Hid).
      exists h. split; [|now repeat split].
      apply in_map_iff. exists r. now rewrite Hid.
    + exists h. split; [apply in_or_app; right; now left | now repeat split].
Qed.

(** The holder row a send writes, against the row its query found. *)
Lemma debit_of_the_sender protocol u sender w tokenModel remoteChainModel
  amount holderModel :
  Checked protocol u sender w tokenModel remoteChainModel amount holderModel ->
  TokenHolder.ID (debited holderModel amount) = TokenHolder.ID holderModel
  /\ TokenHolder.Address (debited holderModel amount) = sender
  /\ TokenHolder.TokenID (debited holderModel amount) = Token.ID tokenModel
  /\ TokenHolder.Amount (debited holderModel amount)
     = Go.sub64 (TokenHolder.Amount holderModel) (Go.uint64 amount).
Proof.
  intros Hc.
  destruct (holder_found _ _ _ _ _ (checked_holder _ _ _ _ _ _ _ _ Hc))
    as (_ & _ & Htoken & Haddress).
  now repeat split.
Qed.

(** The debit is in the holder table from the first write on. *)
Lemma debit_is_stored protocol transactionModel u sender w tokenModel
  remoteChainModel amount holderModel n :
  Checked protocol u sender w tokenModel remoteChainModel amount holderModel ->
  exists stored,
    In stored
      (gorm.token_holder
         (written (S n) protocol transactionModel u sender tokenModel amount
            holderModel (db w)))
    /\ TokenHolder.Address stored = sender
    /\ TokenHolder.TokenID stored = Token.ID tokenModel
    /\ TokenHolder.Amount stored
       = Go.sub64 (TokenHolder.Amount holderModel) (Go.uint64 amount).
Proof.
  intros Hc.
  destruct (debit_of_the_sender _ _ _ _ _ _ _ _ Hc)
    as (_ & Haddress & Htoken & Hamount).
  destruct (saved_holder_is_stored (debited holderModel amount)
              (gorm.token_holder (db w)))
    as (stored & Hin & _ & Ht & Ha & Hm).
  exists stored. split.
  - destruct n as [|[|n]]; exact Hin.
  - now rewrite Ha, Ht, Hm.
Qed.


(** ** Preconditions *)

(** C3. A send is rejected, and the state is left as it was, when the token
    does not exist, when the remote chain is not known for the local chain,
    when the remote chain's row names another contract than [rco], when
    there is no gate for (remote chain row, token), or when the gate is not
    enabled. *)
Theorem send_preconditions_rejected
  protocol transactionModel protocolURN rawTransaction u w :
  ParseProtocolString protocolURN = Ok u ->
  ProtocolURN.Operation u = "send" ->
  (forall t, In t (gorm.token (db w)) ->
             ~ (Token.ChainID t = ProtocolURN.ChainID u
                /\ Token.Ticker t = ticker u))
  \/ (forall c, In c (gorm.bridge_remote_chain (db w)) ->
                ~ (BridgeRemoteChain.ChainID c = ProtocolURN.ChainID u
                   /\ BridgeRemoteChain.RemoteChainID c = remoteChainId u))
  \/ (exists c,
         gorm.first_row BridgeRemoteChain.ID
           (Where.bridge_remote_chain (ProtocolURN.ChainID u) (remoteChainId u))
           (gorm.bridge_remote_chain (db w)) = Some c
         /\ BridgeRemoteChain.RemoteContract c <> remoteContract u)
  \/ (exists t c,
         gorm.first_row Token.ID
           (Where.token (ProtocolURN.ChainID u) (ticker u))
           (gorm.token (db w)) = Some t
         /\ gorm.first_row BridgeRemoteChain.ID
              (Where.bridge_remote_chain (ProtocolURN.ChainID u) (remoteChainId u))
              (gorm.bridge_remote_chain (db w)) = Some c
         /\ ((forall b, In b (gorm.bridge_token (db w)) ->
                        ~ (BridgeToken.RemoteChainID b = BridgeRemoteChain.ID c
                           /\ BridgeToken.TokenID b = Token.ID t))
             \/ (exists b,
                    gorm.first_row BridgeToken.ID
                      (Where.bridge_token (BridgeRemoteChain.ID c) (Token.ID t))
                      (gorm.bridge_token (db w)) = Some b
                    /\ BridgeToken.Enabled b = false))) ->
  exists e,
    Process protocol transactionModel protocolURN rawTransaction w = (Err e, w).
Proof.
  intros Hu Hop Hpre. apply (Process_rejects _ _ _ _ _ _ Hu Hop).
  intros sender t c a h [_ Ht Hc Hrco (b & Hb & Hen) _ _ _ _].
  destruct Hpre as [Hno | [Hno | [(c' & Hc' & Hne) | (t' & c' & Ht' & Hc' & Hgate)]]].
  - destruct (first_row_Some _ _ _ _ Ht) as [Hin _].
    apply (Hno t Hin). now apply token_found in Ht.
  - destruct (first_row_Some _ _ _ _ Hc) as [Hin Hw].
    apply (Hno c Hin). unfold Where.bridge_remote_chain in Hw.
    apply andb_true_iff in Hw. now rewrite !String.eqb_eq in Hw.
  - congruence.
  - assert (t' = t) by congruence. assert (c' = c) by congruence. subst t' c'.
    destruct Hgate as [Hno | (b' & Hb' & Hdis)].
    + destruct (first_row_Some _ _ _ _ Hb) as [Hin Hw].
      apply (Hno b Hin). unfold Where.bridge_token in Hw.
      apply andb_true_iff in Hw. now rewrite !Z.eqb_eq in Hw.
    + congruence.
Qed.

(** C6. A successful send appends exactly one row to
    [token_address_history]; its action is ["bridge"] and its receiver is the
    literal ["bridge"]. *)
Theorem send_appends_one_bridge_transfer
  protocol transactionModel protocolURN rawTransaction u w w' :
  ParseProtocolString protocolURN = Ok u ->
  ProtocolURN.Operation u = "send" ->
  Process protocol transactionModel protocolURN rawTransaction w = (Ok tt, w') ->
  exists row,
    gorm.token_address_history (db w')
    = (gorm.token_address_history (db w) ++ [row])%list
    /\ TokenAddressHistory.Action row = "bridge"
    /\ TokenAddressHistory.Receiver row = "bridge".
Proof.
  intros Hu Hop H.
  destruct (Process_sent _ _ _ _ _ _ _ Hu Hop H)
    as (sender & t & c & a & h & _ & _ & Hdb & _).
  rewrite Hdb. eexists. split; [reflexivity|]. split; reflexivity.
Qed.

(** C7. A URN whose parsed chain ID differs from the configured one is
    refused and nothing is written; once the sender address is known the
    error is the chain mismatch. *)
Theorem chain_mismatch_rejected
  protocol transactionModel protocolURN rawTransaction u w :
  ParseProtocolString protocolURN = Ok u ->
  ProtocolURN.ChainID u <> chainID protocol ->
  (exists e,
      Process protocol transactionModel protocolURN rawTransaction w = (Err e, w))
  /\ (forall sender,
         GetSenderAddress rawTransaction = Ok sender ->
         Process protocol transactionModel protocolURN rawTransaction w
         = (Err ErrChainMismatch, w)).
Proof.
  intros Hu Hne. apply String.eqb_neq in Hne.
  unfold Process, bind, try, ret, throw.
  destruct (GetSenderAddress rawTransaction) as [sender|e]; rewrite ?Hu, ?Hne;
    cbn [negb]; split; eauto; intros; congruence.
Qed.

(** C10. A send whose [amt] does not parse, or parses to a value that is
    not above zero, is rejected before anything is written; zero of either
    sign and every negative value are among the latter. *)
Theorem send_amount_not_positive_rejected
  protocol transactionModel protocolURN rawTransaction u w :
  ParseProtocolString protocolURN = Ok u ->
  ProtocolURN.Operation u = "send" ->
  (exists e, Go.ParseFloat (amountString u) = Err e)
  \/ (exists amount,
         Go.ParseFloat (amountString u) = Ok amount
         /\ Go.le amount Go.zero = true)
  \/ (exists amount,
         Go.ParseFloat (amountString u) = Ok amount
         /\ ((exists s, amount = S754_zero s)
             \/ (exists m e, amount = S754_finite true m e)
             \/ amount = S754_infinity true)) ->
  exists e,
    Process protocol transactionModel protocolURN rawTransaction w = (Err e, w).
Proof.
  intros Hu Hop Hamt. apply (Process_rejects _ _ _ _ _ _ Hu Hop).
  intros sender t c a h [_ _ _ _ _ Hparse Hpos _ _].
  destruct Hamt as [(e & He) | [(a' & Ha' & Hle) | (a' & Ha' & Hsign)]].
  - congruence.
  - assert (a' = a) by congruence. congruence.
  - assert (a' = a) by congruence. subst a'.
    apply le_zero in Hsign. congruence.
Qed.

(** C9 (amended). An operation other than ["send"], on the configured
    chain and with a known sender, has no effect at all and is not an error:
    [Process] returns [nil] and the state is the one it was given. *)
Theorem other_operation_ignored
  protocol transactionModel protocolURN rawTransaction sender u w :
  GetSenderAddress rawTransaction = Ok sender ->
  ParseProtocolString protocolURN = Ok u ->
  ProtocolURN.ChainID u = chainID protocol ->
  ProtocolURN.Operation u <> "send" ->
  Process protocol transactionModel protocolURN rawTransaction w = (Ok tt, w).
Proof.
  intros Hs Hu Hchain Hop.
  apply String.eqb_neq in Hop. apply String.eqb_eq in Hchain.
  unfold Process, bind, try, ret, throw.
  now rewrite Hs, Hu, Hchain, Hop.
Qed.

(** C8 (amended). Two successful sends of the same chain_id, tx.hash,
    ticker, amount literal, rch, rco and dst store the same signature, and
    when the configured public key is the public half of the configured
    private key, the stored signature decodes to one that verifies under it
    over the attestation of these seven fields. *)
Theorem send_signature_deterministic_and_verifiable
  protocol transaction1 transaction2 urn1 urn2 raw1 raw2 u1 u2 w1 w2 w1' w2' :
  ParseProtocolString urn1 = Ok u1 ->
  ParseProtocolString urn2 = Ok u2 ->
  ProtocolURN.Operation u1 = "send" ->
  ProtocolURN.Operation u2 = "send" ->
  Transaction.Hash transaction1 = Transaction.Hash transaction2 ->
  ticker u1 = ticker u2 ->
  amountString u1 = amountString u2 ->
  remoteChainId u1 = remoteChainId u2 ->
  remoteContract u1 = remoteContract u2 ->
  receiverAddress u1 = receiverAddress u2 ->
  Process protocol transaction1 urn1 raw1 w1 = (Ok tt, w1') ->
  Process protocol transaction2 urn2 raw2 w2 = (Ok tt, w2') ->
  exists row1 row2,
    gorm.bridge_history (db w1') = (gorm.bridge_history (db w1) ++ [row1])%list
    /\ gorm.bridge_history (db w2') = (gorm.bridge_history (db w2) ++ [row2])%list
    /\ BridgeHistory.Signature row1 = BridgeHistory.Signature row2
    /\ (pubKey protocol = ed25519.Public (privKey protocol) ->
        exists signature,
          b64.DecodeString (BridgeHistory.Signature row1) = Ok signature
          /\ ed25519.Verify (pubKey protocol)
               (chainID protocol ++ Transaction.Hash transaction1
                ++ ticker u1 ++ amountString u1 ++ remoteChainId u1
                ++ remoteContract u1 ++ receiverAddress u1)
               signature = true).
Proof.
  intros Hu1 Hu2 Hop1 Hop2 Hhash Htic Hamt Hrch Hrco Hdst H1 H2.
  destruct (Process_sent_signature _ _ _ _ _ _ _ Hu1 Hop1 H1) as (row1 & Hrow1 & Hsig1).
  destruct (Process_sent_signature _ _ _ _ _ _ _ Hu2 Hop2 H2) as (row2 & Hrow2 & Hsig2).
  exists row1, row2. repeat split; try assumption.
  - rewrite Hsig1, Hsig2. congruence.
  - intros Hpair. eexists. rewrite Hsig1, DecodeString_EncodeToString.
    split; [reflexivity|]. rewrite Hpair. apply ed25519.Verify_Sign.
Qed.

(** ** Balances *)

(** What a successful send does with the amount: the holder found is
    saved with its amount lowered by [uint64(amount)], and both history rows
    record [uint64(math.Round(amount))]. *)
Lemma send_amounts
  protocol transactionModel protocolURN rawTransaction u w w' :
  ParseProtocolString protocolURN = Ok u ->
  ProtocolURN.Operation u = "send" ->
  Process protocol transactionModel protocolURN rawTransaction w = (Ok tt, w') ->
  exists sender tokenModel remoteChainModel amount holderModel transfer history,
    Checked protocol u sender w tokenModel remoteChainModel amount holderModel
    /\ gorm.token_holder (db w')
       = gorm.save_token_holder
           (TokenHolder.with_Amount holderModel
              (Go.sub64 (TokenHolder.Amount holderModel) (Go.uint64 amount)))
           (gorm.token_holder (db w))
    /\ gorm.token_address_history (db w')
       = (gorm.token_address_history (db w) ++ [transfer])%list
    /\ TokenAddressHistory.Amount transfer = Go.uint64 (Go.Round amount)
    /\ gorm.bridge_history (db w')
       = (gorm.bridge_history (db w) ++ [history])%list
    /\ BridgeHistory.Amount history = Go.uint64 (Go.Round amount).
Proof.
  intros Hu Hop H.
  destruct (Process_sent _ _ _ _ _ _ _ Hu Hop H)
    as (sender & t & c & a & h & _ & Hc & Hdb & _).
  exists sender, t, c, a, h. rewrite Hdb. eexists _, _.
  split; [exact Hc|]. repeat split; reflexivity.
Qed.

(** The test before the debit keeps the subtraction from wrapping. *)
Lemma debit_stays_in_range protocol u sender w tokenModel remoteChainModel
  amount holderModel :
  Checked protocol u sender w tokenModel remoteChainModel amount holderModel ->
  0 <= TokenHolder.Amount holderModel < Go.two64 ->
  TokenHolder.Amount (debited holderModel amount)
  = TokenHolder.Amount holderModel - Go.uint64 amount
  /\ 0 <= TokenHolder.Amount (debited holderModel amount)
     <= TokenHolder.Amount holderModel.
Proof.
  intros Hc Hrange. pose proof (uint64_range amount).
  apply sub64_no_wrap; [assumption | exact (checked_balance _ _ _ _ _ _ _ _ Hc) | lia].
Qed.

(** A send from an address without a holder row, or with less than the
    integer that would be debited, is rejected with nothing written. *)
Lemma send_balance_check
  protocol transactionModel protocolURN rawTransaction sender u w :
  GetSenderAddress rawTransaction = Ok sender ->
  ParseProtocolString protocolURN = Ok u ->
  ProtocolURN.Operation u = "send" ->
  (forall t h,
      gorm.first_row Token.ID (Where.token (ProtocolURN.ChainID u) (ticker u))
        (gorm.token (db w)) = Some t ->
      In h (gorm.token_holder (db w)) ->
      ~ (TokenHolder.ChainID h = ProtocolURN.ChainID u
         /\ TokenHolder.TokenID h = Token.ID t
         /\ TokenHolder.Address h = sender))
  \/ (forall t h amount,
         gorm.first_row Token.ID (Where.token (ProtocolURN.ChainID u) (ticker u))
           (gorm.token (db w)) = Some t ->
         gorm.first_row TokenHolder.ID
           (Where.token_holder (ProtocolURN.ChainID u) (Token.ID t) sender)
           (gorm.token_holder (db w)) = Some h ->
         Go.ParseFloat (amountString u) = Ok amount ->
         TokenHolder.Amount h < Go.uint64 amount) ->
  exists e,
    Process protocol transactionModel protocolURN rawTransaction w = (Err e, w).
Proof.
  intros Hs Hu Hop Hpre.
  destruct (Process protocol transactionModel protocolURN rawTransaction w)
    as [r w'] eqn:H.
  apply Process_Run in H.
  assert (Hno : forall s t c a h, s = sender -> ~ Checked protocol u s w t c a h).
  { intros s t c a h -> [_ Ht _ _ _ Hparse _ Hh Hbal].
    destruct Hpre as [Hno | Hlow].
    - destruct (first_row_Some _ _ _ _ Hh) as [Hin Hw].
      apply (Hno t h Ht Hin). unfold Where.token_holder in Hw.
      rewrite !andb_true_iff, !String.eqb_eq, Z.eqb_eq in Hw. tauto.
    - specialize (Hlow t h a Ht Hh Hparse).
      unfold Go.lt64 in Hbal. apply Z.ltb_ge in Hbal. lia. }
  inversion H as [ e | u' Hu' _ Hop' | s u' t c a h e Hs' Hu' _ Hc
                 | s u' t c a h e Hs' Hu' _ Hc | s u' t c a h Hs' Hu' _ Hc ]; subst.
  - now exists e.
  - congruence.
  - assert (u' = u) by congruence. subst u'.
    destruct (Hno s t c a h); [congruence | assumption].
  - assert (u' = u) by congruence. subst u'.
    destruct (Hno s t c a h); [congruence | assumption].
  - assert (u' = u) by congruence. subst u'.
    destruct (Hno s t c a h); [congruence | assumption].
Qed.

End Properties.

(** ** The processor on literal inputs *)

Import Concrete Scenario.

Example EncodeToString_Man : b64.EncodeToString "Man" = "TWFu".
Proof. reflexivity. Qed.

Example EncodeToString_Ma : b64.EncodeToString "Ma" = "TWE=".
Proof. reflexivity. Qed.

Example EncodeToString_M : b64.EncodeToString "M" = "TQ==".
Proof. reflexivity. Qed.

Example DecodeString_skips_newlines :
  b64.DecodeString (String "T" (String "W" (String "010" "E="))) = Ok "Ma".
Proof. reflexivity. Qed.

Example DecodeString_unpadded : b64.DecodeString "TWE" = Err b64.corrupt.
Proof. reflexivity. Qed.

Example ParseFloat_tenth :
  Go.ParseFloat "0.1" = Ok (S754_finite false 7205759403792794 (-56)).
Proof. reflexivity. Qed.

Example Round_half_up :
  Go.ParseFloat "2.5" = Ok (S754_finite false 5629499534213120 (-51))
  /\ Go.uint64 (S754_finite false 5629499534213120 (-51)) = 2
  /\ Go.uint64 (Go.Round (S754_finite false 5629499534213120 (-51))) = 3.
Proof. repeat split. Qed.

(** The sixth scenario: 1000 [TICK], 250 sent. *)
Example scenario_bridge_signature :
  Process protocol transaction (send "250") alice (world 1000)
  = (Ok tt,
     {| db := written 3 protocol transaction (memo "cosmoshub-4" "send" "250")
                "cosmos1alice" TICK (Go.float64_of_Z 250) (holder 1000)
                (store 1000);
        fault := healthy;
        journal := effects protocol transaction (memo "cosmoshub-4" "send" "250")
                     "cosmos1alice" TICK (Go.float64_of_Z 250) (holder 1000) |})
  /\ gorm.token_holder
       (written 3 protocol transaction (memo "cosmoshub-4" "send" "250")
          "cosmos1alice" TICK (Go.float64_of_Z 250) (holder 1000) (store 1000))
     = [holder 750].
Proof. split; reflexivity. Qed.


(** When the driver refuses the second write, [Process] returns the
    driver's error and the debit it has written stays in the state it
    returns: undoing it is left to whoever opened the transaction. *)
Example refused_write_leaves_debit :
  Process protocol transaction (send "250") alice
    {| db := store 1000; fault := deadlock; journal := [] |}
  = (Err (ErrSave "deadlock detected"),
     {| db := gorm.set_token_holder (store 1000) [holder 750];
        fault := deadlock;
        journal := [SavedTokenHolder (holder 750)] |}).
Proof. vm_compute; reflexivity. Qed.

(** *** Sends that succeed *)

Lemma send_signature_attests_concatenation_witness :
  ParseProtocolString (send "250") = Ok (memo "cosmoshub-4" "send" "250")
  /\ ProtocolURN.Operation (memo "cosmoshub-4" "send" "250") = "send"
  /\ Process protocol transaction (send "250") alice (world 1000)
     = (Ok tt, snd (Process protocol transaction (send "250") alice (world 1000)))
  /\ exists row,
       gorm.bridge_history
         (db (snd (Process protocol transaction (send "250") alice (world 1000))))
       = (gorm.bridge_history (db (world 1000)) ++ [row])%list
       /\ BridgeHistory.Signature row
          = b64.EncodeToString
              (ed25519.Sign (privKey protocol)
                 (chainID protocol ++ Transaction.Hash transaction
                  ++ ticker (memo "cosmoshub-4" "send" "250")
                  ++ amountString (memo "cosmoshub-4" "send" "250")
                  ++ remoteChainId (memo "cosmoshub-4" "send" "250")
                  ++ remoteContract (memo "cosmoshub-4" "send" "250")
                  ++ receiverAddress (memo "cosmoshub-4" "send" "250"))).
Proof.
  split; [vm_compute; reflexivity|]. split; [vm_compute; reflexivity|]. split; [vm_compute; reflexivity|].
  apply (send_signature_attests_concatenation protocol transaction (send "250")
           alice (memo "cosmoshub-4" "send" "250") (world 1000)
           (snd (Process protocol transaction (send "250") alice (world 1000)))).
  - vm_compute; reflexivity.
  - vm_compute; reflexivity.
  - vm_compute; reflexivity.
Defined.


Lemma send_appends_one_bridge_transfer_witness :
  ParseProtocolString (send "250") = Ok (memo "cosmoshub-4" "send" "250")
  /\ ProtocolURN.Operation (memo "cosmoshub-4" "send" "250") = "send"
  /\ Process protocol transaction (send "250") alice (world 1000)
     = (Ok tt, snd (Process protocol transaction (send "250") alice (world 1000)))
  /\ exists row,
       gorm.token_address_history
         (db (snd (Process protocol transaction (send "250") alice (world 1000))))
       = (gorm.token_address_history (db (world 1000)) ++ [row])%list
       /\ TokenAddressHistory.Action row = "bridge"
       /\ TokenAddressHistory.Receiver row = "bridge".
Proof.
  split; [vm_compute; reflexivity|]. split; [vm_compute; reflexivity|]. split; [vm_compute; reflexivity|].
  apply (send_appends_one_bridge_transfer protocol transaction (send "250")
           alice (memo "cosmoshub-4" "send" "250") (world 1000)
           (snd (Process protocol transaction (send "250") alice (world 1000)))).
  - vm_compute; reflexivity.
  - vm_compute; reflexivity.
  - vm_compute; reflexivity.
Defined.

Lemma send_signature_deterministic_and_verifiable_witness :
  Process protocol transaction (send "250") alice (world 1000)
  = (Ok tt, snd (Process protocol transaction (send "250") alice (world 1000)))
  /\ Process protocol transaction (send "250") alice (world 500)
     = (Ok tt, snd (Process protocol transaction (send "250") alice (world 500)))
  /\ pubKey protocol = ed25519.Public (privKey protocol)
  /\ exists row1 row2,
       gorm.bridge_history
         (db (snd (Process protocol transaction (send "250") alice (world 1000))))
       = (gorm.bridge_history (db (world 1000)) ++ [row1])%list
       /\ gorm.bridge_history
            (db (snd (Process protocol transaction (send "250") alice (world 500))))
          = (gorm.bridge_history (db (world 500)) ++ [row2])%list
       /\ BridgeHistory.Signature row1 = BridgeHistory.Signature row2
       /\ exists signature,
            b64.DecodeString (BridgeHistory.Signature row1) = Ok signature
            /\ ed25519.Verify (pubKey protocol)
                 (chainID protocol ++ Transaction.Hash transaction
                  ++ ticker (memo "cosmoshub-4" "send" "250")
                  ++ amountString (memo "cosmoshub-4" "send" "250")
                  ++ remoteChainId (memo "cosmoshub-4" "send" "250")
                  ++ remoteContract (memo "cosmoshub-4" "send" "250")
                  ++ receiverAddress (memo "cosmoshub-4" "send" "250"))
                 signature = true.
Proof.
  split; [vm_compute; reflexivity|]. split; [vm_compute; reflexivity|].
  split; [vm_compute; reflexivity|].
  destruct (send_signature_deterministic_and_verifiable protocol
              transaction transaction (send "250") (send "250") alice alice
              (memo "cosmoshub-4" "send" "250") (memo "cosmoshub-4" "send" "250")
              (world 1000) (world 500)
              (snd (Process protocol transaction (send "250") alice (world 1000)))
              (snd (Process protocol transaction (send "250") alice (world 500)))
              eq_refl eq_refl eq_refl eq_refl eq_refl eq_refl eq_refl eq_refl
              eq_refl eq_refl)
    as (row1 & row2 & H1 & H2 & Hsame & Hverify).
  - vm_compute; reflexivity.
  - vm_compute; reflexivity.
  - exists row1, row2. split; [exact H1|]. split; [exact H2|].
    split; [exact Hsame|]. exact (Hverify eq_refl).
Defined.

(** *** Sends that are refused *)

Example unknown_token_refused :
  Process protocol transaction (send "250") alice nothing
  = (Err (ErrTokenMissing "TICK"), nothing).
Proof. vm_compute; reflexivity. Qed.

Example unknown_chain_refused :
  Process protocol transaction unknown_chain alice (world 1000)
  = (Err (ErrRemoteChainMissing "juno-1"), world 1000).
Proof. vm_compute; reflexivity. Qed.

Example wrong_contract_refused :
  Process protocol transaction wrong_contract alice (world 1000)
  = (Err (ErrRemoteContract "osmosis-1"), world 1000).
Proof. vm_compute; reflexivity. Qed.

Example shut_gate_refused :
  Process protocol transaction (send "250") alice shut
  = (Err (ErrNotEnabled "TICK" "osmosis-1"), shut).
Proof. vm_compute; reflexivity. Qed.

Example malformed_amount_refused :
  Process protocol transaction (send "2x") alice (world 1000)
  = (Err (ErrAmountSyntax Concrete.ErrSyntax), world 1000).
Proof. vm_compute; reflexivity. Qed.

Example negative_amount_refused :
  Process protocol transaction (send "-3") alice (world 1000)
  = (Err ErrAmountNotPositive, world 1000).
Proof. vm_compute; reflexivity. Qed.

Example no_holder_refused :
  Process protocol transaction (send "250") bob (world 1000)
  = (Err ErrNoHolder, world 1000).
Proof. vm_compute; reflexivity. Qed.

Example insufficient_balance_refused :
  Process protocol transaction (send "1001") alice (world 1000)
  = (Err ErrInsufficient, world 1000).
Proof. vm_compute; reflexivity. Qed.

Lemma send_preconditions_rejected_witness :
  ParseProtocolString (send "250") = Ok (memo "cosmoshub-4" "send" "250")
  /\ ProtocolURN.Operation (memo "cosmoshub-4" "send" "250") = "send"
  /\ (forall t, In t (gorm.token (db nothing)) ->
                ~ (Token.ChainID t = ProtocolURN.ChainID (memo "cosmoshub-4" "send" "250")
                   /\ Token.Ticker t = ticker (memo "cosmoshub-4" "send" "250")))
  /\ exists e,
       Process protocol transaction (send "250") alice nothing = (Err e, nothing).
Proof.
  split; [vm_compute; reflexivity|]. split; [vm_compute; reflexivity|].
  split; [intros t Hin; simpl in Hin; destruct Hin|].
  apply (send_preconditions_rejected protocol transaction (send "250") alice
           (memo "cosmoshub-4" "send" "250") nothing).
  - vm_compute; reflexivity.
  - vm_compute; reflexivity.
  - left. intros t Hin. simpl in Hin. destruct Hin.
Defined.

Lemma chain_mismatch_rejected_witness :
  ParseProtocolString elsewhere = Ok (memo "osmosis-1" "send" "250")
  /\ ProtocolURN.ChainID (memo "osmosis-1" "send" "250") <> chainID protocol
  /\ (exists e,
         Process protocol transaction elsewhere alice (world 1000)
         = (Err e, world 1000))
  /\ (forall sender,
         GetSenderAddress alice = Ok sender ->
         Process protocol transaction elsewhere alice (world 1000)
         = (Err ErrChainMismatch, world 1000)).
Proof.
  split; [vm_compute; reflexivity|]. split; [discriminate|].
  apply (chain_mismatch_rejected protocol transaction elsewhere alice
           (memo "osmosis-1" "send" "250") (world 1000)).
  - vm_compute; reflexivity.
  - discriminate.
Defined.

Lemma send_amount_not_positive_rejected_witness :
  ParseProtocolString (send "0") = Ok (memo "cosmoshub-4" "send" "0")
  /\ ProtocolURN.Operation (memo "cosmoshub-4" "send" "0") = "send"
  /\ Go.ParseFloat (amountString (memo "cosmoshub-4" "send" "0")) = Ok (S754_zero false)
  /\ Go.le (S754_zero false) Go.zero = true
  /\ exists e,
       Process protocol transaction (send "0") alice (world 1000)
       = (Err e, world 1000).
Proof.
  split; [vm_compute; reflexivity|]. split; [vm_compute; reflexivity|]. split; [vm_compute; reflexivity|].
  split; [vm_compute; reflexivity|].
  apply (send_amount_not_positive_rejected protocol transaction (send "0") alice
           (memo "cosmoshub-4" "send" "0") (world 1000)).
  - vm_compute; reflexivity.
  - vm_compute; reflexivity.
  - right. left. exists (S754_zero false). split; vm_compute; reflexivity.
Defined.

(** *** Operations other than send *)

Lemma other_operation_ignored_witness :
  GetSenderAddress alice = Ok "cosmos1alice"
  /\ ParseProtocolString burn = Ok (memo "cosmoshub-4" "burn" "250")
  /\ ProtocolURN.ChainID (memo "cosmoshub-4" "burn" "250") = chainID protocol
  /\ ProtocolURN.Operation (memo "cosmoshub-4" "burn" "250") <> "send"
  /\ Process protocol transaction burn alice (world 1000) = (Ok tt, world 1000).
Proof.
  split; [vm_compute; reflexivity|]. split; [vm_compute; reflexivity|]. split; [vm_compute; reflexivity|].
  split; [discriminate|].
  apply (other_operation_ignored protocol transaction burn alice "cosmos1alice"
           (memo "cosmoshub-4" "burn" "250") (world 1000)).
  - vm_compute; reflexivity.
  - vm_compute; reflexivity.
  - vm_compute; reflexivity.
  - discriminate.
Defined.


(** C9, as stated, fails: the memo
    [urn:bridge:cosmoshub-4@v1;burn$tic=tick,amt=250,...] names an operation
    the processor has no case for, and [Process] returns no error for it. *)
Lemma unknown_operation_is_not_an_error :
  ParseProtocolString burn = Ok (memo "cosmoshub-4" "burn" "250")
  /\ ProtocolURN.Operation (memo "cosmoshub-4" "burn" "250") <> "send"
  /\ ~ (exists e,
           fst (Process protocol transaction burn alice (world 1000)) = Err e).
Proof.
  split; [vm_compute; reflexivity|]. split; [discriminate|].
  intros [e He]. vm_compute in He. discriminate.
Qed.

(** *** Keys that do not belong together *)

(** C8, as stated, fails: [NewBridgeProcessor] accepts a private key and
    the public half of another key, the send succeeds, and the stored
    signature does not verify under the configured public key. *)
Lemma unpaired_keys_signature_fails_verification :
  NewBridgeProcessor "cosmoshub-4" (Ok unpaired)
  = Ok {| chainID := "cosmoshub-4"; privKey := "k1"; pubKey := Public "k2" |}
  /\ fst (Process {| chainID := "cosmoshub-4"; privKey := "k1"; pubKey := Public "k2" |}
            transaction (send "250") alice (world 1000)) = Ok tt
  /\ map BridgeHistory.Signature
       (gorm.bridge_history
          (db (snd (Process {| chainID := "cosmoshub-4"; privKey := "k1";
                               pubKey := Public "k2" |}
                      transaction (send "250") alice (world 1000)))))
     = [b64.EncodeToString
          (ed25519.Sign "k1"
             ("cosmoshub-4" ++ "C0FFEE" ++ "TICK" ++ "250" ++ "osmosis-1"
              ++ "osmo1contract" ++ "osmo1bob"))]
  /\ ed25519.Verify (Public "k2")
       ("cosmoshub-4" ++ "C0FFEE" ++ "TICK" ++ "250" ++ "osmosis-1"
        ++ "osmo1contract" ++ "osmo1bob")
       (ed25519.Sign "k1"
          ("cosmoshub-4" ++ "C0FFEE" ++ "TICK" ++ "250" ++ "osmosis-1"
           ++ "osmo1contract" ++ "osmo1bob"))
     = false.
Proof. repeat split; vm_compute; reflexivity. Qed.

(** *** Amounts with a fraction *)

(** C4, at a holder of 1 and the literal [1.5]: the holder has less than
    the amount, and the send is accepted and empties the holder. *)
Theorem fractional_amount_passes_balance_check :
  TokenHolder.Amount (holder 1) = 1
  /\ Go.ParseFloat "1.5" = Ok (S754_finite false 6755399441055744 (-52))
  /\ SFltb (Go.float64_of_Z 1) (S754_finite false 6755399441055744 (-52)) = true
  /\ Process protocol transaction (send "1.5") alice (world 1)
     = (Ok tt, snd (Process protocol transaction (send "1.5") alice (world 1)))
  /\ gorm.token_holder
       (db (snd (Process protocol transaction (send "1.5") alice (world 1))))
     = [holder 0].
Proof. repeat split; vm_compute; reflexivity. Qed.

(** C5, at a holder of 10 and the literal [1.5]: the holder is debited by 1
    and both history rows record 2. *)
Theorem fractional_amount_debit_differs_from_record :
  Process protocol transaction (send "1.5") alice (world 10)
  = (Ok tt, snd (Process protocol transaction (send "1.5") alice (world 10)))
  /\ gorm.token_holder
       (db (snd (Process protocol transaction (send "1.5") alice (world 10))))
     = [holder 9]
  /\ map TokenAddressHistory.Amount
       (gorm.token_address_history
          (db (snd (Process protocol transaction (send "1.5") alice (world 10)))))
     = [2]
  /\ map BridgeHistory.Amount
       (gorm.bridge_history
          (db (snd (Process protocol transaction (send "1.5") alice (world 10)))))
     = [2].
Proof. repeat split; vm_compute; reflexivity. Qed.

(** * Further properties of the processor *)

Section Further.

Context {library : Go.Library} {scheme : ed25519.Scheme}
  {parser : x509.Parser} {envelope : Envelope}.

(** ** What a call leaves alone *)

(** X1. Whatever a call returns, it has not touched the [token],
    [bridge_remote_chain] and [bridge_token] tables nor the driver, and each
    of the two history tables is the old one with at most one row added at
    the end. *)
Theorem process_only_appends_history
  protocol transactionModel protocolURN rawTransaction w r w' :
  Process protocol transactionModel protocolURN rawTransaction w = (r, w') ->
  gorm.token (db w') = gorm.token (db w)
  /\ gorm.bridge_remote_chain (db w') = gorm.bridge_remote_chain (db w)
  /\ gorm.bridge_token (db w') = gorm.bridge_token (db w)
  /\ fault w' = fault w
  /\ (exists rows,
         (length rows <= 1)%nat
         /\ gorm.token_address_history (db w')
            = (gorm.token_address_history (db w) ++ rows)%list)
  /\ (exists rows,
         (length rows <= 1)%nat
         /\ gorm.bridge_history (db w')
            = (gorm.bridge_history (db w) ++ rows)%list).
Proof.
  intros H. apply Process_Run in H.
  inversion H; subst; cbn [db fault written gorm.token gorm.bridge_remote_chain
                             gorm.bridge_token gorm.token_address_history
                             gorm.bridge_history gorm.set_token_holder
                             gorm.set_token_address_history
                             gorm.set_bridge_history].
  1, 2: repeat split;
        try (exists []; split; [apply Nat.le_0_l | now rewrite app_nil_r]).
  - repeat split;
      exists []; split; try apply Nat.le_0_l; now rewrite app_nil_r.
  - repeat split.
    + eexists [_]. split; [apply Nat.le_refl | reflexivity].
    + exists []. split; [apply Nat.le_0_l | now rewrite app_nil_r].
  - repeat split; eexists [_]; split; try apply Nat.le_refl; reflexivity.
Qed.

(** X2. A call that returns an error has stored no [bridge_history] row,
    hence no signature; and unless the driver refused one of the two history
    inserts, it has changed nothing at all. *)
Theorem failed_call_stores_no_signature
  protocol transactionModel protocolURN rawTransaction w e w' :
  Process protocol transactionModel protocolURN rawTransaction w = (Err e, w') ->
  gorm.bridge_history (db w') = gorm.bridge_history (db w)
  /\ (fault w gorm.SaveTokenAddressHistory = None ->
      fault w gorm.SaveBridgeHistory = None ->
      w' = w).
Proof.
  intros H. apply Process_Run in H.
  inversion H as [ e' | | s u t c a h e' _ _ _ _ _ Hf
                 | s u t c a h e' _ _ _ _ _ Hf1 Hf2 | ]; subst.
  - split; [reflexivity | intros _ _; reflexivity].
  - split; [reflexivity | intros Hn _; congruence].
  - split; [reflexivity | intros _ Hn; congruence].
Qed.

(** ** When a send goes through *)

Lemma Process_when_checked
  protocol transactionModel protocolURN rawTransaction sender u w
  tokenModel remoteChainModel amount holderModel :
  GetSenderAddress rawTransaction = Ok sender ->
  ParseProtocolString protocolURN = Ok u ->
  ProtocolURN.Operation u = "send" ->
  (forall site, fault w site = None) ->
  Checked protocol u sender w tokenModel remoteChainModel amount holderModel ->
  Process protocol transactionModel protocolURN rawTransaction w
  = (Ok tt,
     {| db := written 3 protocol transactionModel u sender tokenModel amount
                holderModel (db w);
        fault := fault w;
        journal :=
          journal w
          ++ effects protocol transactionModel u sender tokenModel amount
               holderModel |}).
Proof.
  intros Hs Hu Hop Hh [Hchain Ht Hc Hrco (b & Hb & Hen) Ha Hpos Hholder Hbal].
  unfold ticker, remoteChainId, remoteContract, amountString in *.
  apply String.eqb_eq in Hchain, Hop, Hrco.
  unfold Process, bind, try, First, Save, sign, ret, throw.
  rewrite Hs, Hu, Hchain, Hop.
  repeat (cbv beta iota zeta; cbn [fault db journal negb];
          first [ rewrite Hh | rewrite Ht | rewrite Hc | rewrite Hrco
                | rewrite Hb | rewrite Hen | rewrite Ha | rewrite Hpos
                | rewrite Hholder | rewrite Hbal ]).
  cbv beta iota zeta. cbn [fault db journal].
  rewrite <- !app_assoc. reflexivity.
Qed.

(** X3. With a known sender and a driver that refuses nothing, a send
    returns without error exactly when every check finds what it looks for:
    the chain is the configured one, the token, the remote chain with the
    contract named and an enabled gate exist, the amount parses to a value
    for which [amount <= 0] is false, and the sender's holder row has at
    least [uint64(amount)].  The values for which [amount <= 0] is false
    are the finite values above zero, the positive infinity and NaN, so a
    memo whose amount parses to NaN or to the infinity is not stopped by the
    sign check. *)
Theorem send_succeeds_exactly_when_checked
  protocol transactionModel protocolURN rawTransaction sender u w :
  GetSenderAddress rawTransaction = Ok sender ->
  ParseProtocolString protocolURN = Ok u ->
  ProtocolURN.Operation u = "send" ->
  (forall site, fault w site = None) ->
  fst (Process protocol transactionModel protocolURN rawTransaction w) = Ok tt
  <-> exists tokenModel remoteChainModel amount holderModel,
        Checked protocol u sender w tokenModel remoteChainModel amount
          holderModel
        /\ (amount = S754_nan \/ amount = S754_infinity false
            \/ exists m e, amount = S754_finite false m e).
Proof.
  intros Hs Hu Hop Hh. split.
  - destruct (Process protocol transactionModel protocolURN rawTransaction w)
      as [r w'] eqn:H.
    cbn [fst]. intros ->.
    destruct (Process_sent _ _ _ _ _ _ _ Hu Hop H)
      as (s & t & c & a & h & Hs' & Hc & _).
    assert (s = sender) by congruence. subst s.
    exists t, c, a, h. split; [exact Hc|].
    apply not_le_zero. exact (checked_positive _ _ _ _ _ _ _ _ Hc).
  - intros (t & c & a & h & Hc & _).
    now rewrite (Process_when_checked _ transactionModel _ _ _ _ _ _ _ _ _
                   Hs Hu Hop Hh Hc).
Qed.

(** ** The holder table *)

Lemma save_token_holder_replaces rows h h' :
  In h rows ->
  TokenHolder.ID h' = TokenHolder.ID h ->
  TokenHolder.ID h <> 0 ->
  gorm.save_token_holder h' rows
  = map (fun r => if TokenHolder.ID r =? TokenHolder.ID h then h' else r) rows.
Proof.
  intros Hin Hid Hnz. unfold gorm.save_token_holder. rewrite Hid.
  destruct (TokenHolder.ID h =? 0) eqn:Hz; [apply Z.eqb_eq in Hz; contradiction|].
  assert (Hex : existsb (fun r => TokenHolder.ID r =? TokenHolder.ID h) rows = true).
  { apply existsb_exists. exists h. split; [assumption | apply Z.eqb_refl]. }
  now rewrite Hex.
Qed.

Lemma replaced_row_split rows h h' :
  NoDup (map TokenHolder.ID rows) ->
  In h rows ->
  exists before after,
    rows = (before ++ h :: after)%list
    /\ map (fun r => if TokenHolder.ID r =? TokenHolder.ID h then h' else r) rows
       = (before ++ h' :: after)%list.
Proof.
  intros Hnd Hin. destruct (in_split _ _ Hin) as (l1 & l2 & ->).
  exists l1, l2. split; [reflexivity|].
  rewrite map_app in Hnd. cbn [map] in Hnd.
  pose proof (NoDup_remove_2 _ _ _ Hnd) as Hnot.
  rewrite map_app. cbn [map]. rewrite Z.eqb_refl.
  assert (Hkeep : forall l, (forall r, In r l -> In (TokenHolder.ID r)
                                 (map TokenHolder.ID l1 ++ map TokenHolder.ID l2)) ->
            map (fun r => if TokenHolder.ID r =? TokenHolder.ID h then h' else r) l = l).
  { intros l Hl. rewrite <- (map_id l) at 2. apply map_ext_in. intros r Hr.
    destruct (TokenHolder.ID r =? TokenHolder.ID h) eqn:E; [|reflexivity].
    apply Z.eqb_eq in E. specialize (Hl r Hr). rewrite E in Hl. contradiction. }
  rewrite !Hkeep; [reflexivity | |].
  - intros r Hr. apply in_or_app. right. now apply in_map.
  - intros r Hr. apply in_or_app. left. now apply in_map.
Qed.

Lemma first_row_replaced (cond : TokenHolder.t -> bool) rows h h' :
  gorm.first_row TokenHolder.ID cond rows = Some h ->
  TokenHolder.ID h' = TokenHolder.ID h ->
  cond h' = true ->
  gorm.first_row TokenHolder.ID cond
    (map (fun r => if TokenHolder.ID r =? TokenHolder.ID h then h' else r) rows)
  = Some h'.
Proof.
  intros Hfirst Hid Hcond.
  set (f := fun r => if TokenHolder.ID r =? TokenHolder.ID h then h' else r).
  destruct (first_row_Some _ _ _ _ Hfirst) as [Hin _].
  assert (Hin' : In h' (map f rows)).
  { apply in_map_iff. exists h. split; [|assumption].
    unfold f. now rewrite Z.eqb_refl. }
  destruct (gorm.first_row TokenHolder.ID cond (map f rows)) as [x|] eqn:Hnew.
  - destruct (first_row_Some _ _ _ _ Hnew) as [Hx Hcx].
    pose proof (first_row_least _ _ _ _ Hnew h' Hin' Hcond) as Hle.
    apply in_map_iff in Hx. destruct Hx as (r0 & Hfx & Hr0).
    unfold f in Hfx.
    destruct (TokenHolder.ID r0 =? TokenHolder.ID h) eqn:E; [congruence|].
    subst x. apply Z.eqb_neq in E.
    pose proof (first_row_least _ _ _ _ Hfirst r0 Hr0 Hcx). lia.
  - rewrite first_row_None in Hnew. rewrite (Hnew h' Hin') in Hcond. discriminate.
Qed.

Lemma sum_with_accumulator (l : list Z) (a : Z) :
  fold_right Z.add a l = fold_right Z.add 0 l + a.
Proof. induction l as [|x l IH]; cbn; lia. Qed.

Lemma holder_query_debited chain_id token_id address h a :
  Where.token_holder chain_id token_id address h = true ->
  Where.token_holder chain_id token_id address (debited h a) = true.
Proof. now destruct h. Qed.

(** X4. When primary keys are unique and not zero and balances are
    [uint64] values, a successful send changes one row of [token_holder],
    the one the sender's query finds, and lowers its amount by
    [uint64(amount)]; every other row and the order of the rows stay, so the
    total of the balances drops by exactly that integer. *)
Theorem send_changes_one_holder_row
  protocol transactionModel protocolURN rawTransaction u w w' :
  ParseProtocolString protocolURN = Ok u ->
  ProtocolURN.Operation u = "send" ->
  NoDup (map TokenHolder.ID (gorm.token_holder (db w))) ->
  (forall r, In r (gorm.token_holder (db w)) ->
             TokenHolder.ID r <> 0 /\ 0 <= TokenHolder.Amount r < Go.two64) ->
  Process protocol transactionModel protocolURN rawTransaction w = (Ok tt, w') ->
  exists sender tokenModel amount holderModel before after,
    GetSenderAddress rawTransaction = Ok sender
    /\ Go.ParseFloat (amountString u) = Ok amount
    /\ gorm.first_row TokenHolder.ID
         (Where.token_holder (ProtocolURN.ChainID u) (Token.ID tokenModel) sender)
         (gorm.token_holder (db w)) = Some holderModel
    /\ gorm.token_holder (db w) = (before ++ holderModel :: after)%list
    /\ gorm.token_holder (db w')
       = (before
          ++ TokenHolder.with_Amount holderModel
               (TokenHolder.Amount holderModel - Go.uint64 amount)
          :: after)%list
    /\ 0 <= TokenHolder.Amount holderModel - Go.uint64 amount
    /\ fold_right Z.add 0 (map TokenHolder.Amount (gorm.token_holder (db w')))
       = fold_right Z.add 0 (map TokenHolder.Amount (gorm.token_holder (db w)))
         - Go.uint64 amount.
Proof.
  intros Hu Hop Hnd Hwf H.
  destruct (Process_sent _ _ _ _ _ _ _ Hu Hop H)
    as (sender & t & c & a & h & Hs & Hc & Hdb & _).
  pose proof (checked_holder _ _ _ _ _ _ _ _ Hc) as Hh.
  destruct (first_row_Some _ _ _ _ Hh) as [Hin _].
  destruct (Hwf h Hin) as [Hnz Hrange].
  destruct (debit_stays_in_range _ _ _ _ _ _ _ _ Hc Hrange) as [Hamt Hpos].
  destruct (replaced_row_split _ h (debited h a) Hnd Hin)
    as (before & after & Hold & Hnew).
  exists sender, t, a, h, before, after.
  assert (Htable : gorm.token_holder (db w')
                   = (before ++ debited h a :: after)%list).
  { rewrite Hdb. cbn [written gorm.token_holder gorm.set_token_holder
                        gorm.set_token_address_history gorm.set_bridge_history].
    rewrite (save_token_holder_replaces _ h) by (assumption || reflexivity).
    exact Hnew. }
  assert (Hrow : debited h a
                 = TokenHolder.with_Amount h (TokenHolder.Amount h - Go.uint64 a)).
  { unfold debited. cbn [debited TokenHolder.Amount TokenHolder.with_Amount] in Hamt.
    now rewrite Hamt. }
  repeat split; try assumption.
  - exact (checked_amount _ _ _ _ _ _ _ _ Hc).
  - now rewrite Htable, Hrow.
  - rewrite <- Hamt. apply Hpos.
  - rewrite Htable, Hold, !map_app, !fold_right_app. cbn [map fold_right].
    rewrite (sum_with_accumulator (map TokenHolder.Amount before)).
    rewrite (sum_with_accumulator (map TokenHolder.Amount before)
               (TokenHolder.Amount h + _)).
    rewrite Hamt. lia.
Qed.

(** X5. After a successful send the sender's query, asked again, returns
    the debited row: the next call sees the new balance. *)
Theorem holder_query_sees_the_debit
  protocol transactionModel protocolURN rawTransaction u w w' :
  ParseProtocolString protocolURN = Ok u ->
  ProtocolURN.Operation u = "send" ->
  Process protocol transactionModel protocolURN rawTransaction w = (Ok tt, w') ->
  exists sender tokenModel amount holderModel,
    GetSenderAddress rawTransaction = Ok sender
    /\ Go.ParseFloat (amountString u) = Ok amount
    /\ gorm.first_row TokenHolder.ID
         (Where.token_holder (ProtocolURN.ChainID u) (Token.ID tokenModel) sender)
         (gorm.token_holder (db w)) = Some holderModel
    /\ (TokenHolder.ID holderModel <> 0 ->
        gorm.first_row TokenHolder.ID
          (Where.token_holder (ProtocolURN.ChainID u) (Token.ID tokenModel) sender)
          (gorm.token_holder (db w'))
        = Some (TokenHolder.with_Amount holderModel
                  (Go.sub64 (TokenHolder.Amount holderModel) (Go.uint64 amount)))).
Proof.
  intros Hu Hop H.
  destruct (Process_sent _ _ _ _ _ _ _ Hu Hop H)
    as (sender & t & c & a & h & Hs & Hc & Hdb & _).
  pose proof (checked_holder _ _ _ _ _ _ _ _ Hc) as Hh.
  destruct (first_row_Some _ _ _ _ Hh) as [Hin Hcond].
  exists sender, t, a, h. repeat split; try assumption.
  - exact (checked_amount _ _ _ _ _ _ _ _ Hc).
  - intros Hnz. rewrite Hdb.
    cbn [written gorm.token_holder gorm.set_token_holder
           gorm.set_token_address_history gorm.set_bridge_history].
    rewrite (save_token_holder_replaces _ h) by (assumption || reflexivity).
    apply first_row_replaced; [assumption | reflexivity |].
    now apply holder_query_debited.
Qed.

(** ** Calling twice *)

(** X6. [Process] keeps no record of what it has processed: called a
    second time with the same transaction and memo on the state the first
    call left, with a driver that refuses nothing, it succeeds again as soon
    as the remaining balance covers [uint64(amount)], debits the holder a
    second time and appends a second [bridge_history] row with the same
    signature. *)
Theorem replayed_send_debits_again
  protocol transactionModel protocolURN rawTransaction u w w1 :
  ParseProtocolString protocolURN = Ok u ->
  ProtocolURN.Operation u = "send" ->
  (forall site, fault w site = None) ->
  Process protocol transactionModel protocolURN rawTransaction w = (Ok tt, w1) ->
  exists sender tokenModel amount holderModel,
    GetSenderAddress rawTransaction = Ok sender
    /\ Go.ParseFloat (amountString u) = Ok amount
    /\ gorm.first_row TokenHolder.ID
         (Where.token_holder (ProtocolURN.ChainID u) (Token.ID tokenModel) sender)
         (gorm.token_holder (db w)) = Some holderModel
    /\ (TokenHolder.ID holderModel <> 0 ->
        Go.lt64 (Go.sub64 (TokenHolder.Amount holderModel) (Go.uint64 amount))
          (Go.uint64 amount) = false ->
        exists w2 row1 row2,
          Process protocol transactionModel protocolURN rawTransaction w1
          = (Ok tt, w2)
          /\ gorm.bridge_history (db w2)
             = (gorm.bridge_history (db w) ++ [row1; row2])%list
          /\ BridgeHistory.Signature row1 = BridgeHistory.Signature row2
          /\ gorm.first_row TokenHolder.ID
               (Where.token_holder (ProtocolURN.ChainID u) (Token.ID tokenModel)
                  sender)
               (gorm.token_holder (db w2))
             = Some (TokenHolder.with_Amount holderModel
                       (Go.sub64
                          (Go.sub64 (TokenHolder.Amount holderModel)
                             (Go.uint64 amount))
                          (Go.uint64 amount)))).
Proof.
  intros Hu Hop Hh H.
  destruct (Process_sent _ _ _ _ _ _ _ Hu Hop H)
    as (sender & t & c & a & h & Hs & Hc & _ & _).
  rewrite (Process_when_checked _ transactionModel _ _ _ _ _ _ _ _ _
             Hs Hu Hop Hh Hc) in H.
  injection H as <-.
  exists sender, t, a, h.
  destruct Hc as [Hchain Ht Hrc Hrco Hgate Ha Hpos Hholder Hbal].
  destruct (first_row_Some _ _ _ _ Hholder) as [Hin Hcond].
  repeat split; try assumption.
  intros Hnz Hbal2.
  set (w1 := {| db := written 3 protocol transactionModel u sender t a h (db w);
                fault := fault w;
                journal := (journal w
                            ++ effects protocol transactionModel u sender t a h)%list |}).
  assert (Htable1 : gorm.token_holder (db w1)
                    = map (fun r => if TokenHolder.ID r =? TokenHolder.ID h
                                    then debited h a else r)
                        (gorm.token_holder (db w))).
  { cbn. now apply save_token_holder_replaces. }
  assert (Hholder1 : gorm.first_row TokenHolder.ID
                       (Where.token_holder (ProtocolURN.ChainID u) (Token.ID t) sender)
                       (gorm.token_holder (db w1)) = Some (debited h a)).
  { rewrite Htable1. apply first_row_replaced; [assumption | reflexivity |].
    now apply holder_query_debited. }
  assert (Hc1 : Checked protocol u sender w1 t c a (debited h a)).
  { constructor; try assumption. }
  assert (Hh1 : forall site, fault w1 site = None) by exact Hh.
  destruct (first_row_Some _ _ _ _ Hholder1) as [Hin1 _].
  eexists _, _, _. split; [|split; [|split]].
  - exact (Process_when_checked _ transactionModel _ _ _ _ _ _ _ _ _
             Hs Hu Hop Hh1 Hc1).
  - cbn [db written gorm.bridge_history gorm.set_bridge_history
           gorm.set_token_address_history gorm.set_token_holder w1].
    rewrite <- app_assoc. reflexivity.
  - reflexivity.
  - cbn [db written gorm.token_holder gorm.set_bridge_history
           gorm.set_token_address_history gorm.set_token_holder].
    rewrite (save_token_holder_replaces _ (debited h a))
      by (assumption || reflexivity).
    apply (first_row_replaced _ _ (debited h a) (debited (debited h a) a));
      [assumption | reflexivity |].
    now apply holder_query_debited.
Qed.

(** ** What the signature does not tell apart *)

(** X7. The signed message has no separators, so the signature depends
    only on the concatenation of hash, ticker, amount, remote chain, remote
    contract and receiver: two successful sends whose fields differ but
    concatenate to the same text store the same signature. *)
Theorem signature_ignores_field_boundaries
  protocol transaction1 transaction2 urn1 urn2 raw1 raw2 u1 u2 w1 w2 w1' w2' :
  ParseProtocolString urn1 = Ok u1 ->
  ParseProtocolString urn2 = Ok u2 ->
  ProtocolURN.Operation u1 = "send" ->
  ProtocolURN.Operation u2 = "send" ->
  Transaction.Hash transaction1 ++ ticker u1 ++ amountString u1
  ++ remoteChainId u1 ++ remoteContract u1 ++ receiverAddress u1
  = Transaction.Hash transaction2 ++ ticker u2 ++ amountString u2
    ++ remoteChainId u2 ++ remoteContract u2 ++ receiverAddress u2 ->
  Process protocol transaction1 urn1 raw1 w1 = (Ok tt, w1') ->
  Process protocol transaction2 urn2 raw2 w2 = (Ok tt, w2') ->
  exists row1 row2,
    gorm.bridge_history (db w1') = (gorm.bridge_history (db w1) ++ [row1])%list
    /\ gorm.bridge_history (db w2') = (gorm.bridge_history (db w2) ++ [row2])%list
    /\ BridgeHistory.Signature row1 = BridgeHistory.Signature row2.
Proof.
  intros Hu1 Hu2 Hop1 Hop2 Hsame H1 H2.
  destruct (Process_sent_signature _ _ _ _ _ _ _ Hu1 Hop1 H1)
    as (row1 & Hrow1 & Hsig1).
  destruct (Process_sent_signature _ _ _ _ _ _ _ Hu2 Hop2 H2)
    as (row2 & Hrow2 & Hsig2).
  exists row1, row2. split; [assumption|]. split; [assumption|].
  rewrite Hsig1, Hsig2. unfold attestation. now rewrite Hsame.
Qed.

(** ** Amounts below one *)

Lemma uint64_of_fraction (a : Go.float64) : Go.trunc a = Some 0 -> Go.uint64 a = 0.
Proof. unfold Go.uint64. now intros ->. Qed.

(** X8. A send whose amount is above zero and below one truncates to a
    debit of zero: it passes the balance test whatever the balance, the
    holder row is saved with the amount it had, and the attestation over the
    literal is signed and stored all the same. *)
Theorem amount_below_one_debits_nothing
  protocol transactionModel protocolURN rawTransaction u w w' :
  ParseProtocolString protocolURN = Ok u ->
  ProtocolURN.Operation u = "send" ->
  Process protocol transactionModel protocolURN rawTransaction w = (Ok tt, w') ->
  exists sender tokenModel amount holderModel,
    Go.ParseFloat (amountString u) = Ok amount
    /\ gorm.first_row TokenHolder.ID
         (Where.token_holder (ProtocolURN.ChainID u) (Token.ID tokenModel) sender)
         (gorm.token_holder (db w)) = Some holderModel
    /\ (Go.trunc amount = Some 0 ->
        0 <= TokenHolder.Amount holderModel < Go.two64 ->
        gorm.token_holder (db w')
        = gorm.save_token_holder holderModel (gorm.token_holder (db w))
        /\ exists row,
             gorm.bridge_history (db w')
             = (gorm.bridge_history (db w) ++ [row])%list
             /\ BridgeHistory.Amount row = Go.uint64 (Go.Round amount)
             /\ BridgeHistory.Signature row
                = b64.EncodeToString
                    (ed25519.Sign (privKey protocol)
                       (send_attestation transactionModel u tokenModel))).
Proof.
  intros Hu Hop H.
  destruct (Process_sent _ _ _ _ _ _ _ Hu Hop H)
    as (sender & t & c & a & h & Hs & Hc & Hdb & _).
  exists sender, t, a, h.
  split; [exact (checked_amount _ _ _ _ _ _ _ _ Hc)|].
  split; [exact (checked_holder _ _ _ _ _ _ _ _ Hc)|].
  intros Hzero Hrange.
  assert (Hsame : debited h a = h).
  { unfold debited, Go.sub64. rewrite (uint64_of_fraction a Hzero), Z.sub_0_r.
    rewrite Z.mod_small by assumption. now destruct h. }
  rewrite Hdb. split.
  - cbn [written gorm.token_holder gorm.set_token_holder
           gorm.set_token_address_history gorm.set_bridge_history].
    now rewrite Hsame.
  - eexists. split; [reflexivity|]. split; reflexivity.
Qed.

(** ** What of the memo is read *)

(** X9. [Process] reads the chain, the operation, the upper-cased trimmed
    [tic] and the trimmed [amt], [rch], [rco] and [dst], and nothing else of
    the parsed URN: two memos that agree on these, whatever their version,
    the case of the ticker, the blanks around the values and their other
    keys, have the same result and leave the same state. *)
Theorem process_reads_five_keys
  protocol transactionModel urn1 urn2 rawTransaction u1 u2 w :
  ParseProtocolString urn1 = Ok u1 ->
  ParseProtocolString urn2 = Ok u2 ->
  ProtocolURN.ChainID u1 = ProtocolURN.ChainID u2 ->
  ProtocolURN.Operation u1 = ProtocolURN.Operation u2 ->
  ticker u1 = ticker u2 ->
  amountString u1 = amountString u2 ->
  remoteChainId u1 = remoteChainId u2 ->
  remoteContract u1 = remoteContract u2 ->
  receiverAddress u1 = receiverAddress u2 ->
  Process protocol transactionModel urn1 rawTransaction w
  = Process protocol transactionModel urn2 rawTransaction w.
Proof.
  intros Hu1 Hu2 Hchain Hop Htic Hamt Hrch Hrco Hdst.
  unfold ticker, amountString, remoteChainId, remoteContract, receiverAddress
    in *.
  unfold Process, bind, try, ret.
  destruct (GetSenderAddress rawTransaction) as [sender|e]; [|reflexivity].
  rewrite Hu1, Hu2. cbv beta iota zeta.
  rewrite Hchain, Hop, Htic, Hamt, Hrch, Hrco, Hdst.
  reflexivity.
Qed.

(** ** What the rows refer to *)

(** X16. The [bridge_history] row of a successful send refers to what the
    tables hold: its token is a row of [token] on the configured chain with
    the ticker sent, its remote chain and remote contract are those of a
    row of [bridge_remote_chain] for this chain, and an enabled gate joins
    the two; the row carries the transaction's id, height and date and the
    sender, and so does the [token_address_history] row, with the same
    amount. *)
Theorem history_rows_refer_to_the_tables
  protocol transactionModel protocolURN rawTransaction u w w' :
  ParseProtocolString protocolURN = Ok u ->
  ProtocolURN.Operation u = "send" ->
  Process protocol transactionModel protocolURN rawTransaction w = (Ok tt, w') ->
  exists sender transfer history tokenModel remoteChainModel bridgeTokenModel,
    GetSenderAddress rawTransaction = Ok sender
    /\ gorm.token_address_history (db w')
       = (gorm.token_address_history (db w) ++ [transfer])%list
    /\ gorm.bridge_history (db w')
       = (gorm.bridge_history (db w) ++ [history])%list
    /\ (In tokenModel (gorm.token (db w'))
        /\ Token.ChainID tokenModel = chainID protocol
        /\ Token.Ticker tokenModel = ticker u
        /\ BridgeHistory.TokenID history = Token.ID tokenModel
        /\ TokenAddressHistory.TokenID transfer = Token.ID tokenModel)
    /\ (In remoteChainModel (gorm.bridge_remote_chain (db w'))
        /\ BridgeRemoteChain.ChainID remoteChainModel = chainID protocol
        /\ BridgeHistory.RemoteChainID history
           = BridgeRemoteChain.RemoteChainID remoteChainModel
        /\ BridgeHistory.RemoteContract history
           = BridgeRemoteChain.RemoteContract remoteChainModel)
    /\ (In bridgeTokenModel (gorm.bridge_token (db w'))
        /\ BridgeToken.RemoteChainID bridgeTokenModel
           = BridgeRemoteChain.ID remoteChainModel
        /\ BridgeToken.TokenID bridgeTokenModel = Token.ID tokenModel
        /\ BridgeToken.Enabled bridgeTokenModel = true)
    /\ (BridgeHistory.ChainID history = chainID protocol
        /\ BridgeHistory.TransactionID history = Transaction.ID transactionModel
        /\ BridgeHistory.Height history = Transaction.Height transactionModel
        /\ BridgeHistory.DateCreated history
           = Transaction.DateCreated transactionModel
        /\ BridgeHistory.Sender history = sender
        /\ BridgeHistory.Action history = "send"
        /\ BridgeHistory.Receiver history = receiverAddress u)
    /\ (TokenAddressHistory.ChainID transfer = chainID protocol
        /\ TokenAddressHistory.TransactionID transfer
           = Transaction.ID transactionModel
        /\ TokenAddressHistory.Height transfer
           = Transaction.Height transactionModel
        /\ TokenAddressHistory.DateCreated transfer
           = Transaction.DateCreated transactionModel
        /\ TokenAddressHistory.Sender transfer = sender
        /\ TokenAddressHistory.Amount transfer = BridgeHistory.Amount history).
Proof.
  intros Hu Hop H.
  destruct (Process_sent _ _ _ _ _ _ _ Hu Hop H)
    as (sender & t & c & a & h & Hs & Hc & Hdb & _).
  destruct Hc as [Hchain Ht Hrc Hrco (b & Hb & Hen) _ _ _ _].
  destruct (first_row_Some _ _ _ _ Ht) as [Hint _].
  apply token_found in Ht. destruct Ht as [Htc Htt].
  destruct (first_row_Some _ _ _ _ Hrc) as [Hinc Hwc].
  unfold Where.bridge_remote_chain in Hwc. apply andb_true_iff in Hwc.
  rewrite !String.eqb_eq in Hwc. destruct Hwc as [Hcc Hcr].
  destruct (first_row_Some _ _ _ _ Hb) as [Hinb Hwb].
  unfold Where.bridge_token in Hwb. apply andb_true_iff in Hwb.
  rewrite !Z.eqb_eq in Hwb. destruct Hwb as [Hbr Hbt].
  exists sender,
    (gorm.stored_token_address_history
       (transfer_record transactionModel u sender t a)
       (gorm.token_address_history (db w))),
    (gorm.stored_bridge_history
       (bridge_record protocol transactionModel u sender t a)
       (gorm.bridge_history (db w))),
    t, c, b.
  rewrite Hdb.
  cbn [written gorm.token gorm.bridge_remote_chain gorm.bridge_token
         gorm.token_address_history gorm.bridge_history gorm.set_token_holder
         gorm.set_token_address_history gorm.set_bridge_history
         gorm.stored_token_address_history gorm.stored_bridge_history
         TokenAddressHistory.with_ID BridgeHistory.with_ID transfer_record
         bridge_record
         BridgeHistory.TokenID BridgeHistory.RemoteChainID
         BridgeHistory.RemoteContract BridgeHistory.ChainID
         BridgeHistory.TransactionID BridgeHistory.Height
         BridgeHistory.DateCreated BridgeHistory.Sender BridgeHistory.Action
         BridgeHistory.Receiver BridgeHistory.Amount
         TokenAddressHistory.TokenID TokenAddressHistory.ChainID
         TokenAddressHistory.TransactionID TokenAddressHistory.Height
         TokenAddressHistory.DateCreated TokenAddressHistory.Sender
         TokenAddressHistory.Amount].
  repeat split; try assumption; try reflexivity; congruence.
Qed.

(** ** Keys and the stored signature *)

(** X10. [NewBridgeProcessor] takes the two keys as they come: for any
    DER texts that parse to an Ed25519 private key and to an Ed25519 public
    key, related or not, the base64 of the two in the environment gives a
    processor holding exactly these keys and the chain ID it was given. *)
Theorem NewBridgeProcessor_takes_keys_as_given
  (chain : string) (privKeyDer pubKeyDer : Go.bytes)
  (priv : ed25519.PrivateKey) (pub : ed25519.PublicKey) :
  x509.ParsePKCS8PrivateKey privKeyDer = Ok (x509.Ed25519Private priv) ->
  x509.ParsePKIXPublicKey pubKeyDer = Ok (x509.Ed25519Public pub) ->
  NewBridgeProcessor chain
    (Ok {| BridgePrivateKey := b64.EncodeToString privKeyDer;
           BridgePublicKey := b64.EncodeToString pubKeyDer |})
  = Ok {| chainID := chain; privKey := priv; pubKey := pub |}.
Proof.
  intros Hpriv Hpub. unfold NewBridgeProcessor.
  cbn [BridgePrivateKey BridgePublicKey].
  rewrite !DecodeString_EncodeToString. now rewrite Hpriv, Hpub.
Qed.

Lemma EncodeToString_length n : forall s,
  (String.length s <= n)%nat ->
  String.length (b64.EncodeToString s) = (4 * ((String.length s + 2) / 3))%nat.
Proof.
  induction n as [|n IH]; intros [|a [|b [|c rest]]] Hlen;
    cbn [String.length] in Hlen; try lia; try reflexivity.
  cbn [b64.EncodeToString String.length]. rewrite IH by lia.
  replace (S (S (S (String.length rest))) + 2)%nat
    with (1 * 3 + (String.length rest + 2))%nat by lia.
  rewrite Nat.div_add_l by discriminate. lia.
Qed.

(** X11. The signature column of a successful send holds four characters
    for every three bytes of the signature made, rounded up, and so fits
    the 256 characters of the column exactly when the signature has at most
    192 bytes.  A signature of [ed25519.SignatureSize] bytes, 64, is stored
    in 88 characters. *)
Theorem stored_signature_length
  protocol transactionModel protocolURN rawTransaction u w w' (n : nat) :
  ParseProtocolString protocolURN = Ok u ->
  ProtocolURN.Operation u = "send" ->
  Process protocol transactionModel protocolURN rawTransaction w = (Ok tt, w') ->
  String.length
    (ed25519.Sign (privKey protocol)
       (attestation (chainID protocol) (Transaction.Hash transactionModel)
          (ticker u) (amountString u) (remoteChainId u) (remoteContract u)
          (receiverAddress u))) = n ->
  exists row,
    gorm.bridge_history (db w') = (gorm.bridge_history (db w) ++ [row])%list
    /\ String.length (BridgeHistory.Signature row) = (4 * ((n + 2) / 3))%nat
    /\ ((String.length (BridgeHistory.Signature row) <= 256)%nat
        <-> (n <= 192)%nat).
Proof.
  intros Hu Hop H Hn.
  destruct (Process_sent _ _ _ _ _ _ _ Hu Hop H)
    as (sender & t & c & a & h & _ & Hc & Hdb & _).
  destruct Hc as [Hchain Ht _ _ _ _ _ _ _].
  apply token_found in Ht. destruct Ht as [_ Ht].
  exists (gorm.stored_bridge_history
            (bridge_record protocol transactionModel u sender t a)
            (gorm.bridge_history (db w))).
  assert (Hlen : String.length
                   (BridgeHistory.Signature
                      (gorm.stored_bridge_history
                         (bridge_record protocol transactionModel u sender t a)
                         (gorm.bridge_history (db w))))
                 = (4 * ((n + 2) / 3))%nat).
  { cbn [gorm.stored_bridge_history BridgeHistory.with_ID
           BridgeHistory.Signature bridge_record].
    unfold send_attestation. rewrite Ht, Hchain.
    rewrite (EncodeToString_length _ _ (Nat.le_refl _)). now rewrite Hn. }
  split; [now rewrite Hdb|]. split; [exact Hlen|].
  rewrite Hlen.
  assert (Hdiv : (n + 2 = 3 * ((n + 2) / 3) + (n + 2) mod 3)%nat)
    by (apply Nat.div_mod_eq).
  assert (Hmod : ((n + 2) mod 3 < 3)%nat)
    by (apply Nat.mod_upper_bound; discriminate).
  split; intros Hle; lia.
Qed.
End Further.

(** * The earlier revisions *)

Section LegacyProperties.

Context {library : Go.Library} {scheme : ed25519.Scheme}
  {parser : x509.Parser} {envelope : Envelope}.

Lemma Keyed_sent protocol transactionModel protocolURN rawTransaction u w w' :
  ParseProtocolString protocolURN = Ok u ->
  ProtocolURN.Operation u = "send" ->
  Keyed.Process protocol transactionModel protocolURN rawTransaction w
  = (Ok tt, w') ->
  exists sender tokenModel amount holderModel,
    GetSenderAddress rawTransaction = Ok sender
    /\ LegacyChecked (chainID protocol) u sender w tokenModel amount holderModel
    /\ w' = {| Legacy.db :=
                 legacy_written (debited holderModel amount)
                   (legacy_transfer_record "bridge" transactionModel u sender
                      tokenModel amount)
                   (legacy_bridge_record
                      (b64.EncodeToString
                         (ed25519.Sign (privKey protocol)
                            (six_fields transactionModel u tokenModel)))
                      transactionModel u sender tokenModel amount)
                   (Legacy.db w);
               Legacy.fault := Legacy.fault w;
               Legacy.journal :=
                 (Legacy.journal w
                  ++ [ Legacy.SavedTokenHolder (debited holderModel amount);
                       Legacy.SavedTokenAddressHistory
                         (legacy_transfer_record "bridge" transactionModel u
                            sender tokenModel amount);
                       Legacy.Signed (six_fields transactionModel u tokenModel)
                         (ed25519.Sign (privKey protocol)
                            (six_fields transactionModel u tokenModel));
                       Legacy.SavedBridgeHistory
                         (legacy_bridge_record
                            (b64.EncodeToString
                               (ed25519.Sign (privKey protocol)
                                  (six_fields transactionModel u tokenModel)))
                            transactionModel u sender tokenModel amount) ])%list |}.
Proof.
  intros Hu Hop H.
  unfold Keyed.Process, Legacy.bind, Legacy.try, Legacy.First, Legacy.Save,
    Legacy.sign, Legacy.ret, Legacy.throw in H.
  rewrite Hu in H. cbv beta iota zeta in H.
  repeat (step H; try discriminate).
  all: injection H as <-; legacy_tidy.
  - eexists _, _, _, _. split; [reflexivity|]. split.
    + constructor; eauto.
    + reflexivity.
  - congruence.
Qed.

Lemma Keyed_when_checked
  protocol transactionModel protocolURN rawTransaction sender u w
  tokenModel amount holderModel :
  GetSenderAddress rawTransaction = Ok sender ->
  ParseProtocolString protocolURN = Ok u ->
  ProtocolURN.Operation u = "send" ->
  (forall site, Legacy.fault w site = None) ->
  LegacyChecked (chainID protocol) u sender w tokenModel amount holderModel ->
  fst (Keyed.Process protocol transactionModel protocolURN rawTransaction w)
  = Ok tt
  /\ Legacy.db
       (snd (Keyed.Process protocol transactionModel protocolURN rawTransaction w))
     = legacy_written (debited holderModel amount)
         (legacy_transfer_record "bridge" transactionModel u sender tokenModel
            amount)
         (legacy_bridge_record
            (b64.EncodeToString
               (ed25519.Sign (privKey protocol)
                  (six_fields transactionModel u tokenModel)))
            transactionModel u sender tokenModel amount)
         (Legacy.db w).
Proof.
  intros Hs Hu Hop Hh [Hchain Ht Ha Hpos Hholder Hbal].
  unfold ticker, amountString in *.
  apply String.eqb_eq in Hchain, Hop.
  unfold Keyed.Process, Legacy.bind, Legacy.try, Legacy.First, Legacy.Save,
    Legacy.sign, Legacy.ret, Legacy.throw.
  rewrite Hs, Hu, Hchain, Hop.
  repeat (cbv beta iota zeta;
          cbn [Legacy.fault Legacy.db Legacy.journal negb];
          first [ rewrite Hh | rewrite Ht | rewrite Ha | rewrite Hpos
                | rewrite Hholder | rewrite Hbal ]).
  cbv beta iota zeta. cbn [fst snd Legacy.db]. split; reflexivity.
Qed.

(** X12. In the revision that reads [dst] and [to], a successful send
    stores the base64 of the signature over six fields in this order: chain,
    transaction hash, ticker, amount literal, the contract of [dst] and the
    receiver of [to]; the row names that contract and that receiver. *)
Theorem keyed_signature_attests_six_fields
  protocol transactionModel protocolURN rawTransaction u w w' :
  ParseProtocolString protocolURN = Ok u ->
  ProtocolURN.Operation u = "send" ->
  Keyed.Process protocol transactionModel protocolURN rawTransaction w
  = (Ok tt, w') ->
  exists row,
    Legacy.bridge_history (Legacy.db w')
    = (Legacy.bridge_history (Legacy.db w) ++ [row])%list
    /\ Legacy.BridgeHistory.Signature row
       = b64.EncodeToString
           (ed25519.Sign (privKey protocol)
              (chainID protocol ++ Transaction.Hash transactionModel
               ++ ticker u ++ amountString u
               ++ Go.TrimSpace (ProtocolURN.get u "dst")
               ++ Go.TrimSpace (ProtocolURN.get u "to")))
    /\ Legacy.BridgeHistory.BridgeContract row
       = Go.TrimSpace (ProtocolURN.get u "dst")
    /\ Legacy.BridgeHistory.Receiver row
       = Go.TrimSpace (ProtocolURN.get u "to").
Proof.
  intros Hu Hop H.
  destruct (Keyed_sent _ _ _ _ _ _ _ Hu Hop H)
    as (sender & t & a & h & _ & Hc & ->).
  destruct Hc as [Hchain Ht _ _ _ _].
  apply token_found in Ht. destruct Ht as [_ Ht].
  eexists. split; [reflexivity|].
  cbn [Legacy.stored_bridge_history Legacy.BridgeHistory.with_ID
         Legacy.BridgeHistory.Signature Legacy.BridgeHistory.BridgeContract
         Legacy.BridgeHistory.Receiver legacy_bridge_record].
  unfold six_fields, bridgeContract, receiverTo.
  rewrite Ht, Hchain. repeat split; reflexivity.
Qed.

(** X13. That revision asks for no remote chain and no gate: with a known
    sender and a driver that refuses nothing, a send succeeds exactly when
    the chain is the configured one, the token exists, the amount parses to
    a value for which [amount <= 0] is false (a finite value above zero,
    the positive infinity, or NaN) and the sender's holder row has at least
    [uint64(amount)]. *)
Theorem keyed_send_succeeds_exactly_when_checked
  protocol transactionModel protocolURN rawTransaction sender u w :
  GetSenderAddress rawTransaction = Ok sender ->
  ParseProtocolString protocolURN = Ok u ->
  ProtocolURN.Operation u = "send" ->
  (forall site, Legacy.fault w site = None) ->
  fst (Keyed.Process protocol transactionModel protocolURN rawTransaction w)
  = Ok tt
  <-> exists tokenModel amount holderModel,
        LegacyChecked (chainID protocol) u sender w tokenModel amount
          holderModel
        /\ (amount = S754_nan \/ amount = S754_infinity false
            \/ exists m e, amount = S754_finite false m e).
Proof.
  intros Hs Hu Hop Hh. split.
  - destruct (Keyed.Process protocol transactionModel protocolURN
                rawTransaction w) as [r w'] eqn:H.
    cbn [fst]. intros ->.
    destruct (Keyed_sent _ _ _ _ _ _ _ Hu Hop H)
      as (s & t & a & h & Hs' & Hc & _).
    assert (s = sender) by congruence. subst s.
    exists t, a, h. split; [exact Hc|].
    apply not_le_zero. exact (legacy_positive _ _ _ _ _ _ _ Hc).
  - intros (t & a & h & Hc & _).
    exact (proj1 (Keyed_when_checked _ transactionModel _ _ _ _ _ _ _ _
                    Hs Hu Hop Hh Hc)).
Qed.

(** X14. The latest revision only adds checks to that one: on states with
    the same [token], [token_holder] and [token_address_history] tables,
    whenever the latest [Process] completes a send, the earlier one
    completes it too and leaves the same holder table and the same
    [token_address_history] table. *)
Theorem latest_send_is_an_earlier_send
  protocol transactionModel protocolURN rawTransaction u w w'
  (old : Legacy.World) :
  ParseProtocolString protocolURN = Ok u ->
  ProtocolURN.Operation u = "send" ->
  Legacy.token (Legacy.db old) = gorm.token (db w) ->
  Legacy.token_holder (Legacy.db old) = gorm.token_holder (db w) ->
  Legacy.token_address_history (Legacy.db old)
  = gorm.token_address_history (db w) ->
  (forall site, Legacy.fault old site = None) ->
  Process protocol transactionModel protocolURN rawTransaction w = (Ok tt, w') ->
  fst (Keyed.Process protocol transactionModel protocolURN rawTransaction old)
  = Ok tt
  /\ Legacy.token_holder
       (Legacy.db (snd (Keyed.Process protocol transactionModel protocolURN
                          rawTransaction old)))
     = gorm.token_holder (db w')
  /\ Legacy.token_address_history
       (Legacy.db (snd (Keyed.Process protocol transactionModel protocolURN
                          rawTransaction old)))
     = gorm.token_address_history (db w').
Proof.
  intros Hu Hop Htok Hhold Hhist Hh H.
  destruct (Process_sent _ _ _ _ _ _ _ Hu Hop H)
    as (sender & t & c & a & h & Hs & Hc & Hdb & _).
  destruct Hc as [Hchain Ht _ _ _ Ha Hpos Hholder Hbal].
  assert (Hc' : LegacyChecked (chainID protocol) u sender old t a h).
  { constructor; try assumption.
    - now rewrite Htok.
    - now rewrite Hhold. }
  destruct (Keyed_when_checked _ transactionModel _ _ _ _ _ _ _ _
              Hs Hu Hop Hh Hc') as [Hok Hdb'].
  split; [exact Hok|]. rewrite Hdb', Hdb.
  cbn [legacy_written Legacy.token_holder Legacy.token_address_history
         written gorm.token_holder gorm.token_address_history
         gorm.set_token_holder gorm.set_token_address_history
         gorm.set_bridge_history].
  rewrite Hhold, Hhist. split; reflexivity.
Qed.

Lemma Placeholder_sent
  protocol transactionModel protocolURN rawTransaction u w w' :
  ParseProtocolString protocolURN = Ok u ->
  ProtocolURN.Operation u = "send" ->
  Placeholder.Process protocol transactionModel protocolURN rawTransaction w
  = (Ok tt, w') ->
  exists sender tokenModel amount holderModel,
    GetSenderAddress rawTransaction = Ok sender
    /\ LegacyChecked (Placeholder.chainID protocol) u sender w tokenModel
         amount holderModel
    /\ w' = {| Legacy.db :=
                 legacy_written (debited holderModel amount)
                   (legacy_transfer_record "transfer" transactionModel u sender
                      tokenModel amount)
                   (legacy_bridge_record "temporary signature placeholder"
                      transactionModel u sender tokenModel amount)
                   (Legacy.db w);
               Legacy.fault := Legacy.fault w;
               Legacy.journal :=
                 (Legacy.journal w
                  ++ [ Legacy.SavedTokenHolder (debited holderModel amount);
                       Legacy.SavedTokenAddressHistory
                         (legacy_transfer_record "transfer" transactionModel u
                            sender tokenModel amount);
                       Legacy.SavedBridgeHistory
                         (legacy_bridge_record "temporary signature placeholder"
                            transactionModel u sender tokenModel amount) ])%list |}.
Proof.
  intros Hu Hop H.
  unfold Placeholder.Process, Legacy.bind, Legacy.try, Legacy.First,
    Legacy.Save, Legacy.ret, Legacy.throw in H.
  rewrite Hu in H. cbv beta iota zeta in H.
  repeat (step H; try discriminate).
  all: injection H as <-; legacy_tidy.
  - eexists _, _, _, _. split; [reflexivity|]. split.
    + constructor; eauto.
    + reflexivity.
  - congruence.
Qed.

(** X15. The first revision attests nothing: a successful send signs
    nothing, stores the same placeholder text as the signature of every
    row, whatever was sent, and records the transfer under the action
    ["transfer"]. *)
Theorem placeholder_send_signs_nothing
  protocol transactionModel protocolURN rawTransaction u w w' :
  ParseProtocolString protocolURN = Ok u ->
  ProtocolURN.Operation u = "send" ->
  Placeholder.Process protocol transactionModel protocolURN rawTransaction w
  = (Ok tt, w') ->
  (exists row,
      Legacy.bridge_history (Legacy.db w')
      = (Legacy.bridge_history (Legacy.db w) ++ [row])%list
      /\ Legacy.BridgeHistory.Signature row = "temporary signature placeholder")
  /\ (exists row,
         Legacy.token_address_history (Legacy.db w')
         = (Legacy.token_address_history (Legacy.db w) ++ [row])%list
         /\ TokenAddressHistory.Action row = "transfer"
         /\ TokenAddressHistory.Receiver row = "bridge")
  /\ (forall message signature,
         In (Legacy.Signed message signature) (Legacy.journal w') ->
         In (Legacy.Signed message signature) (Legacy.journal w)).
Proof.
  intros Hu Hop H.
  destruct (Placeholder_sent _ _ _ _ _ _ _ Hu Hop H)
    as (sender & t & a & h & _ & _ & ->).
  cbn [Legacy.db Legacy.journal legacy_written Legacy.bridge_history
         Legacy.token_address_history].
  split; [eexists; split; reflexivity|].
  split; [eexists; split; [reflexivity | split; reflexivity]|].
  intros message signature Hin. apply in_app_or in Hin.
  destruct Hin as [Hin | [Hin | [Hin | [Hin | []]]]];
    [assumption | discriminate | discriminate | discriminate].
Qed.

End LegacyProperties.

(** * The further properties on literal inputs *)

Import Cases.

Lemma process_only_appends_history_witness :
  Process protocol transaction (send "250") alice (world 1000) = (Ok tt, sent250)
  /\ (gorm.token (db sent250) = gorm.token (db (world 1000))
      /\ gorm.bridge_remote_chain (db sent250)
         = gorm.bridge_remote_chain (db (world 1000))
      /\ gorm.bridge_token (db sent250) = gorm.bridge_token (db (world 1000))
      /\ fault sent250 = fault (world 1000)
      /\ (exists rows,
             (length rows <= 1)%nat
             /\ gorm.token_address_history (db sent250)
                = (gorm.token_address_history (db (world 1000)) ++ rows)%list)
      /\ (exists rows,
             (length rows <= 1)%nat
             /\ gorm.bridge_history (db sent250)
                = (gorm.bridge_history (db (world 1000)) ++ rows)%list)).
Proof.
  split; [vm_compute; reflexivity|].
  apply (process_only_appends_history protocol transaction (send "250") alice
           (world 1000) (Ok tt) sent250).
  vm_compute; reflexivity.
Defined.

Lemma failed_call_stores_no_signature_witness :
  Process protocol transaction (send "250") alice refusing
  = (Err (ErrSave "deadlock detected"), refused)
  /\ (gorm.bridge_history (db refused) = gorm.bridge_history (db refusing)
      /\ (fault refusing gorm.SaveTokenAddressHistory = None ->
          fault refusing gorm.SaveBridgeHistory = None ->
          refused = refusing)).
Proof.
  split; [vm_compute; reflexivity|].
  apply (failed_call_stores_no_signature protocol transaction (send "250") alice
           refusing (ErrSave "deadlock detected") refused).
  vm_compute; reflexivity.
Defined.

Lemma send_succeeds_exactly_when_checked_witness :
  GetSenderAddress alice = Ok "cosmos1alice"
  /\ ParseProtocolString (send "250") = Ok (memo "cosmoshub-4" "send" "250")
  /\ ProtocolURN.Operation (memo "cosmoshub-4" "send" "250") = "send"
  /\ (forall site, fault (world 1000) site = None)
  /\ (fst (Process protocol transaction (send "250") alice (world 1000)) = Ok tt
      <-> exists tokenModel remoteChainModel amount holderModel,
            Checked protocol (memo "cosmoshub-4" "send" "250") "cosmos1alice"
              (world 1000) tokenModel remoteChainModel amount holderModel
            /\ (amount = S754_nan \/ amount = S754_infinity false
                \/ exists m e, amount = S754_finite false m e)).
Proof.
  split; [reflexivity|]. split; [reflexivity|]. split; [reflexivity|].
  split; [intros site; reflexivity|].
  apply (send_succeeds_exactly_when_checked protocol transaction (send "250")
           alice "cosmos1alice" (memo "cosmoshub-4" "send" "250") (world 1000)).
  - reflexivity.
  - reflexivity.
  - reflexivity.
  - intros site; reflexivity.
Defined.

Lemma send_changes_one_holder_row_witness :
  ParseProtocolString (send "250") = Ok (memo "cosmoshub-4" "send" "250")
  /\ ProtocolURN.Operation (memo "cosmoshub-4" "send" "250") = "send"
  /\ NoDup (map TokenHolder.ID (gorm.token_holder (db two_tokens)))
  /\ (forall r, In r (gorm.token_holder (db two_tokens)) ->
                TokenHolder.ID r <> 0 /\ 0 <= TokenHolder.Amount r < Go.two64)
  /\ Process protocol transaction (send "250") alice two_tokens
     = (Ok tt, sent_tick)
  /\ exists sender tokenModel amount holderModel before after,
       GetSenderAddress alice = Ok sender
       /\ Go.ParseFloat (amountString (memo "cosmoshub-4" "send" "250"))
          = Ok amount
       /\ gorm.first_row TokenHolder.ID
            (Where.token_holder
               (ProtocolURN.ChainID (memo "cosmoshub-4" "send" "250"))
               (Token.ID tokenModel) sender)
            (gorm.token_holder (db two_tokens)) = Some holderModel
       /\ gorm.token_holder (db two_tokens)
          = (before ++ holderModel :: after)%list
       /\ gorm.token_holder (db sent_tick)
          = (before
             ++ TokenHolder.with_Amount holderModel
                  (TokenHolder.Amount holderModel - Go.uint64 amount)
             :: after)%list
       /\ 0 <= TokenHolder.Amount holderModel - Go.uint64 amount
       /\ fold_right Z.add 0
            (map TokenHolder.Amount (gorm.token_holder (db sent_tick)))
          = fold_right Z.add 0
              (map TokenHolder.Amount (gorm.token_holder (db two_tokens)))
            - Go.uint64 amount.
Proof.
  assert (Hnd : NoDup (map TokenHolder.ID (gorm.token_holder (db two_tokens)))).
  { cbn. repeat constructor; cbn; intuition discriminate. }
  assert (Hwf : forall r, In r (gorm.token_holder (db two_tokens)) ->
                  TokenHolder.ID r <> 0 /\ 0 <= TokenHolder.Amount r < Go.two64).
  { intros r [<-|[<-|[]]]; cbn; repeat split; discriminate || reflexivity. }
  split; [reflexivity|]. split; [reflexivity|]. split; [exact Hnd|].
  split; [exact Hwf|]. split; [vm_compute; reflexivity|].
  apply (send_changes_one_holder_row protocol transaction (send "250") alice
           (memo "cosmoshub-4" "send" "250") two_tokens sent_tick).
  - reflexivity.
  - reflexivity.
  - exact Hnd.
  - exact Hwf.
  - vm_compute; reflexivity.
Defined.

Lemma holder_query_sees_the_debit_witness :
  ParseProtocolString (send "250") = Ok (memo "cosmoshub-4" "send" "250")
  /\ ProtocolURN.Operation (memo "cosmoshub-4" "send" "250") = "send"
  /\ Process protocol transaction (send "250") alice (world 1000)
     = (Ok tt, sent250)
  /\ exists sender tokenModel amount holderModel,
       GetSenderAddress alice = Ok sender
       /\ Go.ParseFloat (amountString (memo "cosmoshub-4" "send" "250"))
          = Ok amount
       /\ gorm.first_row TokenHolder.ID
            (Where.token_holder
               (ProtocolURN.ChainID (memo "cosmoshub-4" "send" "250"))
               (Token.ID tokenModel) sender)
            (gorm.token_holder (db (world 1000))) = Some holderModel
       /\ (TokenHolder.ID holderModel <> 0 ->
           gorm.first_row TokenHolder.ID
             (Where.token_holder
                (ProtocolURN.ChainID (memo "cosmoshub-4" "send" "250"))
                (Token.ID tokenModel) sender)
             (gorm.token_holder (db sent250))
           = Some (TokenHolder.with_Amount holderModel
                     (Go.sub64 (TokenHolder.Amount holderModel)
                        (Go.uint64 amount)))).
Proof.
  split; [reflexivity|]. split; [reflexivity|]. split; [vm_compute; reflexivity|].
  apply (holder_query_sees_the_debit protocol transaction (send "250") alice
           (memo "cosmoshub-4" "send" "250") (world 1000) sent250).
  - reflexivity.
  - reflexivity.
  - vm_compute; reflexivity.
Defined.

Lemma replayed_send_debits_again_witness :
  ParseProtocolString (send "250") = Ok (memo "cosmoshub-4" "send" "250")
  /\ ProtocolURN.Operation (memo "cosmoshub-4" "send" "250") = "send"
  /\ (forall site, fault (world 1000) site = None)
  /\ Process protocol transaction (send "250") alice (world 1000)
     = (Ok tt, sent250)
  /\ exists sender tokenModel amount holderModel,
       GetSenderAddress alice = Ok sender
       /\ Go.ParseFloat (amountString (memo "cosmoshub-4" "send" "250"))
          = Ok amount
       /\ gorm.first_row TokenHolder.ID
            (Where.token_holder
               (ProtocolURN.ChainID (memo "cosmoshub-4" "send" "250"))
               (Token.ID tokenModel) sender)
            (gorm.token_holder (db (world 1000))) = Some holderModel
       /\ (TokenHolder.ID holderModel <> 0 ->
           Go.lt64 (Go.sub64 (TokenHolder.Amount holderModel) (Go.uint64 amount))
             (Go.uint64 amount) = false ->
           exists w2 row1 row2,
             Process protocol transaction (send "250") alice sent250
             = (Ok tt, w2)
             /\ gorm.bridge_history (db w2)
                = (gorm.bridge_history (db (world 1000)) ++ [row1; row2])%list
             /\ BridgeHistory.Signature row1 = BridgeHistory.Signature row2
             /\ gorm.first_row TokenHolder.ID
                  (Where.token_holder
                     (ProtocolURN.ChainID (memo "cosmoshub-4" "send" "250"))
                     (Token.ID tokenModel) sender)
                  (gorm.token_holder (db w2))
                = Some (TokenHolder.with_Amount holderModel
                          (Go.sub64
                             (Go.sub64 (TokenHolder.Amount holderModel)
                                (Go.uint64 amount))
                             (Go.uint64 amount)))).
Proof.
  split; [reflexivity|]. split; [reflexivity|].
  split; [intros site; reflexivity|]. split; [vm_compute; reflexivity|].
  apply (replayed_send_debits_again protocol transaction (send "250") alice
           (memo "cosmoshub-4" "send" "250") (world 1000) sent250).
  - reflexivity.
  - reflexivity.
  - intros site; reflexivity.
  - vm_compute; reflexivity.
Defined.

(** The replay on the scenario: 1000, then 750, then 500, and two rows with
    one signature. *)
Example replay_of_the_scenario :
  fst (Process protocol transaction (send "250") alice sent250) = Ok tt
  /\ gorm.token_holder
       (db (snd (Process protocol transaction (send "250") alice sent250)))
     = [holder 500]
  /\ map BridgeHistory.Signature
       (gorm.bridge_history
          (db (snd (Process protocol transaction (send "250") alice sent250))))
     = [ BridgeHistory.Signature
           (bridge_record protocol transaction (memo "cosmoshub-4" "send" "250")
              "cosmos1alice" TICK (Go.float64_of_Z 250));
         BridgeHistory.Signature
           (bridge_record protocol transaction (memo "cosmoshub-4" "send" "250")
              "cosmos1alice" TICK (Go.float64_of_Z 250)) ].
Proof. repeat split; vm_compute; reflexivity. Qed.

Lemma signature_ignores_field_boundaries_witness :
  ParseProtocolString (send "250") = Ok (memo "cosmoshub-4" "send" "250")
  /\ ParseProtocolString tick2_send = Ok fifty_tick2
  /\ ProtocolURN.Operation (memo "cosmoshub-4" "send" "250") = "send"
  /\ ProtocolURN.Operation fifty_tick2 = "send"
  /\ ticker (memo "cosmoshub-4" "send" "250") = "TICK"
  /\ amountString (memo "cosmoshub-4" "send" "250") = "250"
  /\ ticker fifty_tick2 = "TICK2"
  /\ amountString fifty_tick2 = "50"
  /\ Process protocol transaction (send "250") alice two_tokens
     = (Ok tt, sent_tick)
  /\ Process protocol transaction tick2_send alice two_tokens
     = (Ok tt, sent_tick2)
  /\ exists row1 row2,
       gorm.bridge_history (db sent_tick)
       = (gorm.bridge_history (db two_tokens) ++ [row1])%list
       /\ gorm.bridge_history (db sent_tick2)
          = (gorm.bridge_history (db two_tokens) ++ [row2])%list
       /\ BridgeHistory.Signature row1 = BridgeHistory.Signature row2.
Proof.
  split; [reflexivity|]. split; [reflexivity|]. split; [reflexivity|].
  split; [reflexivity|]. split; [vm_compute; reflexivity|].
  split; [vm_compute; reflexivity|]. split; [vm_compute; reflexivity|].
  split; [vm_compute; reflexivity|]. split; [vm_compute; reflexivity|].
  split; [vm_compute; reflexivity|].
  apply (signature_ignores_field_boundaries protocol transaction transaction
           (send "250") tick2_send alice alice
           (memo "cosmoshub-4" "send" "250") fifty_tick2
           two_tokens two_tokens sent_tick sent_tick2).
  - reflexivity.
  - reflexivity.
  - reflexivity.
  - reflexivity.
  - vm_compute; reflexivity.
  - vm_compute; reflexivity.
  - vm_compute; reflexivity.
Defined.

Lemma amount_below_one_debits_nothing_witness :
  ParseProtocolString (send "0.5") = Ok (memo "cosmoshub-4" "send" "0.5")
  /\ ProtocolURN.Operation (memo "cosmoshub-4" "send" "0.5") = "send"
  /\ Process protocol transaction (send "0.5") alice (world 0) = (Ok tt, sent_half)
  /\ exists sender tokenModel amount holderModel,
       Go.ParseFloat (amountString (memo "cosmoshub-4" "send" "0.5")) = Ok amount
       /\ gorm.first_row TokenHolder.ID
            (Where.token_holder
               (ProtocolURN.ChainID (memo "cosmoshub-4" "send" "0.5"))
               (Token.ID tokenModel) sender)
            (gorm.token_holder (db (world 0))) = Some holderModel
       /\ (Go.trunc amount = Some 0 ->
           0 <= TokenHolder.Amount holderModel < Go.two64 ->
           gorm.token_holder (db sent_half)
           = gorm.save_token_holder holderModel (gorm.token_holder (db (world 0)))
           /\ exists row,
                gorm.bridge_history (db sent_half)
                = (gorm.bridge_history (db (world 0)) ++ [row])%list
                /\ BridgeHistory.Amount row = Go.uint64 (Go.Round amount)
                /\ BridgeHistory.Signature row
                   = b64.EncodeToString
                       (ed25519.Sign (privKey protocol)
                          (send_attestation transaction
                             (memo "cosmoshub-4" "send" "0.5") tokenModel))).
Proof.
  split; [reflexivity|]. split; [reflexivity|]. split; [vm_compute; reflexivity|].
  apply (amount_below_one_debits_nothing protocol transaction (send "0.5") alice
           (memo "cosmoshub-4" "send" "0.5") (world 0) sent_half).
  - reflexivity.
  - reflexivity.
  - vm_compute; reflexivity.
Defined.

(** One half sent from an empty holder: nothing is debited, the rows record
    one token, and the literal is signed. *)
Example half_a_token_from_nothing :
  Go.ParseFloat "0.5" = Ok (S754_finite false 4503599627370496 (-53))
  /\ Go.trunc (S754_finite false 4503599627370496 (-53)) = Some 0
  /\ fst (Process protocol transaction (send "0.5") alice (world 0)) = Ok tt
  /\ gorm.token_holder (db sent_half) = [holder 0]
  /\ map BridgeHistory.Amount (gorm.bridge_history (db sent_half)) = [1]
  /\ map BridgeHistory.Signature (gorm.bridge_history (db sent_half))
     = [b64.EncodeToString
          (ed25519.Sign "k1"
             ("cosmoshub-4" ++ "C0FFEE" ++ "TICK" ++ "0.5" ++ "osmosis-1"
              ++ "osmo1contract" ++ "osmo1bob"))].
Proof. repeat split; vm_compute; reflexivity. Qed.

Lemma process_reads_five_keys_witness :
  ParseProtocolString (send "250") = Ok (memo "cosmoshub-4" "send" "250")
  /\ ParseProtocolString decorated_send = Ok decorated
  /\ ProtocolURN.ChainID (memo "cosmoshub-4" "send" "250")
     = ProtocolURN.ChainID decorated
  /\ ProtocolURN.Operation (memo "cosmoshub-4" "send" "250")
     = ProtocolURN.Operation decorated
  /\ ProtocolURN.Version (memo "cosmoshub-4" "send" "250")
     <> ProtocolURN.Version decorated
  /\ Process protocol transaction (send "250") alice (world 1000)
     = Process protocol transaction decorated_send alice (world 1000).
Proof.
  split; [reflexivity|]. split; [reflexivity|]. split; [reflexivity|].
  split; [reflexivity|]. split; [discriminate|].
  apply (process_reads_five_keys protocol transaction (send "250")
           decorated_send alice (memo "cosmoshub-4" "send" "250") decorated
           (world 1000)).
  - reflexivity.
  - reflexivity.
  - reflexivity.
  - reflexivity.
  - vm_compute; reflexivity.
  - vm_compute; reflexivity.
  - vm_compute; reflexivity.
  - vm_compute; reflexivity.
  - vm_compute; reflexivity.
Defined.

Lemma history_rows_refer_to_the_tables_witness :
  ParseProtocolString (send "250") = Ok (memo "cosmoshub-4" "send" "250")
  /\ ProtocolURN.Operation (memo "cosmoshub-4" "send" "250") = "send"
  /\ Process protocol transaction (send "250") alice (world 1000)
     = (Ok tt, sent250)
  /\ exists tokenModel remoteChainModel bridgeTokenModel history,
       In tokenModel (gorm.token (db sent250))
       /\ In remoteChainModel (gorm.bridge_remote_chain (db sent250))
       /\ In bridgeTokenModel (gorm.bridge_token (db sent250))
       /\ In history (gorm.bridge_history (db sent250))
       /\ BridgeHistory.TokenID history = Token.ID tokenModel
       /\ BridgeHistory.RemoteContract history
          = BridgeRemoteChain.RemoteContract remoteChainModel
       /\ BridgeToken.Enabled bridgeTokenModel = true.
Proof.
  split; [reflexivity|]. split; [reflexivity|]. split; [vm_compute; reflexivity|].
  destruct (history_rows_refer_to_the_tables protocol transaction (send "250")
              alice (memo "cosmoshub-4" "send" "250") (world 1000) sent250
              eq_refl eq_refl)
    as (sender & transfer & history & t & c & b & _ & _ & Hrows
        & (Ht & _ & _ & Hid & _) & (Hc & _ & _ & Hrco) & (Hb & _ & _ & Hen) & _).
  - vm_compute; reflexivity.
  - exists t, c, b, history.
    split; [exact Ht|]. split; [exact Hc|]. split; [exact Hb|].
    split; [rewrite Hrows; apply in_or_app; right; left; reflexivity|].
    split; [exact Hid|]. split; [exact Hrco|]. exact Hen.
Defined.

Lemma NewBridgeProcessor_takes_keys_as_given_witness :
  x509.ParsePKCS8PrivateKey "sk1" = Ok (x509.Ed25519Private "k1")
  /\ x509.ParsePKIXPublicKey ("p" ++ Public "k2")
     = Ok (x509.Ed25519Public (Public "k2"))
  /\ NewBridgeProcessor "cosmoshub-4"
       (Ok {| BridgePrivateKey := b64.EncodeToString "sk1";
              BridgePublicKey := b64.EncodeToString ("p" ++ Public "k2") |})
     = Ok {| chainID := "cosmoshub-4"; privKey := "k1"; pubKey := Public "k2" |}.
Proof.
  split; [reflexivity|]. split; [reflexivity|].
  apply (@NewBridgeProcessor_takes_keys_as_given Concrete.scheme Concrete.parser
           "cosmoshub-4" "sk1" ("p" ++ Public "k2") "k1" (Public "k2")).
  - reflexivity.
  - reflexivity.
Defined.

Lemma stored_signature_length_witness :
  ParseProtocolString (send "250") = Ok (memo "cosmoshub-4" "send" "250")
  /\ ProtocolURN.Operation (memo "cosmoshub-4" "send" "250") = "send"
  /\ @Process library sized envelope sized_protocol transaction (send "250")
       alice (world 1000)
     = (Ok tt, sized_sent)
  /\ String.length
       (@ed25519.Sign sized (privKey sized_protocol)
          (attestation (chainID sized_protocol) (Transaction.Hash transaction)
             (ticker (memo "cosmoshub-4" "send" "250"))
             (amountString (memo "cosmoshub-4" "send" "250"))
             (remoteChainId (memo "cosmoshub-4" "send" "250"))
             (remoteContract (memo "cosmoshub-4" "send" "250"))
             (receiverAddress (memo "cosmoshub-4" "send" "250"))))
     = 64%nat
  /\ exists row,
       gorm.bridge_history (db sized_sent)
       = (gorm.bridge_history (db (world 1000)) ++ [row])%list
       /\ String.length (BridgeHistory.Signature row) = 88%nat
       /\ ((String.length (BridgeHistory.Signature row) <= 256)%nat
           <-> (64 <= 192)%nat).
Proof.
  split; [reflexivity|]. split; [reflexivity|]. split; [vm_compute; reflexivity|].
  split; [vm_compute; reflexivity|].
  apply (@stored_signature_length library sized envelope sized_protocol
           transaction (send "250") alice (memo "cosmoshub-4" "send" "250")
           (world 1000) sized_sent 64%nat).
  - reflexivity.
  - reflexivity.
  - vm_compute; reflexivity.
  - vm_compute; reflexivity.
Defined.

(** *** The earlier revisions *)

Lemma keyed_signature_attests_six_fields_witness :
  ParseProtocolString old_send = Ok old_memo
  /\ ProtocolURN.Operation old_memo = "send"
  /\ Keyed.Process protocol transaction old_send alice (old_world 1000)
     = (Ok tt, old_sent)
  /\ exists row,
       Legacy.bridge_history (Legacy.db old_sent)
       = (Legacy.bridge_history (Legacy.db (old_world 1000)) ++ [row])%list
       /\ Legacy.BridgeHistory.Signature row
          = b64.EncodeToString
              (ed25519.Sign (privKey protocol)
                 (chainID protocol ++ Transaction.Hash transaction
                  ++ ticker old_memo ++ amountString old_memo
                  ++ Go.TrimSpace (ProtocolURN.get old_memo "dst")
                  ++ Go.TrimSpace (ProtocolURN.get old_memo "to")))
       /\ Legacy.BridgeHistory.BridgeContract row
          = Go.TrimSpace (ProtocolURN.get old_memo "dst")
       /\ Legacy.BridgeHistory.Receiver row
          = Go.TrimSpace (ProtocolURN.get old_memo "to").
Proof.
  split; [reflexivity|]. split; [reflexivity|]. split; [vm_compute; reflexivity|].
  apply (keyed_signature_attests_six_fields protocol transaction old_send
           alice old_memo (old_world 1000) old_sent).
  - reflexivity.
  - reflexivity.
  - vm_compute; reflexivity.
Defined.

Lemma keyed_send_succeeds_exactly_when_checked_witness :
  GetSenderAddress alice = Ok "cosmos1alice"
  /\ ParseProtocolString old_send = Ok old_memo
  /\ ProtocolURN.Operation old_memo = "send"
  /\ (forall site, Legacy.fault (old_world 1000) site = None)
  /\ (fst (Keyed.Process protocol transaction old_send alice (old_world 1000))
      = Ok tt
      <-> exists tokenModel amount holderModel,
            LegacyChecked (chainID protocol) old_memo "cosmos1alice"
              (old_world 1000) tokenModel amount holderModel
            /\ (amount = S754_nan \/ amount = S754_infinity false
                \/ exists m e, amount = S754_finite false m e)).
Proof.
  split; [reflexivity|]. split; [reflexivity|]. split; [reflexivity|].
  split; [intros site; reflexivity|].
  apply (keyed_send_succeeds_exactly_when_checked protocol transaction
           old_send alice "cosmos1alice" old_memo (old_world 1000)).
  - reflexivity.
  - reflexivity.
  - reflexivity.
  - intros site; reflexivity.
Defined.

Lemma latest_send_is_an_earlier_send_witness :
  ParseProtocolString (send "250") = Ok (memo "cosmoshub-4" "send" "250")
  /\ ProtocolURN.Operation (memo "cosmoshub-4" "send" "250") = "send"
  /\ Legacy.token (Legacy.db (old_world 1000)) = gorm.token (db (world 1000))
  /\ Legacy.token_holder (Legacy.db (old_world 1000))
     = gorm.token_holder (db (world 1000))
  /\ Legacy.token_address_history (Legacy.db (old_world 1000))
     = gorm.token_address_history (db (world 1000))
  /\ (forall site, Legacy.fault (old_world 1000) site = None)
  /\ Process protocol transaction (send "250") alice (world 1000)
     = (Ok tt, sent250)
  /\ (fst (Keyed.Process protocol transaction (send "250") alice (old_world 1000))
      = Ok tt
      /\ Legacy.token_holder
           (Legacy.db (snd (Keyed.Process protocol transaction (send "250")
                              alice (old_world 1000))))
         = gorm.token_holder (db sent250)
      /\ Legacy.token_address_history
           (Legacy.db (snd (Keyed.Process protocol transaction (send "250")
                              alice (old_world 1000))))
         = gorm.token_address_history (db sent250)).
Proof.
  split; [reflexivity|]. split; [reflexivity|]. split; [reflexivity|].
  split; [reflexivity|]. split; [reflexivity|].
  split; [intros site; reflexivity|]. split; [vm_compute; reflexivity|].
  apply (latest_send_is_an_earlier_send protocol transaction (send "250") alice
           (memo "cosmoshub-4" "send" "250") (world 1000) sent250
           (old_world 1000)).
  - reflexivity.
  - reflexivity.
  - reflexivity.
  - reflexivity.
  - reflexivity.
  - intros site; reflexivity.
  - vm_compute; reflexivity.
Defined.

(** The converse fails: with the gate shut the latest revision refuses the
    send the earlier one completes. *)
Example earlier_send_without_gate :
  fst (Process protocol transaction (send "250") alice shut)
  = Err (ErrNotEnabled "TICK" "osmosis-1")
  /\ fst (Keyed.Process protocol transaction (send "250") alice (old_world 1000))
     = Ok tt.
Proof. split; vm_compute; reflexivity. Qed.

Lemma placeholder_send_signs_nothing_witness :
  ParseProtocolString old_send = Ok old_memo
  /\ ProtocolURN.Operation old_memo = "send"
  /\ Placeholder.Process old_protocol transaction old_send alice
       (old_world 1000)
     = (Ok tt, oldest_sent)
  /\ ((exists row,
          Legacy.bridge_history (Legacy.db oldest_sent)
          = (Legacy.bridge_history (Legacy.db (old_world 1000)) ++ [row])%list
          /\ Legacy.BridgeHistory.Signature row
             = "temporary signature placeholder")
      /\ (exists row,
             Legacy.token_address_history (Legacy.db oldest_sent)
             = (Legacy.token_address_history (Legacy.db (old_world 1000))
                ++ [row])%list
             /\ TokenAddressHistory.Action row = "transfer"
             /\ TokenAddressHistory.Receiver row = "bridge")
      /\ (forall message signature,
             In (Legacy.Signed message signature) (Legacy.journal oldest_sent) ->
             In (Legacy.Signed message signature)
               (Legacy.journal (old_world 1000)))).
Proof.
  split; [reflexivity|]. split; [reflexivity|]. split; [vm_compute; reflexivity|].
  apply (placeholder_send_signs_nothing old_protocol transaction old_send
           alice old_memo (old_world 1000) oldest_sent).
  - reflexivity.
  - reflexivity.
  - vm_compute; reflexivity.
Defined.
